(** * Supply-chain analyzer: a shallow embedding of [analyzer.py] and of the
      score columns and callbacks of [dashboard.py]

    The engine is a Python class over one pandas [DataFrame].  The data
    frame operations the engine calls ([read_csv], column selection, boolean
    masks, [groupby(...).agg], [nlargest], [mean], [std], [clip]) are modelled
    column-wise, the way the source uses them; the methods of the class are
    written in a state-and-exception monad over the instance.

    Cells.  A numeric column holds numbers or nothing: pandas reads an empty
    field and the usual markers ([NA], [n/a], [null], ...) as a missing value
    (NaN), which no comparison satisfies, which [sum], [mean], [std] and
    [count] skip and which [groupby] drops as a key.  A column of text holds
    strings or nothing.

    Numbers.  The value of a cell is a rational ([Q]); every finite binary
    float is one.  The results of float arithmetic are not: the sum, mean and
    standard deviation of a column, the sum [mean + std] and [round(2)]
    depend on rounding and on the order in which the library adds, so they
    are fields of a record [Library] that every definition of the engine
    takes as an argument.  Whatever is proved holds for every such library.
    Comparisons, minima, maxima and counts are exact.  The score columns of
    the dashboard are written with exact arithmetic; what is stated about
    them are bounds, monotonicity and special values, which rounding
    preserves, and in one place the quotient itself, which stands for the
    float nearest to it. *)

From Stdlib Require Import String DecimalString OrderedTypeEx.
From Stdlib Require Import Bool Arith ZArith QArith Qround Lia Lqa.
From Stdlib Require Qcanon.
From Stdlib Require Import List Sorting.Sorted Permutation.
Import ListNotations.

Close Scope Q_scope.
Local Open Scope string_scope.
Local Open Scope list_scope.

(** ** Exceptions and results *)

Inductive exn : Type :=
| FileNotFoundError
| PermissionError
| EmptyDataError
| ParserError
| UnicodeDecodeError
| KeyError (name : string)
| TypeError.

Inductive result (A : Type) : Type :=
| Ok (a : A)
| Raise (e : exn).
Arguments Ok {A} a.
Arguments Raise {A} e.

Definition rbind {A B} (r : result A) (k : A -> result B) : result B :=
  match r with
  | Ok a => k a
  | Raise e => Raise e
  end.

Declare Scope result_scope.
Delimit Scope result_scope with res.
Notation "'let?' x ':=' r 'in' k" := (rbind r (fun x => k))
  (at level 10, x pattern, r at level 100, k at level 200) : result_scope.

Fixpoint rmap {A B} (f : A -> result B) (l : list A) : result (list B) :=
  match l with
  | [] => Ok []
  | a :: l' =>
      match f a with
      | Raise e => Raise e
      | Ok b => match rmap f l' with
                | Raise e => Raise e
                | Ok bs => Ok (b :: bs)
                end
      end
  end.

(** ** Numbers *)

Definition Qltb (x y : Q) : bool := negb (Qle_bool y x).
Definition Qgtb (x y : Q) : bool := Qltb y x.

Definition Qsum (xs : list Q) : Q := fold_right Qplus 0%Q xs.

Definition Q_of_nat (n : nat) : Q := inject_Z (Z.of_nat n).

(** The mean of rationals without rounding; the mean of no value at all is
    NaN, written [None]. *)
Definition mean (xs : list Q) : option Q :=
  match xs with
  | [] => None
  | _ => Some (Qsum xs / Q_of_nat (length xs))%Q
  end.

(** A number without fractional part. *)
Definition is_whole (q : Q) : bool := Qeq_bool (inject_Z (Qfloor q)) q.

(** ** Scalars and the library *)

Inductive scalar : Type :=
| Num (q : Q)
| Str (s : string)
| NaN.

Inductive reducer : Type := Sum | Mean | Count | Min | Max.

(** What the engine takes from pandas and numpy without the source fixing
    it: the float results of reductions over two or more numbers (those of a
    column, and the sum and mean of one group of [groupby], which are
    computed by other routines and need not round alike), of one addition and
    of rounding to two decimals, and the reductions [sum], [mean], [min] and
    [max] over a column of text (per column for [Series.sum()], per list of
    groups for [groupby(...).agg]). *)
Record Library : Type := mkLibrary {
  fsum : list Q -> Q;
  fmean : list Q -> Q;
  fstd : list Q -> Q;
  fadd : Q -> Q -> Q;
  gsum : list Q -> Q;
  gmean : list Q -> Q;
  fround2 : Q -> Q;
  object_sum : list (option string) -> result scalar;
  object_agg : reducer -> list (list (option string)) -> result (list scalar)
}.

(** The cells that are not missing ([skipna], the default of every
    reduction). *)
Fixpoint dropna {A} (xs : list (option A)) : list A :=
  match xs with
  | [] => []
  | Some a :: xs' => a :: dropna xs'
  | None :: xs' => dropna xs'
  end.

(** [Series.sum()] of a numeric column: 0 when nothing is there, the value
    itself when one value is, otherwise the float sum of the library. *)
Definition nansum (F : Library) (xs : list (option Q)) : Q :=
  match dropna xs with
  | [] => 0%Q
  | [x] => x
  | l => fsum F l
  end.

(** [Series.mean()]: NaN when nothing is there, and the value itself for a
    single value. *)
Definition nanmean (F : Library) (xs : list (option Q)) : option Q :=
  match dropna xs with
  | [] => None
  | [x] => Some x
  | l => Some (fmean F l)
  end.

(** [Series.std()] divides by the number of values less one: it is NaN for
    fewer than two values. *)
Definition nanstd (F : Library) (xs : list (option Q)) : option Q :=
  match dropna xs with
  | [] => None
  | [_] => None
  | l => Some (fstd F l)
  end.

(** The sum of two floats, NaN when one of them is. *)
Definition nan_add (F : Library) (a b : option Q) : option Q :=
  match a, b with
  | Some x, Some y => Some (fadd F x y)
  | _, _ => None
  end.

(** [x < y] and [x > y] on floats: [False] when one of them is NaN. *)
Definition nan_lt (x y : option Q) : bool :=
  match x, y with
  | Some a, Some b => Qltb a b
  | _, _ => false
  end.

Definition nan_gt (x y : option Q) : bool := nan_lt y x.

(** ** Columns and data frames *)

Inductive column : Type :=
| NumCol (xs : list (option Q))
| StrCol (xs : list (option string)).

Definition col_length (c : column) : nat :=
  match c with
  | NumCol xs => length xs
  | StrCol xs => length xs
  end.

Definition opt_scalar {A} (inj : A -> scalar) (o : option A) : scalar :=
  match o with
  | Some a => inj a
  | None => NaN
  end.

Definition cells (c : column) : list scalar :=
  match c with
  | NumCol xs => map (opt_scalar Num) xs
  | StrCol xs => map (opt_scalar Str) xs
  end.

(** A frame: the row labels (the [RangeIndex] of the loaded file, kept by
    every row selection) and the named columns, in file order. *)
Record DataFrame : Type := mkFrame {
  index : list nat;
  columns : list (string * column)
}.

Definition wf_frame (df : DataFrame) : Prop :=
  Forall (fun nc => col_length (snd nc) = length (index df)) (columns df).

Fixpoint assoc {A} (name : string) (l : list (string * A)) : option A :=
  match l with
  | [] => None
  | (n, a) :: l' => if String.eqb n name then Some a else assoc name l'
  end.

(** [df[name]] *)
Definition getitem (df : DataFrame) (name : string) : result column :=
  match assoc name (columns df) with
  | Some c => Ok c
  | None => Raise (KeyError name)
  end.

Definition is_some {A} (o : option A) : bool :=
  match o with
  | Some _ => true
  | None => false
  end.

(** The numbers of a column, for a comparison with a number or for
    arithmetic.  A string among the cells makes the operation raise
    [TypeError]; a column of text of which nothing is a string (the columns
    of a table without rows are such) passes, every cell being NaN. *)
Definition as_numbers (c : column) : result (list (option Q)) :=
  match c with
  | NumCol xs => Ok xs
  | StrCol xs => if existsb is_some xs then Raise TypeError else Ok (map (fun _ => None) xs)
  end.

(** [series < k] and [series > k] with a number [k]. *)
Definition lt_scalar (c : column) (k : Q) : result (list bool) :=
  rbind (as_numbers c) (fun xs => Ok (map (fun x => nan_lt x (Some k)) xs)).

Definition gt_scalar (c : column) (k : Q) : result (list bool) :=
  rbind (as_numbers c) (fun xs => Ok (map (fun x => nan_gt x (Some k)) xs)).

(** [series == s] with a string [s]: no number and no missing cell equals a
    string. *)
Definition eq_str (c : column) (s : string) : list bool :=
  match c with
  | NumCol xs => map (fun _ => false) xs
  | StrCol xs => map (fun x => match x with
                               | Some t => String.eqb t s
                               | None => false
                               end) xs
  end.

(** [series > series.mean()] *)
Definition gt_own_mean (F : Library) (c : column) : result (list bool) :=
  rbind (as_numbers c) (fun xs =>
    let m := nanmean F xs in
    Ok (map (fun x => nan_gt x m) xs)).

(** [series > series.mean() + series.std()] *)
Definition gt_own_mean_plus_std (F : Library) (c : column) : result (list bool) :=
  rbind (as_numbers c) (fun xs =>
    let t := nan_add F (nanmean F xs) (nanstd F xs) in
    Ok (map (fun x => nan_gt x t) xs)).

(** Boolean-mask selection [xs[mask]]. *)
Fixpoint select {A} (mask : list bool) (xs : list A) : list A :=
  match mask, xs with
  | b :: mask', x :: xs' => if b then x :: select mask' xs' else select mask' xs'
  | _, _ => []
  end.

Definition select_col (mask : list bool) (c : column) : column :=
  match c with
  | NumCol xs => NumCol (select mask xs)
  | StrCol xs => StrCol (select mask xs)
  end.

(** [df[mask]] *)
Definition filter_rows (mask : list bool) (df : DataFrame) : DataFrame :=
  {| index := select mask (index df);
     columns := map (fun nc => (fst nc, select_col mask (snd nc))) (columns df) |}.

(** Positional selection [take]. *)
Definition take_list {A} (d : A) (pos : list nat) (xs : list A) : list A :=
  map (fun i => nth i xs d) pos.

Definition take_col (pos : list nat) (c : column) : column :=
  match c with
  | NumCol xs => NumCol (take_list None pos xs)
  | StrCol xs => StrCol (take_list None pos xs)
  end.

Definition take (pos : list nat) (df : DataFrame) : DataFrame :=
  {| index := take_list 0 pos (index df);
     columns := map (fun nc => (fst nc, take_col pos (snd nc))) (columns df) |}.

(** [df[[n1, n2, ...]]]: the named columns, in the order asked for. *)
Definition project (names : list string) (df : DataFrame) : result DataFrame :=
  match rmap (fun n => match getitem df n with
                       | Ok c => Ok (n, c)
                       | Raise e => Raise e
                       end) names with
  | Ok cs => Ok {| index := index df; columns := cs |}
  | Raise e => Raise e
  end.

Definition df_len (df : DataFrame) : nat := length (index df).

(** [df.empty]: some axis has length zero. *)
Definition df_empty (df : DataFrame) : bool :=
  Nat.eqb (length (index df)) 0 || Nat.eqb (length (columns df)) 0.

(** ** [nlargest]

    [df.nlargest(n, name)] keeps the [n] rows with the largest values of the
    column, largest first, and among equal values the rows that come first
    in the frame ([keep='first']): the order of a stable sort of the
    positions by descending value.  Rows without a value come after all
    others, in frame order, and are kept only when fewer than [n] rows have
    one.  The column must have a numeric type; a column of text raises
    [TypeError], whatever it holds. *)

Fixpoint insert_desc (x : nat * Q) (l : list (nat * Q)) : list (nat * Q) :=
  match l with
  | [] => [x]
  | y :: l' => if Qltb (snd x) (snd y) then y :: insert_desc x l' else x :: l
  end.

Definition sort_desc (l : list (nat * Q)) : list (nat * Q) :=
  fold_right insert_desc [] l.

Definition enumerate {A} (xs : list A) : list (nat * A) :=
  combine (seq 0 (length xs)) xs.

(** The cells that hold a value, with their positions. *)
Fixpoint valued (ixs : list (nat * option Q)) : list (nat * Q) :=
  match ixs with
  | [] => []
  | (i, Some q) :: ixs' => (i, q) :: valued ixs'
  | (_, None) :: ixs' => valued ixs'
  end.

(** The positions of the cells that hold none. *)
Fixpoint unvalued (ixs : list (nat * option Q)) : list nat :=
  match ixs with
  | [] => []
  | (_, Some _) :: ixs' => unvalued ixs'
  | (i, None) :: ixs' => i :: unvalued ixs'
  end.

Definition nlargest_order (xs : list (option Q)) : list nat :=
  map fst (sort_desc (valued (enumerate xs))) ++ unvalued (enumerate xs).

Definition nlargest_positions (n : nat) (xs : list (option Q)) : list nat :=
  firstn n (nlargest_order xs).

Definition nlargest (n : nat) (name : string) (df : DataFrame) : result DataFrame :=
  match getitem df name with
  | Raise e => Raise e
  | Ok (StrCol _) => Raise TypeError
  | Ok (NumCol xs) => Ok (take (nlargest_positions n xs) df)
  end.

(** ** [groupby]

    [groupby] is called with its defaults: the group keys are the distinct
    key tuples of the rows in ascending order ([sort=True]), and a row with a
    missing cell among its key cells belongs to no group ([dropna=True]). *)

Definition scalar_compare (a b : scalar) : comparison :=
  match a, b with
  | Num x, Num y => Qcompare x y
  | Str x, Str y => String.compare x y
  | NaN, NaN => Eq
  | Num _, _ => Lt
  | _, Num _ => Gt
  | Str _, NaN => Lt
  | NaN, Str _ => Gt
  end.

Fixpoint key_compare (a b : list scalar) : comparison :=
  match a, b with
  | [], [] => Eq
  | [], _ :: _ => Lt
  | _ :: _, [] => Gt
  | x :: a', y :: b' =>
      match scalar_compare x y with
      | Eq => key_compare a' b'
      | c => c
      end
  end.

Section SortUniq.
Context {A : Type} (cmp : A -> A -> comparison).

Fixpoint insert_uniq (x : A) (l : list A) : list A :=
  match l with
  | [] => [x]
  | y :: l' =>
      match cmp x y with
      | Lt => x :: l
      | Eq => l
      | Gt => y :: insert_uniq x l'
      end
  end.

Definition sort_uniq (l : list A) : list A := fold_right insert_uniq [] l.

(** The values in order of first appearance. *)
Fixpoint mem (x : A) (l : list A) : bool :=
  match l with
  | [] => false
  | y :: l' => match cmp x y with Eq => true | _ => mem x l' end
  end.

Definition first_appearance (l : list A) : list A :=
  rev (fold_left (fun acc x => if mem x acc then acc else x :: acc) l []).
End SortUniq.

Definition is_nan (s : scalar) : bool :=
  match s with
  | NaN => true
  | _ => false
  end.

(** The key tuple of every row, from the cells of the key columns; [None]
    for a row that has a missing key cell. *)
Definition key_rows (n : nat) (keycols : list (list scalar)) : list (option (list scalar)) :=
  map (fun i => let k := map (fun c => nth i c NaN) keycols in
                if existsb is_nan k then None else Some k) (seq 0 n).

Definition in_group (k : list scalar) (r : option (list scalar)) : bool :=
  match r with
  | Some r' => match key_compare r' k with Eq => true | _ => false end
  | None => false
  end.

Definition group_positions (rows : list (option (list scalar))) (k : list scalar) : list nat :=
  map fst (filter (fun ir => in_group k (snd ir)) (enumerate rows)).

Definition Qmin (x y : Q) : Q := if Qle_bool x y then x else y.
Definition Qmax (x y : Q) : Q := if Qle_bool x y then y else x.

Definition reduce1 {A} (f : A -> A -> A) (xs : list A) : option A :=
  match xs with
  | [] => None
  | x :: xs' => Some (fold_left f xs' x)
  end.

(** The reductions of [agg] over the cells of one group: missing cells are
    skipped; the sum of nothing is 0, its mean, minimum and maximum NaN. *)
Definition group_sum (F : Library) (xs : list (option Q)) : Q :=
  match dropna xs with
  | [] => 0%Q
  | [x] => x
  | l => gsum F l
  end.

Definition group_mean (F : Library) (xs : list (option Q)) : option Q :=
  match dropna xs with
  | [] => None
  | [x] => Some x
  | l => Some (gmean F l)
  end.

Definition reduce_num (F : Library) (r : reducer) (xs : list (option Q)) : scalar :=
  match r with
  | Sum => Num (group_sum F xs)
  | Mean => opt_scalar Num (group_mean F xs)
  | Count => Num (Q_of_nat (length (dropna xs)))
  | Min => opt_scalar Num (reduce1 Qmin (dropna xs))
  | Max => opt_scalar Num (reduce1 Qmax (dropna xs))
  end.

(** One aggregated column.  On a column of text [count] counts the cells
    that are there; the other reductions are the library's. *)
Definition agg_column (F : Library) (groups : list (list nat)) (r : reducer) (c : column)
  : result (list scalar) :=
  match c with
  | NumCol xs => Ok (map (fun g => reduce_num F r (take_list None g xs)) groups)
  | StrCol xs =>
      match r with
      | Count => Ok (map (fun g => Num (Q_of_nat (length (dropna (take_list None g xs)))))
                         groups)
      | _ => object_agg F r (map (fun g => take_list None g xs) groups)
      end
  end.

(** [.round(2)] on the aggregated table: a whole number is its own
    rounding (and a count is an integer, which [round] leaves), other
    numbers are rounded by the library, text and NaN are kept. *)
Definition round_scalar (F : Library) (s : scalar) : scalar :=
  match s with
  | Num q => if is_whole q then Num q else Num (fround2 F q)
  | _ => s
  end.

(** The table that [groupby(by).agg(spec)] returns: the sorted keys, and for
    every (column, reducer) of [spec] the values, one per key.  A key column
    that is not there raises [KeyError] with its name; so does, here, an
    aggregated column that is not there (pandas names all of them in one
    message). *)
Record GroupTable : Type := mkGroupTable {
  by_names : list string;
  agg_names : list (string * reducer);
  group_keys : list (list scalar);
  agg_values : list (list scalar)
}.

Definition groups_of (by_ : list string) (df : DataFrame)
  : result (list (list scalar) * list (list nat)) :=
  match rmap (getitem df) by_ with
  | Raise e => Raise e
  | Ok keycols =>
      let rows := key_rows (df_len df) (map cells keycols) in
      let keys := sort_uniq key_compare (dropna rows) in
      Ok (keys, map (group_positions rows) keys)
  end.

Definition groupby_agg (F : Library) (by_ : list string) (spec : list (string * reducer))
  (df : DataFrame) : result GroupTable :=
  match groups_of by_ df with
  | Raise e => Raise e
  | Ok (keys, groups) =>
      match rmap (fun nr => getitem df (fst nr)) spec with
      | Raise e => Raise e
      | Ok cols =>
          match rmap (fun rc => agg_column F groups (snd (fst rc)) (snd rc))
                     (combine spec cols) with
          | Raise e => Raise e
          | Ok vals =>
              Ok {| by_names := by_; agg_names := spec; group_keys := keys;
                    agg_values := map (map (round_scalar F)) vals |}
          end
      end
  end.

(** [groupby(by).size().reset_index(name=...)]: one row per key with the
    number of rows of its group. *)
Record SizeTable : Type := mkSizeTable {
  size_by : list string;
  size_name : string;
  size_keys : list (list scalar);
  size_counts : list nat
}.

Definition groupby_size (by_ : list string) (name : string) (df : DataFrame)
  : result SizeTable :=
  match groups_of by_ df with
  | Raise e => Raise e
  | Ok (keys, groups) =>
      Ok {| size_by := by_; size_name := name; size_keys := keys;
            size_counts := map (@length nat) groups |}
  end.

(** ** [read_csv]

    A path leads to no file, to a file that cannot be read, to a file the
    parser refuses (it is empty, it is not text in the expected encoding, or
    a row has more fields than the parser expects), or to a delimited table.
    The table is given by its columns: the name in the header and the fields
    below it, top to bottom.  The number of rows is that of the longest
    column; a row that ends early leaves the last columns without a field,
    which reads as an empty one.  The parser has read every field as a
    number (kept with its text) or as text.

    An empty field and the markers of [na_values] are missing values.  A
    column in which every field is a number or missing is numeric; any other
    text makes it a column of text, which keeps the text of its numbers,
    without any error.  (Two kinds of column are left out: pandas makes a
    column of booleans of fields that all read as truth values, and a float
    may be infinite.)  The columns of a table without rows have no numeric
    type.  Header names are taken to be distinct (pandas renames repeated
    names), and the rows are labelled by their positions (a file whose rows
    have one field more than the header, the first of which pandas takes as
    the label, is left out). *)

Inductive field : Type :=
| FNum (text : string) (q : Q)
| FText (text : string).

Inductive refusal : Type := EmptyFile | Undecodable | TooManyFields.

Inductive file : Type :=
| NoFile
| Unreadable
| Refused (why : refusal)
| Delimited (table : list (string * list field)).

Definition filesystem := string -> file.

(** The default markers of a missing value (those of pandas 2). *)
Definition na_values : list string :=
  [EmptyString; "#N/A"; "#N/A N/A"; "#NA"; "-1.#IND"; "-1.#QNAN"; "-NaN"; "-nan";
   "1.#IND"; "1.#QNAN"; "<NA>"; "N/A"; "NA"; "NULL"; "NaN"; "None"; "n/a"; "nan"; "null"].

Definition is_na (f : field) : bool :=
  match f with
  | FText t => existsb (String.eqb t) na_values
  | FNum _ _ => false
  end.

Definition field_text (f : field) : string :=
  match f with
  | FNum t _ => t
  | FText t => t
  end.

(** The value of a field in a numeric column, if it has one there. *)
Definition field_number (f : field) : option (option Q) :=
  match f with
  | FNum _ q => Some (Some q)
  | FText _ => if is_na f then Some None else None
  end.

Fixpoint all_numbers (fs : list field) : option (list (option Q)) :=
  match fs with
  | [] => Some []
  | f :: fs' =>
      match field_number f, all_numbers fs' with
      | Some x, Some xs => Some (x :: xs)
      | _, _ => None
      end
  end.

Definition text_cell (f : field) : option string :=
  if is_na f then None else Some (field_text f).

Definition infer_column (fs : list field) : column :=
  match fs with
  | [] => StrCol []
  | _ =>
      match all_numbers fs with
      | Some xs => NumCol xs
      | None => StrCol (map text_cell fs)
      end
  end.

Definition row_count (table : list (string * list field)) : nat :=
  fold_right (fun nf n => Nat.max (length (snd nf)) n) 0 table.

(** The fields of a column, with empty fields where its rows end early. *)
Definition pad (n : nat) (fs : list field) : list field :=
  fs ++ repeat (FText EmptyString) (n - length fs).

Definition parse_table (table : list (string * list field)) : DataFrame :=
  let n := row_count table in
  {| index := seq 0 n;
     columns := map (fun nf => (fst nf, infer_column (pad n (snd nf)))) table |}.

Definition refusal_exn (why : refusal) : exn :=
  match why with
  | EmptyFile => EmptyDataError
  | Undecodable => UnicodeDecodeError
  | TooManyFields => ParserError
  end.

Definition read_csv (fs : filesystem) (path : string) : result DataFrame :=
  match fs path with
  | NoFile => Raise FileNotFoundError
  | Unreadable => Raise PermissionError
  | Refused why => Raise (refusal_exn why)
  | Delimited [] => Raise EmptyDataError
  | Delimited table => Ok (parse_table table)
  end.

(** ** The engine instance *)

Inductive table : Type :=
| TFrame (df : DataFrame)
| TGroup (g : GroupTable)
| TSize (s : SizeTable).

(** A Python [dict] with string keys, in insertion order. *)
Definition metrics := list (string * table).

Record SupplyChainAnalyzer : Type := mkAnalyzer {
  data : DataFrame;
  product_metrics : option metrics;
  supplier_metrics : option metrics;
  logistics_metrics : option metrics
}.

(** Methods run on the instance: they may read and assign its attributes, and
    they return a value or raise.  The instance outlives an exception. *)
Definition M (A : Type) : Type := SupplyChainAnalyzer -> result A * SupplyChainAnalyzer.

Definition ret {A} (a : A) : M A := fun self => (Ok a, self).

Definition bind {A B} (m : M A) (k : A -> M B) : M B :=
  fun self =>
    match m self with
    | (Ok a, self') => k a self'
    | (Raise e, self') => (Raise e, self')
    end.

Definition lift {A} (r : result A) : M A := fun self => (r, self).

Definition get_data : M DataFrame := fun self => (Ok (data self), self).
Definition get_product_metrics : M (option metrics) :=
  fun self => (Ok (product_metrics self), self).
Definition get_supplier_metrics : M (option metrics) :=
  fun self => (Ok (supplier_metrics self), self).
Definition get_logistics_metrics : M (option metrics) :=
  fun self => (Ok (logistics_metrics self), self).

Definition set_product_metrics (m : metrics) : M unit :=
  fun self => (Ok tt, {| data := data self;
                         product_metrics := Some m;
                         supplier_metrics := supplier_metrics self;
                         logistics_metrics := logistics_metrics self |}).
Definition set_supplier_metrics (m : metrics) : M unit :=
  fun self => (Ok tt, {| data := data self;
                         product_metrics := product_metrics self;
                         supplier_metrics := Some m;
                         logistics_metrics := logistics_metrics self |}).
Definition set_logistics_metrics (m : metrics) : M unit :=
  fun self => (Ok tt, {| data := data self;
                         product_metrics := product_metrics self;
                         supplier_metrics := supplier_metrics self;
                         logistics_metrics := Some m |}).

Declare Scope method_scope.
Delimit Scope method_scope with method.
Notation "x <- m ;; k" := (bind m (fun x => k))
  (at level 61, m at next level, right associativity) : method_scope.
Local Open Scope method_scope.

(** [__init__] *)
Definition init (fs : filesystem) (path : string) : result SupplyChainAnalyzer :=
  match read_csv fs path with
  | Raise e => Raise e
  | Ok d => Ok {| data := d; product_metrics := None;
                  supplier_metrics := None; logistics_metrics := None |}
  end.

(** [df[df[name] < k][names]] *)
Definition rows_below (name : string) (k : Q) (names : list string) (df : DataFrame)
  : result DataFrame :=
  match getitem df name with
  | Raise e => Raise e
  | Ok c => match lt_scalar c k with
            | Raise e => Raise e
            | Ok mask => project names (filter_rows mask df)
            end
  end.

(** [df[df[name] == s][names]] *)
Definition rows_equal (name : string) (s : string) (names : list string) (df : DataFrame)
  : result DataFrame :=
  match getitem df name with
  | Raise e => Raise e
  | Ok c => project names (filter_rows (eq_str c s) df)
  end.

(** The three methods assign a dictionary of tables, each entry computed from
    [self.data], to one attribute.  The dictionary is evaluated entry by
    entry; the attribute is assigned only when every entry was computed. *)

Definition product_tables (F : Library) (d : DataFrame) : result metrics :=
  (let? category_performance :=
     groupby_agg F ["Product type"]
       [("Revenue generated", Sum); ("Number of products sold", Sum);
        ("Stock levels", Mean); ("Defect rates", Mean)] d in
   let? top_revenue_products :=
     rbind (nlargest 10 "Revenue generated" d)
           (project ["SKU"; "Product type"; "Revenue generated";
                     "Number of products sold"]) in
   let? stock_alerts :=
     rows_below "Stock levels" 20
       ["SKU"; "Product type"; "Stock levels"; "Lead times"] d in
   Ok [("category_performance", TGroup category_performance);
       ("top_revenue_products", TFrame top_revenue_products);
       ("stock_alerts", TFrame stock_alerts)])%res.

Definition analyze_product_performance (F : Library) : M unit :=
  d <- get_data ;;
  tables <- lift (product_tables F d) ;;
  set_product_metrics tables.

Definition supplier_tables (F : Library) (d : DataFrame) : result metrics :=
  (let? supplier_performance :=
     groupby_agg F ["Supplier name"]
       [("Lead time", Mean); ("Manufacturing costs", Mean);
        ("Defect rates", Mean); ("Production volumes", Sum)] d in
   let? supplier_locations :=
     groupby_size ["Supplier name"; "Location"] "shipment_count" d in
   let? quality_issues :=
     rows_equal "Inspection results" "Fail"
       ["Supplier name"; "SKU"; "Defect rates"] d in
   Ok [("supplier_performance", TGroup supplier_performance);
       ("supplier_locations", TSize supplier_locations);
       ("quality_issues", TFrame quality_issues)])%res.

Definition analyze_supplier_performance (F : Library) : M unit :=
  d <- get_data ;;
  tables <- lift (supplier_tables F d) ;;
  set_supplier_metrics tables.

Definition logistics_tables (F : Library) (d : DataFrame) : result metrics :=
  (let? carrier_performance :=
     groupby_agg F ["Shipping carriers"]
       [("Shipping times", Mean); ("Shipping costs", Mean);
        ("Number of products sold", Count)] d in
   let? transport_cost_analysis :=
     groupby_agg F ["Transportation modes"; "Routes"]
       [("Costs", Mean); ("Shipping times", Mean)] d in
   let? route_efficiency :=
     groupby_agg F ["Routes"]
       [("Shipping times", Mean); ("Shipping times", Min);
        ("Shipping times", Max); ("Costs", Mean)] d in
   Ok [("carrier_performance", TGroup carrier_performance);
       ("transport_cost_analysis", TGroup transport_cost_analysis);
       ("route_efficiency", TGroup route_efficiency)])%res.

Definition analyze_logistics (F : Library) : M unit :=
  d <- get_data ;;
  tables <- lift (logistics_tables F d) ;;
  set_logistics_metrics tables.

(** The frame [risk_factors]: the labels of [self.data], its [SKU] column,
    four columns of booleans and the column of their row sums. *)
Record RiskFactors : Type := mkRisk {
  risk_index : list nat;
  SKU : column;
  Stock_Risk : list bool;
  Lead_Time_Risk : list bool;
  Quality_Risk : list bool;
  Cost_Risk : list bool;
  Total_Risk_Score : list nat
}.

Fixpoint zip_with {A B C} (f : A -> B -> C) (xs : list A) (ys : list B) : list C :=
  match xs, ys with
  | x :: xs', y :: ys' => f x y :: zip_with f xs' ys'
  | _, _ => []
  end.

(** [frame[[c1, ..., ck]].sum(axis=1)] over columns of booleans. *)
Definition sum_axis1 (n : nat) (cols : list (list bool)) : list nat :=
  fold_left (fun acc c => zip_with (fun a (b : bool) => a + Nat.b2n b) acc c)
            cols (repeat 0 n).

Definition get_risk_assessment (F : Library) : M RiskFactors :=
  d <- get_data ;;
  sku <- lift (getitem d "SKU") ;;
  stock_risk <- lift (rbind (getitem d "Stock levels") (fun c => lt_scalar c 20)) ;;
  lead_time_risk <- lift (rbind (getitem d "Lead time") (fun c => gt_scalar c 20)) ;;
  quality_risk <- lift (rbind (getitem d "Defect rates") (fun c => gt_scalar c 3)) ;;
  cost_risk <- lift (rbind (getitem d "Manufacturing costs") (gt_own_mean F)) ;;
  let total := sum_axis1 (df_len d) [stock_risk; lead_time_risk; quality_risk; cost_risk] in
  let mask := map (fun s => Nat.leb 2 s) total in
  ret {| risk_index := select mask (index d);
         SKU := select_col mask sku;
         Stock_Risk := select mask stock_risk;
         Lead_Time_Risk := select mask lead_time_risk;
         Quality_Risk := select mask quality_risk;
         Cost_Risk := select mask cost_risk;
         Total_Risk_Score := select mask total |}.

Record Recommendation : Type := mkRec {
  area : string;
  issue : string;
  action : string;
  priority : string
}.

(** [f'{n}'] for a length. *)
Definition format_nat (n : nat) : string := NilEmpty.string_of_uint (Nat.to_uint n).

(** [recommendations.append(...)] under [if not rows.empty]. *)
Definition append_if_any (rows : DataFrame) (r : Recommendation)
  (recommendations : list Recommendation) : list Recommendation :=
  if negb (df_empty rows) then recommendations ++ [r] else recommendations.

Definition generate_recommendations (F : Library) : M (list Recommendation) :=
  let recommendations := [] in
  d <- get_data ;;
  low_stock <-
    lift (rbind (getitem d "Stock levels")
            (fun c => rbind (lt_scalar c 20) (fun mask => Ok (filter_rows mask d)))) ;;
  let recommendations :=
    append_if_any low_stock
      {| area := "Inventory";
         issue := ("Low stock alerts for " ++ format_nat (df_len low_stock) ++ " SKUs")%string;
         action := "Reorder stocks for affected SKUs";
         priority := "High" |} recommendations in
  quality_issues <-
    lift (rbind (getitem d "Inspection results")
            (fun c => Ok (filter_rows (eq_str c "Fail") d))) ;;
  let recommendations :=
    append_if_any quality_issues
      {| area := "Quality";
         issue := ("Quality failures in " ++ format_nat (df_len quality_issues) ++ " shipments")%string;
         action := "Review supplier quality control processes";
         priority := "High" |} recommendations in
  high_cost_routes <-
    lift (rbind (getitem d "Costs")
            (fun c => rbind (gt_own_mean_plus_std F c) (fun mask => Ok (filter_rows mask d)))) ;;
  let recommendations :=
    append_if_any high_cost_routes
      {| area := "Logistics";
         issue := ("High shipping costs on " ++ format_nat (df_len high_cost_routes) ++ " routes")%string;
         action := "Evaluate alternative shipping routes or carriers";
         priority := "Medium" |} recommendations in
  ret recommendations.

(** [Series.sum()] and [Series.mean()] *)
Definition series_sum (F : Library) (c : column) : result scalar :=
  match c with
  | NumCol xs => Ok (Num (nansum F xs))
  | StrCol xs => object_sum F xs
  end.

Definition series_mean (F : Library) (c : column) : result scalar :=
  rbind (as_numbers c) (fun xs => Ok (opt_scalar Num (nanmean F xs))).

Record SummaryReport : Type := mkSummary {
  overall_metrics : list (string * scalar);
  Product_Performance : option metrics;
  Supplier_Performance : option metrics;
  Logistics_Performance : option metrics
}.

(** Truth value of an attribute that holds [None] or a [dict]. *)
Definition truthy (m : option metrics) : bool :=
  match m with
  | Some (_ :: _) => true
  | Some [] => false
  | None => false
  end.

(** [x if x else None] *)
Definition or_none (m : option metrics) : option metrics :=
  if truthy m then m else None.

Definition generate_summary_report (F : Library) : M SummaryReport :=
  d <- get_data ;;
  total_revenue <- lift (rbind (getitem d "Revenue generated") (series_sum F)) ;;
  total_units <- lift (rbind (getitem d "Number of products sold") (series_sum F)) ;;
  average_defect_rate <- lift (rbind (getitem d "Defect rates") (series_mean F)) ;;
  average_lead_time <- lift (rbind (getitem d "Lead time") (series_mean F)) ;;
  product <- get_product_metrics ;;
  supplier <- get_supplier_metrics ;;
  logistics <- get_logistics_metrics ;;
  ret {| overall_metrics :=
           [("Total Revenue", total_revenue);
            ("Total Units Sold", total_units);
            ("Average Defect Rate", average_defect_rate);
            ("Average Lead Time", average_lead_time)];
         Product_Performance := or_none product;
         Supplier_Performance := or_none supplier;
         Logistics_Performance := or_none logistics |}.

(** ** Sequences of calls on one instance *)

Inductive op : Type :=
| AnalyzeProductPerformance
| AnalyzeSupplierPerformance
| AnalyzeLogistics
| GetRiskAssessment
| GenerateRecommendations
| GenerateSummaryReport.

Definition discard {A} (m : M A) : M unit := _ <- m ;; ret tt.

Definition call (F : Library) (o : op) : M unit :=
  match o with
  | AnalyzeProductPerformance => analyze_product_performance F
  | AnalyzeSupplierPerformance => analyze_supplier_performance F
  | AnalyzeLogistics => analyze_logistics F
  | GetRiskAssessment => discard (get_risk_assessment F)
  | GenerateRecommendations => discard (generate_recommendations F)
  | GenerateSummaryReport => discard (generate_summary_report F)
  end.

(** The calls in order; an exception ends the sequence. *)
Fixpoint run (F : Library) (ops : list op) : M unit :=
  match ops with
  | [] => ret tt
  | o :: ops' => _ <- call F o ;; run F ops'
  end.

(** The calls in order by a caller that catches what a call raises and goes
    on: the instance after the last call, and the log of the calls with what
    each of them did. *)
Inductive outcome : Type := Returned | Raised (e : exn).

Definition outcome_of {A} (r : result A) : outcome :=
  match r with
  | Ok _ => Returned
  | Raise e => Raised e
  end.

Fixpoint session (F : Library) (ops : list op) (self : SupplyChainAnalyzer)
  : list (op * outcome) * SupplyChainAnalyzer :=
  match ops with
  | [] => ([], self)
  | o :: ops' =>
      let (r, self') := call F o self in
      let (log, self'') := session F ops' self' in
      ((o, outcome_of r) :: log, self'')
  end.

Definition op_eqb (a b : op) : bool :=
  match a, b with
  | AnalyzeProductPerformance, AnalyzeProductPerformance
  | AnalyzeSupplierPerformance, AnalyzeSupplierPerformance
  | AnalyzeLogistics, AnalyzeLogistics
  | GetRiskAssessment, GetRiskAssessment
  | GenerateRecommendations, GenerateRecommendations
  | GenerateSummaryReport, GenerateSummaryReport => true
  | _, _ => false
  end.

Definition invoked (o : op) (ops : list op) : bool := existsb (op_eqb o) ops.

(** ** The score columns of [dashboard.py]

    The dashboard loads the same file into a frame of its own and adds two
    columns.  A score is NaN where a cell it is computed from is missing.
    [cost_effectiveness] divides one column by another, so its values are
    IEEE quotients: a positive number over zero is [+inf], and zero over zero
    is NaN (the zero of a rational cell is the positive zero; a negative
    zero is not a value of the model).  [clip] bounds every value but NaN,
    which it keeps. *)

Module Dashboard.

Inductive xfloat : Type :=
| Fin (q : Q)
| PInf
| NInf
| XNaN.

Definition fdiv (x y : Q) : xfloat :=
  if Qeq_bool y 0 then
    match Qcompare x 0 with
    | Gt => PInf
    | Lt => NInf
    | Eq => XNaN
    end
  else Fin (x / y)%Q.

Definition clip (lo hi : Q) (x : xfloat) : xfloat :=
  match x with
  | Fin q => Fin (if Qltb q lo then lo else if Qltb hi q then hi else q)
  | PInf => Fin hi
  | NInf => Fin lo
  | XNaN => XNaN
  end.

Definition efficiency_of (defect_rate lead_time : Q) : xfloat :=
  clip 0 100 (Fin (100 - defect_rate * 20 - lead_time / 30 * 100)%Q).

Definition cost_effectiveness_of (revenue manufacturing_cost : Q) : xfloat :=
  clip 0 100 (fdiv revenue manufacturing_cost).

(** A binary operation on cells; NaN where a cell is missing. *)
Definition on_cells (f : Q -> Q -> xfloat) (x y : option Q) : xfloat :=
  match x, y with
  | Some a, Some b => f a b
  | _, _ => XNaN
  end.

(** The module-level frame [df] after the two assignments: the loaded
    frame and the two new columns. *)
Record Scored : Type := mkScored {
  df : DataFrame;
  efficiency_score : list xfloat;
  cost_effectiveness : list xfloat
}.

Definition add_scores (d : DataFrame) : result Scored :=
  rbind (getitem d "Defect rates") (fun dc =>
  rbind (as_numbers dc) (fun defect =>
  rbind (getitem d "Lead time") (fun lc =>
  rbind (as_numbers lc) (fun lead =>
  rbind (getitem d "Revenue generated") (fun rc =>
  rbind (getitem d "Manufacturing costs") (fun mc =>
  rbind (as_numbers rc) (fun revenue =>
  rbind (as_numbers mc) (fun cost =>
  Ok {| df := d;
        efficiency_score := zip_with (on_cells efficiency_of) defect lead;
        cost_effectiveness := zip_with (on_cells cost_effectiveness_of) revenue cost |})))))))).

Definition in_0_100 (x : xfloat) : Prop :=
  match x with
  | Fin q => (0 <= q /\ q <= 100)%Q
  | _ => False
  end.

End Dashboard.

(** ** Row-wise reading of the tables, for the statements

    The source works on whole columns.  The statements below speak of
    records, so the rows of a frame are named here: a list of records is the
    row view of a frame when every column the risk scorer reads is the
    projection of that list.  Nothing in this part is used by the
    definitions of the engine above. *)

Definition fresh (d : DataFrame) : SupplyChainAnalyzer :=
  {| data := d; product_metrics := None; supplier_metrics := None;
     logistics_metrics := None |}.

(** The cells of the column [name] of [d] are [vals]. *)
Definition column_is (d : DataFrame) (name : string) (vals : list scalar) : Prop :=
  exists c, getitem d name = Ok c /\ cells c = vals.

(** The cell of a number that may be missing. *)
Definition num_cell (x : option Q) : scalar :=
  match x with
  | Some q => Num q
  | None => NaN
  end.

Record Row : Type := mkRow {
  label : nat;
  sku : scalar;
  stock_level : option Q;
  lead_time_days : option Q;
  defect_rate : option Q;
  manufacturing_cost : option Q
}.

Definition rows_of (d : DataFrame) (rows : list Row) : Prop :=
  index d = map label rows /\
  column_is d "SKU" (map sku rows) /\
  column_is d "Stock levels" (map (fun r => num_cell (stock_level r)) rows) /\
  column_is d "Lead time" (map (fun r => num_cell (lead_time_days r)) rows) /\
  column_is d "Defect rates" (map (fun r => num_cell (defect_rate r)) rows) /\
  column_is d "Manufacturing costs" (map (fun r => num_cell (manufacturing_cost r)) rows).

Record RiskRow : Type := mkRiskRow {
  risk_label : nat;
  risk_sku : scalar;
  stock_risk : bool;
  lead_time_risk : bool;
  quality_risk : bool;
  cost_risk : bool;
  total_risk_score : nat
}.

Definition zap {A B} (fs : list (A -> B)) (xs : list A) : list B :=
  zip_with (fun f x => f x) fs xs.

(** The rows of the frame that [get_risk_assessment] returns. *)
Definition risk_rows (rf : RiskFactors) : list RiskRow :=
  zap (zap (zap (zap (zap (zip_with mkRiskRow (risk_index rf) (cells (SKU rf)))
                          (Stock_Risk rf))
                     (Lead_Time_Risk rf))
                (Quality_Risk rf))
           (Cost_Risk rf))
      (Total_Risk_Score rf).

Definition count_true (bs : list bool) : nat := length (filter (fun b : bool => b) bs).

(** The values that are there, in order. *)
Definition present {A} (xs : list (option A)) : list A :=
  flat_map (fun x => match x with
                     | Some a => [a]
                     | None => []
                     end) xs.

(** A value that is there and below, or above, a bound. *)
Definition below (k : Q) (x : option Q) : bool :=
  match x with
  | Some q => Qltb q k
  | None => false
  end.

Definition above (k : Q) (x : option Q) : bool :=
  match x with
  | Some q => Qltb k q
  | None => false
  end.

(** The mean over all records that have a cost, as the library computes
    it: none without a cost, the cost itself when it is the only one. *)
Definition mean_cost (F : Library) (all_costs : list (option Q)) : option Q :=
  match present all_costs with
  | [] => None
  | [c] => Some c
  | c1 :: c2 :: cs => Some (fmean F (c1 :: c2 :: cs))
  end.

Definition above_mean (F : Library) (all_costs : list (option Q)) (x : option Q) : bool :=
  match mean_cost F all_costs with
  | Some m => above m x
  | None => false
  end.

(** The risk scorer as the specification words it: four strict comparisons
    per record, the last one against the mean over all records, and their
    count. *)
Definition assess (F : Library) (all_costs : list (option Q)) (r : Row) : RiskRow :=
  let b1 := below 20 (stock_level r) in
  let b2 := above 20 (lead_time_days r) in
  let b3 := above 3 (defect_rate r) in
  let b4 := above_mean F all_costs (manufacturing_cost r) in
  {| risk_label := label r;
     risk_sku := sku r;
     stock_risk := b1;
     lead_time_risk := b2;
     quality_risk := b3;
     cost_risk := b4;
     total_risk_score := count_true [b1; b2; b3; b4] |}.

Definition risk_assessment_spec (F : Library) (rows : list Row) : list RiskRow :=
  filter (fun r => Nat.leb 2 (total_risk_score r))
         (map (assess F (map manufacturing_cost rows)) rows).

(** The three recommendation entries, for a given number of matching rows. *)
Definition inventory_entry (n : nat) : Recommendation :=
  {| area := "Inventory";
     issue := ("Low stock alerts for " ++ format_nat n ++ " SKUs")%string;
     action := "Reorder stocks for affected SKUs";
     priority := "High" |}.

Definition quality_entry (n : nat) : Recommendation :=
  {| area := "Quality";
     issue := ("Quality failures in " ++ format_nat n ++ " shipments")%string;
     action := "Review supplier quality control processes";
     priority := "High" |}.

Definition logistics_entry (n : nat) : Recommendation :=
  {| area := "Logistics";
     issue := ("High shipping costs on " ++ format_nat n ++ " routes")%string;
     action := "Evaluate alternative shipping routes or carriers";
     priority := "Medium" |}.

Definition when_any (n : nat) (r : nat -> Recommendation) : list Recommendation :=
  match n with
  | 0 => []
  | S _ => [r n]
  end.

(** The records that match each rule. *)
Definition is_fail (s : scalar) : bool :=
  match s with
  | Str t => String.eqb t "Fail"
  | _ => false
  end.

(** Mean plus standard deviation of the costs that are there; with fewer
    than two of them there is no standard deviation. *)
Definition cost_threshold (F : Library) (costs : list (option Q)) : option Q :=
  match present costs with
  | c1 :: c2 :: cs => Some (fadd F (fmean F (c1 :: c2 :: cs)) (fstd F (c1 :: c2 :: cs)))
  | _ => None
  end.

Definition is_outlier (F : Library) (costs : list (option Q)) (x : option Q) : bool :=
  match cost_threshold F costs with
  | Some t => above t x
  | None => false
  end.

Definition low_stock_count (stocks : list (option Q)) : nat :=
  length (filter (below 20) stocks).
Definition failed_count (inspections : list scalar) : nat :=
  length (filter is_fail inspections).
Definition high_cost_count (F : Library) (costs : list (option Q)) : nat :=
  length (filter (is_outlier F costs) costs).

(** The total and the average of the numbers of a column that are there,
    as the library computes them: the total of nothing is 0 and its average
    NaN, the total and the average of a single number are that number. *)
Definition total (F : Library) (xs : list (option Q)) : scalar :=
  match present xs with
  | [] => Num 0
  | [x] => Num x
  | x1 :: x2 :: l => Num (fsum F (x1 :: x2 :: l))
  end.

Definition average (F : Library) (xs : list (option Q)) : scalar :=
  match present xs with
  | [] => NaN
  | [x] => Num x
  | x1 :: x2 :: l => Num (fmean F (x1 :: x2 :: l))
  end.

(** The sum over the numbers of one group that are there, as [groupby]
    computes it. *)
Definition group_total (F : Library) (xs : list (option Q)) : scalar :=
  match present xs with
  | [] => Num 0
  | [x] => Num x
  | x1 :: x2 :: l => Num (gsum F (x1 :: x2 :: l))
  end.

(** ** Orderings given by a comparison function *)

Record Ordering {A : Type} (cmp : A -> A -> comparison) : Prop := mkOrdering {
  cmp_refl : forall x, cmp x x = Eq;
  cmp_opp : forall x y, cmp y x = CompOpp (cmp x y);
  cmp_lt_trans : forall x y z, cmp x y = Lt -> cmp y z = Lt -> cmp x z = Lt;
  cmp_eq_l : forall x y z, cmp x y = Eq -> cmp x z = cmp y z
}.

Definition ascending {A} (cmp : A -> A -> comparison) (l : list A) : Prop :=
  StronglySorted (fun a b => cmp a b = Lt) l.

Definition is_text (s : scalar) : Prop :=
  match s with
  | Str _ => True
  | _ => False
  end.

(** ** Further definitions used by the statements *)

(** A column is there; it is there and no cell of it is a string; it is
    there and some cell is a string. *)
Definition has (d : DataFrame) (name : string) : Prop :=
  exists c, getitem d name = Ok c.

Definition has_num (d : DataFrame) (name : string) : Prop :=
  exists c, getitem d name = Ok c /\ forall t, ~ In (Str t) (cells c).

Definition is_text_column (d : DataFrame) (name : string) : Prop :=
  exists c t, getitem d name = Ok c /\ In (Str t) (cells c).

(** What a slot holds once its dictionary was evaluated. *)
Definition computed (r : result metrics) : option metrics :=
  match r with
  | Ok m => Some m
  | Raise _ => None
  end.

(** The slot of an analyze method after a session: what the method computes
    from the data if one of its calls returned, and what it held before if
    none did. *)
Definition slot_after (o : op) (log : list (op * outcome)) (tables : result metrics)
           (before : option metrics) : option metrics :=
  if existsb (fun c => op_eqb o (fst c) && match snd c with
                                           | Returned => true
                                           | Raised _ => false
                                           end) log
  then computed tables else before.

(** The analyze methods among the calls. *)
Definition same_analyses (ops1 ops2 : list op) : Prop :=
  invoked AnalyzeProductPerformance ops1 = invoked AnalyzeProductPerformance ops2 /\
  invoked AnalyzeSupplierPerformance ops1 = invoked AnalyzeSupplierPerformance ops2 /\
  invoked AnalyzeLogistics ops1 = invoked AnalyzeLogistics ops2.

Definition group_table (name : string) (m : metrics) : option GroupTable :=
  match assoc name m with
  | Some (TGroup g) => Some g
  | _ => None
  end.

Definition frame_table (name : string) (m : metrics) : option DataFrame :=
  match assoc name m with
  | Some (TFrame f) => Some f
  | _ => None
  end.

Definition size_table (name : string) (m : metrics) : option SizeTable :=
  match assoc name m with
  | Some (TSize s) => Some s
  | _ => None
  end.

(** The positions of a list at which a test holds, in order. *)
Definition positions_where {A} (p : A -> bool) (xs : list A) : list nat :=
  filter (fun i => match nth_error xs i with
                   | Some x => p x
                   | None => false
                   end) (seq 0 (length xs)).

(** [view] is made of the rows of [d] at the positions [pos], in that
    order, cut to the columns [names]: the labels and every cell of every
    column are those of [d]. *)
Definition rows_at (pos : list nat) (names : list string) (d view : DataFrame) : Prop :=
  index view = map (fun p => nth p (index d) 0) pos /\
  map fst (columns view) = names /\
  (forall name c, In (name, c) (columns view) ->
     exists c0, getitem d name = Ok c0 /\
                cells c = map (fun p => nth p (cells c0) NaN) pos).

(** The key tuples that are complete: no cell of them is missing. *)
Definition complete (rows : list (list scalar)) : list (list scalar) :=
  filter (forallb (fun s => negb (is_nan s))) rows.

(** [keys] are the distinct key tuples among [rows], in ascending order. *)
Definition distinct_sorted (rows keys : list (list scalar)) : Prop :=
  (forall k, In k keys -> In k rows) /\
  (forall r, In r rows -> exists k, In k keys /\ key_compare r k = Eq) /\
  (forall r, In r rows -> Forall is_text r -> In r keys) /\
  ascending key_compare keys /\
  NoDup keys.

(** [keys] are the keys of the groups of a table whose rows have the key
    tuples [rows]: the distinct complete tuples, in ascending order. *)
Definition keys_of_groups (rows keys : list (list scalar)) : Prop :=
  distinct_sorted (complete rows) keys /\
  (forall k, In k keys -> ~ In NaN k).

Definition single (c : column) : list (list scalar) := map (fun v => [v]) (cells c).
Definition paired (c1 c2 : column) : list (list scalar) :=
  zip_with (fun v1 v2 => [v1; v2]) (cells c1) (cells c2).

(** Whether a row has the key [k]. *)
Definition same_key (k r : list scalar) : bool :=
  match key_compare r k with
  | Eq => true
  | _ => false
  end.

(** The order of the positions that [nlargest] keeps: a larger value first,
    for equal values the earlier row first, and a row without a value after
    every row that has one. *)
Definition before (xs : list (option Q)) (p q : nat) : Prop :=
  match nth p xs None, nth q xs None with
  | Some a, Some b => (b < a)%Q \/ ((a == b)%Q /\ p < q)
  | Some _, None => True
  | None, Some _ => False
  | None, None => p < q
  end.

(** The order of [sort_desc] on (position, value) pairs. *)
Definition before_pair (a b : nat * Q) : Prop :=
  (snd b < snd a)%Q \/ ((snd a == snd b)%Q /\ fst a < fst b).

(** Values in descending order, those that are missing last. *)
Definition descending (xs : list (option Q)) : Prop :=
  StronglySorted (fun a b => match a, b with
                             | Some x, Some y => (y <= x)%Q
                             | Some _, None => True
                             | None, Some _ => False
                             | None, None => True
                             end) xs.





(** ** The schema of the specification, and what it calls a load defect *)

Inductive kind : Type := Numeric | Text.

Definition required_columns : list (string * kind) :=
  [("SKU", Text); ("Product type", Text); ("Supplier name", Text); ("Location", Text);
   ("Inspection results", Text); ("Shipping carriers", Text);
   ("Transportation modes", Text); ("Routes", Text);
   ("Revenue generated", Numeric); ("Number of products sold", Numeric);
   ("Stock levels", Numeric); ("Lead times", Numeric); ("Lead time", Numeric);
   ("Defect rates", Numeric); ("Manufacturing costs", Numeric);
   ("Production volumes", Numeric); ("Shipping times", Numeric);
   ("Shipping costs", Numeric); ("Costs", Numeric)].

Definition header (table : list (string * list field)) : list string := map fst table.

Definition header_has (table : list (string * list field)) (name : string) : bool :=
  existsb (String.eqb name) (header table).

Definition missing_required_column (table : list (string * list field)) : bool :=
  existsb (fun nk => negb (header_has table (fst nk))) required_columns.

(** The words that pandas reads as truth values. *)
Definition truth_words : list string :=
  ["True"; "TRUE"; "true"; "False"; "FALSE"; "false"].

(** A field that is neither a number, nor a marker of a missing value, nor
    a truth value. *)
Definition is_malformed (f : field) : bool :=
  match f with
  | FText t => negb (is_na f) && negb (existsb (String.eqb t) truth_words)
  | FNum _ _ => false
  end.


Definition malformed_numeric_cell (table : list (string * list field)) : bool :=
  existsb (fun nk => match snd nk, assoc (fst nk) table with
                     | Numeric, Some fs => existsb is_malformed fs
                     | _, _ => false
                     end) required_columns.

Definition load_defect (f : file) : bool :=
  match f with
  | NoFile => true
  | Unreadable => true
  | Refused _ => true
  | Delimited table => missing_required_column table || malformed_numeric_cell table
  end.

(** ** Sample files *)

(** A small library for the samples: sums and means without rounding, the
    standard deviation cut after six decimals, no rounding of results, and
    no reduction over text. *)
Definition Qsqrt6 (q : Q) : Q :=
  (Z.sqrt (Qnum q * Zpos (Qden q) * 1000000000000) # (Qden q * 1000000))%Q.

Definition exact_mean (l : list Q) : Q := (Qsum l / Q_of_nat (length l))%Q.

Definition exact_std (l : list Q) : Q :=
  let m := exact_mean l in
  Qsqrt6 (Qsum (map (fun x => (x - m) * (x - m))%Q l) / Q_of_nat (length l - 1))%Q.

Definition sample_library : Library :=
  {| fsum := Qsum;
     fmean := exact_mean;
     fstd := exact_std;
     fadd := Qplus;
     gsum := Qsum;
     gmean := exact_mean;
     fround2 := fun q => q;
     object_sum := fun _ => Raise TypeError;
     object_agg := fun _ _ => Raise TypeError |}.


(** Three records with every column of the schema. *)
Definition sample_file : file :=
  Delimited
    [("Product type", [FText "skincare"; FText "haircare"; FText "skincare"]);
     ("SKU", [FText "SKU0"; FText "SKU1"; FText "SKU2"]);
     ("Revenue generated", [FNum "300" 300; FNum "900" 900; FNum "900" 900]);
     ("Number of products sold", [FNum "8" 8; FNum "7" 7; FNum "9" 9]);
     ("Stock levels", [FNum "5" 5; FNum "25" 25; FNum "100" 100]);
     ("Lead times", [FNum "7" 7; FNum "30" 30; FNum "10" 10]);
     ("Lead time", [FNum "29" 29; FNum "23" 23; FNum "12" 12]);
     ("Defect rates", [FNum "4" 4; FNum "0.5" (1 # 2); FNum "1" 1]);
     ("Manufacturing costs", [FNum "46" 46; FNum "33" 33; FNum "30" 30]);
     ("Production volumes", [FNum "215" 215; FNum "517" 517; FNum "971" 971]);
     ("Supplier name", [FText "Supplier 3"; FText "Supplier 1"; FText "Supplier 3"]);
     ("Location", [FText "Mumbai"; FText "Delhi"; FText "Mumbai"]);
     ("Inspection results", [FText "Pass"; FText "Pass"; FText "Pass"]);
     ("Shipping carriers", [FText "Carrier B"; FText "Carrier A"; FText "Carrier B"]);
     ("Shipping times", [FNum "4" 4; FNum "2" 2; FNum "6" 6]);
     ("Shipping costs", [FNum "3" 3; FNum "9" 9; FNum "8" 8]);
     ("Transportation modes", [FText "Road"; FText "Air"; FText "Road"]);
     ("Routes", [FText "Route B"; FText "Route A"; FText "Route B"]);
     ("Costs", [FNum "10" 10; FNum "10" 10; FNum "10" 10])].

Definition loaded (f : file) : DataFrame :=
  match f with
  | Delimited table => parse_table table
  | _ => mkFrame [] []
  end.

Definition sample : DataFrame := loaded sample_file.

Definition sample_rows : list Row :=
  [mkRow 0 (Str "SKU0") (Some 5) (Some 29) (Some 4) (Some 46);
   mkRow 1 (Str "SKU1") (Some 25) (Some 23) (Some (1 # 2)) (Some 33);
   mkRow 2 (Str "SKU2") (Some 100) (Some 12) (Some 1) (Some 30)]%Q.

(** A record that sold nothing and cost nothing to make. *)
Definition idle_record_file : file :=
  Delimited [("SKU", [FText "SKU0"]); ("Defect rates", [FNum "1" 1]);
             ("Lead time", [FNum "10" 10]); ("Revenue generated", [FNum "0" 0]);
             ("Manufacturing costs", [FNum "0" 0])].

Definition idle_record : DataFrame := loaded idle_record_file.

(** A file without the product type, and with a word among the stock
    levels. *)
Definition broken_file : file :=
  Delimited [("SKU", [FText "SKU0"; FText "SKU1"]);
             ("Stock levels", [FNum "12" 12; FText "twelve"])].

(** The same, with a marker of a missing value for the word. *)
Definition marked_file : file :=
  Delimited [("SKU", [FText "SKU0"; FText "SKU1"]);
             ("Stock levels", [FNum "12" 12; FText "n/a"])].

(** A table of one record. *)
Definition one_record_file : file :=
  Delimited
    [("SKU", [FText "SKU0"]); ("Stock levels", [FNum "5" 5]); ("Lead time", [FNum "29" 29]);
     ("Defect rates", [FNum "4" 4]); ("Manufacturing costs", [FNum "46" 46]);
     ("Inspection results", [FText "Fail"]); ("Costs", [FNum "10" 10])].

Definition one_record : DataFrame := loaded one_record_file.

(** Five records, some with missing cells: every rule of the
    recommendations matches, the fourth record has no product type and no
    supplier, the fifth no stock level, no revenue and no cost. *)
Definition alerts_file : file :=
  Delimited
    [("Product type", [FText "skincare"; FText "haircare"; FText "skincare";
                       FText EmptyString; FText "cosmetics"]);
     ("SKU", [FText "SKU0"; FText "SKU1"; FText "SKU2"; FText "SKU3"; FText "SKU4"]);
     ("Revenue generated", [FNum "300" 300; FNum "900" 900; FNum "900" 900;
                            FNum "50" 50; FText "NA"]);
     ("Number of products sold", [FNum "8" 8; FNum "7" 7; FNum "9" 9; FNum "1" 1;
                                  FNum "2" 2]);
     ("Stock levels", [FNum "5" 5; FNum "25" 25; FNum "100" 100; FNum "7" 7;
                       FText "n/a"]);
     ("Lead times", [FNum "7" 7; FNum "30" 30; FNum "10" 10; FNum "3" 3; FNum "4" 4]);
     ("Lead time", [FNum "29" 29; FNum "23" 23; FNum "12" 12; FNum "2" 2; FNum "1" 1]);
     ("Defect rates", [FNum "4" 4; FNum "0.5" (1 # 2); FNum "1" 1; FNum "2" 2;
                       FNum "0" 0]);
     ("Manufacturing costs", [FNum "46" 46; FNum "33" 33; FNum "30" 30; FNum "11" 11;
                              FNum "12" 12]);
     ("Production volumes", [FNum "215" 215; FNum "517" 517; FNum "971" 971;
                             FNum "10" 10; FNum "20" 20]);
     ("Supplier name", [FText "Supplier 3"; FText "Supplier 1"; FText "Supplier 3";
                        FText "null"; FText "Supplier 1"]);
     ("Location", [FText "Mumbai"; FText "Delhi"; FText "Mumbai"; FText "Delhi";
                   FText "Delhi"]);
     ("Inspection results", [FText "Fail"; FText "Pass"; FText "Fail"; FText "Pending";
                             FText "Pass"]);
     ("Shipping carriers", [FText "Carrier B"; FText "Carrier A"; FText "Carrier B";
                            FText "Carrier A"; FText "Carrier C"]);
     ("Shipping times", [FNum "4" 4; FNum "2" 2; FNum "6" 6; FNum "1" 1; FNum "3" 3]);
     ("Shipping costs", [FNum "3" 3; FNum "9" 9; FNum "8" 8; FNum "2" 2; FNum "1" 1]);
     ("Transportation modes", [FText "Road"; FText "Air"; FText "Road"; FText "Sea";
                               FText "Air"]);
     ("Routes", [FText "Route B"; FText "Route A"; FText "Route B"; FText "Route C";
                 FText "Route A"]);
     ("Costs", [FNum "10" 10; FNum "10" 10; FNum "10" 10; FNum "100" 100;
                FText EmptyString])].

Definition alerts_sample : DataFrame := loaded alerts_file.

Definition alerts_rows : list Row :=
  [mkRow 0 (Str "SKU0") (Some 5) (Some 29) (Some 4) (Some 46);
   mkRow 1 (Str "SKU1") (Some 25) (Some 23) (Some (1 # 2)) (Some 33);
   mkRow 2 (Str "SKU2") (Some 100) (Some 12) (Some 1) (Some 30);
   mkRow 3 (Str "SKU3") (Some 7) (Some 2) (Some 2) (Some 11);
   mkRow 4 (Str "SKU4") None (Some 1) (Some 0) (Some 12)]%Q.

(** The same file without its product type column. *)
Definition drop_column (name : string) (f : file) : file :=
  match f with
  | Delimited table =>
      Delimited (filter (fun nc => negb (String.eqb (fst nc) name)) table)
  | _ => f
  end.

Definition untyped_file : file := drop_column "Product type" alerts_file.

Definition untyped : DataFrame := loaded untyped_file.

(** A file with the header of the schema and no row below it. *)
Definition header_only_file : file :=
  Delimited (map (fun nk : string * kind => (fst nk, @nil field)) required_columns).

Definition header_only : DataFrame := loaded header_only_file.

(** A table with the four columns of the summary report and nothing else. *)
Definition summary_only_file : file :=
  Delimited [("Revenue generated", [FNum "300" 300; FNum "900" 900]);
             ("Number of products sold", [FNum "8" 8; FNum "7" 7]);
             ("Defect rates", [FNum "4" 4; FNum "1" 1]);
             ("Lead time", [FNum "29" 29; FNum "23" 23])].

Definition summary_only : DataFrame := loaded summary_only_file.

(** ** The callbacks of [dashboard.py]

    The callbacks read the module-level frame with its two score columns.
    The value chosen in the dropdown is a product type, a string.  A mean
    skips NaN; the mean of nothing is NaN. *)

Module Callbacks.
Import Dashboard.

(** Order and equality of scores that are numbers. *)
Definition xle (x y : xfloat) : Prop :=
  match x, y with
  | Fin a, Fin b => (a <= b)%Q
  | _, _ => False
  end.

Definition xeq (x y : xfloat) : Prop :=
  match x, y with
  | Fin a, Fin b => (a == b)%Q
  | _, _ => False
  end.

(** [df[df['Product type'] == selected_product]], on the frame and on the
    two score columns alike. *)
Definition filter_scored (mask : list bool) (s : Scored) : Scored :=
  {| df := filter_rows mask (df s);
     efficiency_score := select mask (efficiency_score s);
     cost_effectiveness := select mask (cost_effectiveness s) |}.

Definition filtered (selected_product : string) (s : Scored) : result Scored :=
  rbind (getitem (df s) "Product type")
        (fun c => Ok (filter_scored (eq_str c selected_product) s)).




Fixpoint finite_values (xs : list xfloat) : list Q :=
  match xs with
  | [] => []
  | Fin q :: xs' => q :: finite_values xs'
  | _ :: xs' => finite_values xs'
  end.

Definition is_pinf (x : xfloat) : bool := match x with PInf => true | _ => false end.
Definition is_ninf (x : xfloat) : bool := match x with NInf => true | _ => false end.

(** [series.mean()] on a column that may hold NaN and infinities. *)
Definition xmean (xs : list xfloat) : xfloat :=
  match existsb is_pinf xs, existsb is_ninf xs with
  | true, true => XNaN
  | true, false => PInf
  | false, true => NInf
  | false, false =>
      match mean (finite_values xs) with
      | Some m => Fin m
      | None => XNaN
      end
  end.

(** The table behind the bars of [update_revenue_location]:
    [filtered_df.groupby('Location')['Revenue generated'].sum().reset_index()],
    the locations and the sum of the revenues at each. *)
Definition location_revenue (F : Library) (selected_product : string) (s : Scored)
  : result (list (list scalar) * list scalar) :=
  rbind (filtered selected_product s) (fun f =>
  rbind (groups_of ["Location"] (df f)) (fun kg =>
  rbind (getitem (df f) "Revenue generated") (fun c =>
  rbind (agg_column F (snd kg) Sum c) (fun sums => Ok (fst kg, sums))))).

(** The value shown by the gauge of [update_gauge]. *)
Definition gauge_value (selected_product : string) (s : Scored) : result xfloat :=
  rbind (filtered selected_product s) (fun f => Ok (xmean (efficiency_score f))).

End Callbacks.

(** The table of five records with its two score columns. *)
Definition alerts_scored : Dashboard.Scored :=
  match Dashboard.add_scores alerts_sample with
  | Ok s => s
  | Raise _ => Dashboard.mkScored alerts_sample [] []
  end.

(** * Properties *)

(** ** Lists, masks and zips *)

Section ListFacts.
Context {A B C R : Type}.

Lemma zip_with_map (f : A -> B -> C) (g : R -> A) (h : R -> B) (l : list R) :
  zip_with f (map g l) (map h l) = map (fun r => f (g r) (h r)) l.
Proof.
  induction l as [| r l IH]; simpl; [reflexivity | now rewrite IH].
Qed.

Lemma select_map (p : R -> bool) (g : R -> A) (l : list R) :
  select (map p l) (map g l) = map g (filter p l).
Proof.
  induction l as [| r l IH]; simpl; [reflexivity |].
  destruct (p r); simpl; now rewrite IH.
Qed.

Lemma repeat_length_map (a : A) (l : list R) :
  repeat a (length l) = map (fun _ => a) l.
Proof.
  induction l as [| r l IH]; simpl; [reflexivity | now rewrite IH].
Qed.

Lemma filter_map_comm (p : A -> bool) (g : R -> A) (l : list R) :
  filter p (map g l) = map g (filter (fun r => p (g r)) l).
Proof.
  induction l as [| r l IH]; simpl; [reflexivity |].
  destruct (p (g r)); simpl; now rewrite IH.
Qed.

Lemma select_length (mask : list bool) (xs : list A) :
  length mask = length xs -> length (select mask xs) = count_true mask.
Proof.
  revert xs; induction mask as [| b mask IH]; intros [| x xs] H;
    simpl in *; try discriminate; [reflexivity |].
  injection H as H. unfold count_true in *; simpl.
  destruct b; simpl; now rewrite IH.
Qed.

Lemma map_select (f : A -> B) (mask : list bool) (xs : list A) :
  map f (select mask xs) = select mask (map f xs).
Proof.
  revert xs; induction mask as [| b mask IH]; intros [| x xs]; simpl; try reflexivity.
  destruct b; simpl; now rewrite IH.
Qed.

Lemma count_true_map (p : A -> bool) (l : list A) :
  count_true (map p l) = length (filter p l).
Proof.
  unfold count_true. induction l as [| a l IH]; simpl; [reflexivity |].
  destruct (p a); simpl; now rewrite IH.
Qed.
End ListFacts.

Lemma cells_select_col (mask : list bool) (c : column) :
  cells (select_col mask c) = select mask (cells c).
Proof. destruct c; simpl; apply map_select. Qed.

Lemma Qltb_lt (x y : Q) : Qltb x y = true <-> (x < y)%Q.
Proof.
  unfold Qltb. rewrite negb_true_iff, <- not_true_iff_false, Qle_bool_iff.
  split; [apply Qnot_le_lt | apply Qlt_not_le].
Qed.

Lemma Qgtb_gt (x y : Q) : Qgtb x y = true <-> (y < x)%Q.
Proof. apply Qltb_lt. Qed.

Lemma count_true_le (bs : list bool) : count_true bs <= length bs.
Proof. apply filter_length_le. Qed.

(** ** Cells, numbers and missing values *)

Lemma dropna_present {A} (xs : list (option A)) : dropna xs = present xs.
Proof.
  unfold present. induction xs as [| [a |] xs IH]; simpl; [reflexivity | | assumption].
  now rewrite IH.
Qed.

Lemma cells_length (c : column) : length (cells c) = col_length c.
Proof. destruct c; simpl; apply length_map. Qed.

Lemma num_cell_inj (x y : option Q) : num_cell x = num_cell y -> x = y.
Proof. destruct x, y; simpl; congruence. Qed.

Lemma map_num_cell_inj (xs ys : list (option Q)) :
  map num_cell xs = map num_cell ys -> xs = ys.
Proof.
  revert ys; induction xs as [| x xs IH]; intros [| y ys] H; simpl in *;
    try discriminate; [reflexivity |].
  injection H as H1 H2. f_equal; [now apply num_cell_inj | now apply IH].
Qed.

(** A column whose cells are numbers or missing gives these numbers to a
    comparison or to arithmetic, whatever its type. *)
Lemma as_numbers_cells (c : column) (xs : list (option Q)) :
  cells c = map num_cell xs -> as_numbers c = Ok xs.
Proof.
  destruct c as [ys | ys]; simpl; intros H.
  - f_equal. apply map_num_cell_inj. rewrite <- H.
    apply map_ext; now intros [q |].
  - assert (E : forall (ys : list (option string)) xs,
               map (opt_scalar Str) ys = map num_cell xs ->
               existsb is_some ys = false /\ map (fun _ : option string => @None Q) ys = xs).
    { clear. induction ys as [| y ys IH]; intros [| x xs] H; simpl in *; try discriminate;
        [now split |].
      injection H as H1 H2. destruct (IH _ H2) as [E1 E2].
      destruct y as [t |], x as [q |]; simpl in *; try discriminate.
      split; [assumption | now rewrite E2]. }
    destruct (E _ _ H) as [-> ->]. reflexivity.
Qed.

Lemma as_numbers_length (c : column) (xs : list (option Q)) :
  as_numbers c = Ok xs -> length xs = col_length c.
Proof.
  destruct c as [ys | ys]; simpl.
  - now intros [= ->].
  - destruct (existsb is_some ys); [discriminate |]. intros [= <-]. apply length_map.
Qed.

(** What [as_numbers] returns are the cells of the column. *)
Lemma as_numbers_ok (c : column) (xs : list (option Q)) :
  as_numbers c = Ok xs -> cells c = map num_cell xs.
Proof.
  destruct c as [ys | ys]; simpl.
  - intros [= ->]. apply map_ext; now intros [q |].
  - destruct (existsb is_some ys) eqn:E; [discriminate |]. intros [= <-].
    rewrite map_map; simpl.
    induction ys as [| [t |] ys IH]; simpl in *; try discriminate; [reflexivity |].
    now rewrite IH.
Qed.

Lemma as_numbers_raises (c : column) (x : exn) :
  as_numbers c = Raise x -> x = TypeError /\ exists t, In (Str t) (cells c).
Proof.
  destruct c as [ys | ys]; simpl; [discriminate |].
  destruct (existsb is_some ys) eqn:E; [| discriminate].
  intros [= <-]. split; [reflexivity |].
  apply existsb_exists in E as ([t |] & Hin & Ht); [| discriminate].
  exists t. apply in_map_iff. now exists (Some t).
Qed.

Lemma as_numbers_no_text (c : column) :
  (exists xs, as_numbers c = Ok xs) <-> forall t, ~ In (Str t) (cells c).
Proof.
  split.
  - intros [xs H] t Hin. apply as_numbers_ok in H. rewrite H in Hin.
    apply in_map_iff in Hin as ([q |] & E & _); discriminate.
  - intros H. destruct (as_numbers c) as [xs | x] eqn:E; [now exists xs |].
    apply as_numbers_raises in E as [_ [t Ht]]. now destruct (H t).
Qed.

Lemma nan_lt_below (k : Q) (x : option Q) : nan_lt x (Some k) = below k x.
Proof. now destruct x. Qed.

Lemma nan_gt_above (k : Q) (x : option Q) : nan_gt x (Some k) = above k x.
Proof. now destruct x. Qed.

Lemma nanmean_mean_cost (F : Library) (xs : list (option Q)) :
  nanmean F xs = mean_cost F xs.
Proof.
  unfold nanmean, mean_cost. rewrite dropna_present.
  now destruct (present xs) as [| c1 [| c2 cs]].
Qed.

Lemma nan_gt_above_mean (F : Library) (xs : list (option Q)) (x : option Q) :
  nan_gt x (nanmean F xs) = above_mean F xs x.
Proof.
  unfold above_mean. rewrite nanmean_mean_cost.
  destruct (mean_cost F xs) as [m |]; [apply nan_gt_above | now destruct x].
Qed.

Lemma threshold_is_cost_threshold (F : Library) (xs : list (option Q)) :
  nan_add F (nanmean F xs) (nanstd F xs) = cost_threshold F xs.
Proof.
  unfold nanmean, nanstd, cost_threshold. rewrite dropna_present.
  now destruct (present xs) as [| c1 [| c2 cs]].
Qed.

Lemma nan_gt_is_outlier (F : Library) (xs : list (option Q)) (x : option Q) :
  nan_gt x (nan_add F (nanmean F xs) (nanstd F xs)) = is_outlier F xs x.
Proof.
  unfold is_outlier. rewrite threshold_is_cost_threshold.
  destruct (cost_threshold F xs) as [t |]; [apply nan_gt_above | now destruct x].
Qed.

Lemma below_lt (k : Q) (x : option Q) :
  below k x = true <-> exists q, x = Some q /\ (q < k)%Q.
Proof.
  destruct x as [q |]; simpl.
  - rewrite Qltb_lt. split; [intros H; now exists q | now intros (q' & [= <-] & H)].
  - split; [discriminate | now intros (q & E & _)].
Qed.

Lemma above_gt (k : Q) (x : option Q) :
  above k x = true <-> exists q, x = Some q /\ (k < q)%Q.
Proof.
  destruct x as [q |]; simpl.
  - rewrite Qltb_lt. split; [intros H; now exists q | now intros (q' & [= <-] & H)].
  - split; [discriminate | now intros (q & E & _)].
Qed.

(** ** The risk scorer *)

Lemma total_is_count (b1 b2 b3 b4 : bool) :
  0 + Nat.b2n b1 + Nat.b2n b2 + Nat.b2n b3 + Nat.b2n b4 = count_true [b1; b2; b3; b4].
Proof. now destruct b1, b2, b3, b4. Qed.

(** C1.  On a table whose rows are [rows], [get_risk_assessment] returns,
    without touching the instance, the frame whose rows are exactly the
    records with a total risk score of at least 2, in their original order,
    where each record carries the four strict comparisons (stock level below
    20, lead time above 20, defect rate above 3, manufacturing cost above
    the mean over all records) and their count as score, a number from 0
    to 4.  A missing value satisfies no comparison.  The mean is taken over
    the records that have a cost: it is the library's float mean of two or
    more costs, the cost itself when only one record has one, and no number
    when none has. *)
Theorem get_risk_assessment_rows (F : Library) (e : SupplyChainAnalyzer) (rows : list Row) :
  rows_of (data e) rows ->
  (exists rf,
      get_risk_assessment F e = (Ok rf, e) /\
      risk_rows rf = risk_assessment_spec F rows) /\
  (forall r, In r rows ->
      let costs := present (map manufacturing_cost rows) in
      let a := assess F (map manufacturing_cost rows) r in
      risk_label a = label r /\ risk_sku a = sku r /\
      (stock_risk a = true <-> exists x, stock_level r = Some x /\ (x < 20)%Q) /\
      (lead_time_risk a = true <-> exists x, lead_time_days r = Some x /\ (20 < x)%Q) /\
      (quality_risk a = true <-> exists x, defect_rate r = Some x /\ (3 < x)%Q) /\
      (cost_risk a = true <->
         exists x, manufacturing_cost r = Some x /\
                   ((exists c, costs = [c] /\ (c < x)%Q) \/
                    (2 <= length costs /\ (fmean F costs < x)%Q))) /\
      total_risk_score a =
        Nat.b2n (stock_risk a) + Nat.b2n (lead_time_risk a)
        + Nat.b2n (quality_risk a) + Nat.b2n (cost_risk a) /\
      0 <= total_risk_score a <= 4) /\
  (forall a, In a (risk_assessment_spec F rows) <->
             2 <= total_risk_score a /\
             exists r, In r rows /\ a = assess F (map manufacturing_cost rows) r).
Proof.
  intros (Hidx & (c & Hsku & Hcells) & (c1 & Hstock & H1) & (c2 & Hlead & H2)
          & (c3 & Hdefect & H3) & (c4 & Hcost & H4)).
  rewrite <- (map_map stock_level num_cell) in H1.
  rewrite <- (map_map lead_time_days num_cell) in H2.
  rewrite <- (map_map defect_rate num_cell) in H3.
  rewrite <- (map_map manufacturing_cost num_cell) in H4.
  apply as_numbers_cells in H1, H2, H3, H4.
  split; [| split].
  - unfold get_risk_assessment, bind, lift, get_data, ret, df_len.
    rewrite Hsku, Hstock, Hlead, Hdefect, Hcost, Hidx.
    unfold lt_scalar, gt_scalar, gt_own_mean, rbind.
    rewrite H1, H2, H3, H4.
    eexists; split; [reflexivity |].
    unfold risk_rows, zap, risk_assessment_spec, sum_axis1, fold_left.
    cbv beta iota zeta delta [risk_index SKU Stock_Risk Lead_Time_Risk Quality_Risk
                                Cost_Risk Total_Risk_Score].
    rewrite cells_select_col, Hcells.
    rewrite length_map, repeat_length_map, !map_map, !zip_with_map, !map_map,
      !select_map, !zip_with_map.
    rewrite filter_map_comm.
    rewrite (filter_ext _ (fun r => Nat.leb 2 (total_risk_score
               (assess F (map manufacturing_cost rows) r)))).
    + apply map_ext; intros r. unfold assess.
      rewrite nan_lt_below, !nan_gt_above, nan_gt_above_mean. f_equal.
      apply total_is_count.
    + intros r. unfold assess; simpl total_risk_score.
      now rewrite nan_lt_below, !nan_gt_above, nan_gt_above_mean, total_is_count.
  - intros r _; cbv zeta; unfold assess;
      cbn [risk_label risk_sku stock_risk lead_time_risk quality_risk cost_risk
           total_risk_score].
    split; [reflexivity |]. split; [reflexivity |].
    split; [apply below_lt |].
    split; [apply above_gt |].
    split; [apply above_gt |].
    split.
    + unfold above_mean, mean_cost.
      destruct (present (map manufacturing_cost rows)) as [| k1 [| k2 ks]] eqn:E.
      * split; [discriminate |].
        intros (x & _ & [(k & Hk & _) | (Hk & _)]); [discriminate | simpl in Hk; lia].
      * rewrite above_gt. split.
        -- intros (x & Hx & Hlt). exists x; split; [assumption |]. left. now exists k1.
        -- intros (x & Hx & [(k & [= <-] & Hlt) | (Hk & _)]); [| simpl in Hk; lia].
           now exists x.
      * rewrite above_gt. split.
        -- intros (x & Hx & Hlt). exists x; split; [assumption |]. right.
           split; [simpl; lia | assumption].
        -- intros (x & Hx & [(k & Hk & _) | (_ & Hlt)]); [discriminate |].
           now exists x.
    + split.
      * now destruct (below 20 (stock_level r)), (above 20 (lead_time_days r)),
          (above 3 (defect_rate r)),
          (above_mean F (map manufacturing_cost rows) (manufacturing_cost r)).
      * split; [lia | apply (count_true_le [_; _; _; _])].
  - intros a. unfold risk_assessment_spec. rewrite filter_In, in_map_iff.
    rewrite Nat.leb_le. split.
    + intros [(r & <- & Hr) Hs]. split; [assumption | now exists r].
    + intros [Hs (r & Hr & ->)]. split; [now exists r | assumption].
Qed.

(** Every rectangular frame with the columns of the risk scorer, none of the
    four numeric ones holding a string, has rows. *)
Lemma combine_fst_snd {A B} (xs : list A) (ys : list B) :
  length xs = length ys ->
  map fst (combine xs ys) = xs /\ map snd (combine xs ys) = ys.
Proof.
  revert ys; induction xs as [| x xs IH]; intros [| y ys] H; simpl in *;
    try discriminate; [now split |].
  injection H as H. destruct (IH ys H) as [-> ->]. now split.
Qed.

Lemma assoc_In {A} (name : string) (l : list (string * A)) (a : A) :
  assoc name l = Some a -> In (name, a) l.
Proof.
  induction l as [| [n b] l IH]; simpl; [discriminate |].
  destruct (String.eqb_spec n name) as [-> | _].
  - intros [= ->]. now left.
  - intros H. right. now apply IH.
Qed.

Lemma getitem_assoc (d : DataFrame) (name : string) (c : column) :
  getitem d name = Ok c <-> assoc name (columns d) = Some c.
Proof.
  unfold getitem. destruct (assoc name (columns d)); split; congruence.
Qed.

Lemma wf_frame_length (d : DataFrame) (name : string) (c : column) :
  wf_frame d -> getitem d name = Ok c -> col_length c = length (index d).
Proof.
  intros Hwf H. apply getitem_assoc, assoc_In in H.
  unfold wf_frame in Hwf. rewrite Forall_forall in Hwf. exact (Hwf _ H).
Qed.

Lemma rows_of_exists (d : DataFrame) (c : column) (stocks leads defects costs : list (option Q)) :
  wf_frame d ->
  getitem d "SKU" = Ok c ->
  rbind (getitem d "Stock levels") as_numbers = Ok stocks ->
  rbind (getitem d "Lead time") as_numbers = Ok leads ->
  rbind (getitem d "Defect rates") as_numbers = Ok defects ->
  rbind (getitem d "Manufacturing costs") as_numbers = Ok costs ->
  exists rows, rows_of d rows.
Proof.
  intros Hwf H0 H1 H2 H3 H4.
  destruct (getitem d "Stock levels") as [c1 |] eqn:G1; [simpl in H1 | discriminate].
  destruct (getitem d "Lead time") as [c2 |] eqn:G2; [simpl in H2 | discriminate].
  destruct (getitem d "Defect rates") as [c3 |] eqn:G3; [simpl in H3 | discriminate].
  destruct (getitem d "Manufacturing costs") as [c4 |] eqn:G4; [simpl in H4 | discriminate].
  pose proof (wf_frame_length _ _ _ Hwf H0) as L0.
  pose proof (wf_frame_length _ _ _ Hwf G1) as L1.
  pose proof (wf_frame_length _ _ _ Hwf G2) as L2.
  pose proof (wf_frame_length _ _ _ Hwf G3) as L3.
  pose proof (wf_frame_length _ _ _ Hwf G4) as L4.
  rewrite <- (as_numbers_length _ _ H1) in L1.
  rewrite <- (as_numbers_length _ _ H2) in L2.
  rewrite <- (as_numbers_length _ _ H3) in L3.
  rewrite <- (as_numbers_length _ _ H4) in L4.
  apply as_numbers_ok in H1, H2, H3, H4.
  rewrite <- cells_length in L0.
  set (t1 := combine (index d) (cells c)).
  set (t2 := combine t1 stocks).
  set (t3 := combine t2 leads).
  set (t4 := combine t3 defects).
  set (t5 := combine t4 costs).
  assert (N1 : length t1 = length (index d))
    by (unfold t1; rewrite length_combine; lia).
  assert (N2 : length t2 = length (index d))
    by (unfold t2; rewrite length_combine; lia).
  assert (N3 : length t3 = length (index d))
    by (unfold t3; rewrite length_combine; lia).
  assert (N4 : length t4 = length (index d))
    by (unfold t4; rewrite length_combine; lia).
  destruct (combine_fst_snd (index d) (cells c)) as [A1 B1]; [lia |].
  destruct (combine_fst_snd t1 stocks) as [A2 B2]; [lia |].
  destruct (combine_fst_snd t2 leads) as [A3 B3]; [lia |].
  destruct (combine_fst_snd t3 defects) as [A4 B4]; [lia |].
  destruct (combine_fst_snd t4 costs) as [A5 B5]; [lia |].
  fold t1 in A1, B1. fold t2 in A2, B2. fold t3 in A3, B3.
  fold t4 in A4, B4. fold t5 in A5, B5.
  exists (map (fun p => mkRow (fst (fst (fst (fst (fst p)))))
                              (snd (fst (fst (fst (fst p)))))
                              (snd (fst (fst (fst p))))
                              (snd (fst (fst p)))
                              (snd (fst p))
                              (snd p)) t5).
  unfold rows_of, column_is. rewrite !map_map; simpl.
  assert (E4 : forall X (g : _ -> X), map (fun p => g (fst p)) t5 = map g t4)
    by (intros X g; rewrite <- A5; now rewrite map_map).
  assert (E3 : forall X (g : _ -> X), map (fun p => g (fst p)) t4 = map g t3)
    by (intros X g; rewrite <- A4; now rewrite map_map).
  assert (E2 : forall X (g : _ -> X), map (fun p => g (fst p)) t3 = map g t2)
    by (intros X g; rewrite <- A3; now rewrite map_map).
  assert (E1 : forall X (g : _ -> X), map (fun p => g (fst p)) t2 = map g t1)
    by (intros X g; rewrite <- A2; now rewrite map_map).
  split.
  { rewrite (E4 _ (fun p => fst (fst (fst (fst p))))),
      (E3 _ (fun p => fst (fst (fst p)))), (E2 _ (fun p => fst (fst p))),
      (E1 _ fst). now rewrite A1. }
  split.
  { exists c; split; [assumption |].
    rewrite (E4 _ (fun p => snd (fst (fst (fst p))))),
      (E3 _ (fun p => snd (fst (fst p)))), (E2 _ (fun p => snd (fst p))),
      (E1 _ snd). now rewrite B1. }
  split.
  { exists c1; split; [exact G1 |]. rewrite H1.
    rewrite (E4 _ (fun p => num_cell (snd (fst (fst p))))),
      (E3 _ (fun p => num_cell (snd (fst p)))), (E2 _ (fun p => num_cell (snd p))).
    now rewrite <- (map_map snd num_cell), B2. }
  split.
  { exists c2; split; [exact G2 |]. rewrite H2.
    rewrite (E4 _ (fun p => num_cell (snd (fst p)))), (E3 _ (fun p => num_cell (snd p))).
    now rewrite <- (map_map snd num_cell), B3. }
  split.
  { exists c3; split; [exact G3 |]. rewrite H3.
    rewrite (E4 _ (fun p => num_cell (snd p))).
    now rewrite <- (map_map snd num_cell), B4. }
  exists c4; split; [exact G4 |]. rewrite H4.
  now rewrite <- (map_map snd num_cell), B5.
Qed.

(** ** The recommendation rules *)

Lemma assoc_nonempty {A} (name : string) (l : list (string * A)) (a : A) :
  assoc name l = Some a -> Nat.eqb (length l) 0 = false.
Proof. destruct l; [discriminate | reflexivity]. Qed.

Lemma append_if_any_count (d : DataFrame) (mask : list bool)
      (entry : nat -> Recommendation) (acc : list Recommendation) :
  length mask = length (index d) ->
  Nat.eqb (length (columns d)) 0 = false ->
  append_if_any (filter_rows mask d) (entry (df_len (filter_rows mask d))) acc
  = acc ++ when_any (count_true mask) entry.
Proof.
  intros Hlen Hcols.
  unfold append_if_any, df_empty, df_len, filter_rows; simpl.
  rewrite length_map, Hcols, orb_false_r, (select_length mask (index d) Hlen).
  destruct (count_true mask); simpl; [now rewrite app_nil_r | reflexivity].
Qed.

Lemma eq_str_length (c : column) (s : string) : length (eq_str c s) = col_length c.
Proof. destruct c; simpl; apply length_map. Qed.

(** The mask of [== 'Fail'] marks the cells that are that string. *)
Lemma eq_str_is_fail (c : column) : eq_str c "Fail" = map is_fail (cells c).
Proof.
  destruct c as [xs | xs]; simpl; rewrite map_map; apply map_ext.
  - now intros [q |].
  - now intros [t |].
Qed.


(** What [generate_recommendations] returns on a table whose stock levels
    and costs are numbers. *)
Lemma generate_recommendations_counts
      (F : Library) (e : SupplyChainAnalyzer) (stocks : list (option Q))
      (inspections : column) (costs : list (option Q)) :
  wf_frame (data e) ->
  rbind (getitem (data e) "Stock levels") as_numbers = Ok stocks ->
  getitem (data e) "Inspection results" = Ok inspections ->
  rbind (getitem (data e) "Costs") as_numbers = Ok costs ->
  generate_recommendations F e =
    (Ok (when_any (low_stock_count stocks) inventory_entry
         ++ when_any (failed_count (cells inspections)) quality_entry
         ++ when_any (high_cost_count F costs) logistics_entry), e).
Proof.
  intros Hwf Hstock Hinsp Hcost.
  destruct (getitem (data e) "Stock levels") as [c1 |] eqn:G1; [simpl in Hstock | discriminate].
  destruct (getitem (data e) "Costs") as [c3 |] eqn:G3; [simpl in Hcost | discriminate].
  pose proof (wf_frame_length _ _ _ Hwf G1) as L1.
  pose proof (wf_frame_length _ _ _ Hwf Hinsp) as L2.
  pose proof (wf_frame_length _ _ _ Hwf G3) as L3.
  rewrite <- (as_numbers_length _ _ Hstock) in L1.
  rewrite <- (as_numbers_length _ _ Hcost) in L3.
  assert (Hcols : Nat.eqb (length (columns (data e))) 0 = false).
  { apply getitem_assoc in Hinsp. exact (assoc_nonempty _ _ _ Hinsp). }
  unfold generate_recommendations, bind, lift, get_data, ret.
  rewrite G1, Hinsp, G3.
  unfold lt_scalar, gt_own_mean_plus_std, rbind. rewrite Hstock, Hcost.
  pose proof (fun H acc => append_if_any_count (data e)
                             (map (fun x => nan_lt x (Some 20%Q)) stocks)
                             inventory_entry acc H Hcols) as E1.
  pose proof (fun H acc => append_if_any_count (data e) (eq_str inspections "Fail")
                             quality_entry acc H Hcols) as E2.
  pose proof (fun H acc => append_if_any_count (data e)
                             (map (fun x => nan_gt x (nan_add F (nanmean F costs)
                                                                (nanstd F costs))) costs)
                             logistics_entry acc H Hcols) as E3.
  unfold inventory_entry in E1; unfold quality_entry in E2;
    unfold logistics_entry in E3.
  cbv zeta.
  rewrite E1, E2, E3; rewrite ?length_map, ?eq_str_length; try assumption.
  rewrite <- app_assoc. do 2 f_equal.
  unfold low_stock_count, failed_count, high_cost_count.
  rewrite eq_str_is_fail, !count_true_map.
  rewrite (filter_ext _ (below 20)) by (intros x; apply nan_lt_below).
  rewrite (filter_ext (fun x => nan_gt x _) (is_outlier F costs))
    by (intros x; apply nan_gt_is_outlier).
  reflexivity.
Qed.


(** ** What a call does to the instance *)

Lemma analyze_product_performance_eq (F : Library) (e : SupplyChainAnalyzer) :
  analyze_product_performance F e =
  match product_tables F (data e) with
  | Ok m => (Ok tt, {| data := data e; product_metrics := Some m;
                       supplier_metrics := supplier_metrics e;
                       logistics_metrics := logistics_metrics e |})
  | Raise x => (Raise x, e)
  end.
Proof.
  unfold analyze_product_performance, bind, lift, get_data, set_product_metrics.
  now destruct (product_tables F (data e)).
Qed.

Lemma analyze_supplier_performance_eq (F : Library) (e : SupplyChainAnalyzer) :
  analyze_supplier_performance F e =
  match supplier_tables F (data e) with
  | Ok m => (Ok tt, {| data := data e; product_metrics := product_metrics e;
                       supplier_metrics := Some m;
                       logistics_metrics := logistics_metrics e |})
  | Raise x => (Raise x, e)
  end.
Proof.
  unfold analyze_supplier_performance, bind, lift, get_data, set_supplier_metrics.
  now destruct (supplier_tables F (data e)).
Qed.

Lemma analyze_logistics_eq (F : Library) (e : SupplyChainAnalyzer) :
  analyze_logistics F e =
  match logistics_tables F (data e) with
  | Ok m => (Ok tt, {| data := data e; product_metrics := product_metrics e;
                       supplier_metrics := supplier_metrics e;
                       logistics_metrics := Some m |})
  | Raise x => (Raise x, e)
  end.
Proof.
  unfold analyze_logistics, bind, lift, get_data, set_logistics_metrics.
  now destruct (logistics_tables F (data e)).
Qed.

(** A method that only reads: whatever it returns, the instance is the one
    it was called on. *)
Ltac reads_only :=
  unfold bind, lift, ret, get_data, get_product_metrics, get_supplier_metrics,
    get_logistics_metrics;
  repeat match goal with
         | |- context [match ?r with Ok _ => _ | Raise _ => _ end] => destruct r
         end;
  reflexivity.

Lemma get_risk_assessment_reads (F : Library) (e : SupplyChainAnalyzer) :
  snd (get_risk_assessment F e) = e.
Proof. unfold get_risk_assessment. reads_only. Qed.

Lemma generate_recommendations_reads (F : Library) (e : SupplyChainAnalyzer) :
  snd (generate_recommendations F e) = e.
Proof. unfold generate_recommendations. reads_only. Qed.

Lemma generate_summary_report_reads (F : Library) (e : SupplyChainAnalyzer) :
  snd (generate_summary_report F e) = e.
Proof. unfold generate_summary_report. reads_only. Qed.

Lemma discard_snd {A} (m : M A) (e : SupplyChainAnalyzer) :
  snd (discard m e) = snd (m e).
Proof. unfold discard, bind, ret. now destruct (m e) as [[a | x] e']. Qed.

Lemma call_data (F : Library) (o : op) (e : SupplyChainAnalyzer) :
  data (snd (call F o e)) = data e.
Proof.
  destruct o; simpl.
  - rewrite analyze_product_performance_eq. now destruct (product_tables F (data e)).
  - rewrite analyze_supplier_performance_eq. now destruct (supplier_tables F (data e)).
  - rewrite analyze_logistics_eq. now destruct (logistics_tables F (data e)).
  - now rewrite discard_snd, get_risk_assessment_reads.
  - now rewrite discard_snd, generate_recommendations_reads.
  - now rewrite discard_snd, generate_summary_report_reads.
Qed.

Lemma run_data (F : Library) (ops : list op) (e : SupplyChainAnalyzer) :
  data (snd (run F ops e)) = data e.
Proof.
  revert e; induction ops as [| o ops IH]; intros e; simpl; [reflexivity |].
  unfold bind. pose proof (call_data F o e) as H.
  destruct (call F o e) as [[[] | x] e1]; simpl in *; [| exact H].
  now rewrite IH.
Qed.

(** C7.  Calling an aggregation method a second time, on the instance the
    first call left, has the outcome of the first call and leaves the same
    instance: the slot is assigned the identical tables again. *)
Theorem analyze_twice_identical (F : Library) (e : SupplyChainAnalyzer) :
  analyze_product_performance F (snd (analyze_product_performance F e))
    = analyze_product_performance F e /\
  analyze_supplier_performance F (snd (analyze_supplier_performance F e))
    = analyze_supplier_performance F e /\
  analyze_logistics F (snd (analyze_logistics F e)) = analyze_logistics F e.
Proof.
  repeat split.
  - rewrite !analyze_product_performance_eq.
    destruct (product_tables F (data e)) as [m | x] eqn:E; simpl; now rewrite E.
  - rewrite !analyze_supplier_performance_eq.
    destruct (supplier_tables F (data e)) as [m | x] eqn:E; simpl; now rewrite E.
  - rewrite !analyze_logistics_eq.
    destruct (logistics_tables F (data e)) as [m | x] eqn:E; simpl; now rewrite E.
Qed.

(** C8.  No call changes [self.data], alone or in a sequence, and an analyze
    method leaves the two slots of the other methods as they were. *)
Theorem analyze_writes_own_slot (F : Library) (e : SupplyChainAnalyzer) :
  (forall o, data (snd (call F o e)) = data e) /\
  (forall ops, data (snd (run F ops e)) = data e) /\
  (supplier_metrics (snd (analyze_product_performance F e)) = supplier_metrics e /\
   logistics_metrics (snd (analyze_product_performance F e)) = logistics_metrics e) /\
  (product_metrics (snd (analyze_supplier_performance F e)) = product_metrics e /\
   logistics_metrics (snd (analyze_supplier_performance F e)) = logistics_metrics e) /\
  (product_metrics (snd (analyze_logistics F e)) = product_metrics e /\
   supplier_metrics (snd (analyze_logistics F e)) = supplier_metrics e).
Proof.
  split; [intros o; apply call_data |].
  split; [intros ops; apply run_data |].
  rewrite analyze_product_performance_eq, analyze_supplier_performance_eq,
    analyze_logistics_eq.
  destruct (product_tables F (data e)), (supplier_tables F (data e)),
    (logistics_tables F (data e)); simpl; repeat split.
Qed.

(** C10.  [get_risk_assessment] and [generate_recommendations] return their
    value or raise, and in both cases leave the instance as it was, so a
    summary report made afterwards is the one that would have been made
    before. *)
Theorem queries_leave_instance (F : Library) (e : SupplyChainAnalyzer) :
  snd (get_risk_assessment F e) = e /\
  snd (generate_recommendations F e) = e /\
  generate_summary_report F (snd (get_risk_assessment F e)) = generate_summary_report F e /\
  generate_summary_report F (snd (generate_recommendations F e))
    = generate_summary_report F e.
Proof.
  now rewrite get_risk_assessment_reads, generate_recommendations_reads.
Qed.

(** ** The slots after a sequence of calls, and the summary report *)

Ltac split_stages :=
  repeat match goal with
         | H : match ?r with Ok _ => _ | Raise _ => _ end = Ok _ |- _ =>
             destruct r; [| discriminate]
         end.

Lemma product_tables_names (F : Library) (d : DataFrame) (m : metrics) :
  product_tables F d = Ok m ->
  map fst m = ["category_performance"; "top_revenue_products"; "stock_alerts"].
Proof.
  unfold product_tables, rbind. intros H. split_stages. now injection H as <-.
Qed.

Lemma supplier_tables_names (F : Library) (d : DataFrame) (m : metrics) :
  supplier_tables F d = Ok m ->
  map fst m = ["supplier_performance"; "supplier_locations"; "quality_issues"].
Proof.
  unfold supplier_tables, rbind. intros H. split_stages. now injection H as <-.
Qed.

Lemma logistics_tables_names (F : Library) (d : DataFrame) (m : metrics) :
  logistics_tables F d = Ok m ->
  map fst m = ["carrier_performance"; "transport_cost_analysis"; "route_efficiency"].
Proof.
  unfold logistics_tables, rbind. intros H. split_stages. now injection H as <-.
Qed.

Lemma discard_returns {A} (m : M A) (e e1 : SupplyChainAnalyzer) :
  snd (m e) = e -> discard m e = (Ok tt, e1) -> e1 = e.
Proof.
  unfold discard, bind, ret. destruct (m e) as [[a | x] e2]; simpl.
  - intros -> [= <-]. reflexivity.
  - discriminate.
Qed.

Lemma run_slots (F : Library) (ops : list op) (e e' : SupplyChainAnalyzer) :
  run F ops e = (Ok tt, e') ->
  (product_metrics e' =
     if invoked AnalyzeProductPerformance ops
     then computed (product_tables F (data e)) else product_metrics e) /\
  (supplier_metrics e' =
     if invoked AnalyzeSupplierPerformance ops
     then computed (supplier_tables F (data e)) else supplier_metrics e) /\
  (logistics_metrics e' =
     if invoked AnalyzeLogistics ops
     then computed (logistics_tables F (data e)) else logistics_metrics e) /\
  (invoked AnalyzeProductPerformance ops = true ->
     exists m, product_tables F (data e) = Ok m) /\
  (invoked AnalyzeSupplierPerformance ops = true ->
     exists m, supplier_tables F (data e) = Ok m) /\
  (invoked AnalyzeLogistics ops = true ->
     exists m, logistics_tables F (data e) = Ok m).
Proof.
  revert e; induction ops as [| o ops IH]; intros e; simpl.
  - unfold ret. intros [= <-]. repeat split; discriminate.
  - unfold bind. destruct (call F o e) as [[[] | x] e1] eqn:Hcall; [| discriminate].
    intros Hrun. specialize (IH e1 Hrun).
    pose proof (call_data F o e) as Hd. rewrite Hcall in Hd; simpl in Hd.
    rewrite Hd in IH. destruct IH as (Ip & Is & Il & Ep & Es & El).
    destruct o; simpl in Hcall |- *.
    + rewrite analyze_product_performance_eq in Hcall.
      destruct (product_tables F (data e)) as [m | x] eqn:E; [| discriminate].
      injection Hcall as <-. simpl in *.
      repeat split; try assumption; eauto.
      now destruct (invoked AnalyzeProductPerformance ops).
    + rewrite analyze_supplier_performance_eq in Hcall.
      destruct (supplier_tables F (data e)) as [m | x] eqn:E; [| discriminate].
      injection Hcall as <-. simpl in *.
      repeat split; try assumption; eauto.
      now destruct (invoked AnalyzeSupplierPerformance ops).
    + rewrite analyze_logistics_eq in Hcall.
      destruct (logistics_tables F (data e)) as [m | x] eqn:E; [| discriminate].
      injection Hcall as <-. simpl in *.
      repeat split; try assumption; eauto.
      now destruct (invoked AnalyzeLogistics ops).
    + apply discard_returns in Hcall; [| apply get_risk_assessment_reads].
      subst e1. repeat split; assumption.
    + apply discard_returns in Hcall; [| apply generate_recommendations_reads].
      subst e1. repeat split; assumption.
    + apply discard_returns in Hcall; [| apply generate_summary_report_reads].
      subst e1. repeat split; assumption.
Qed.

Lemma generate_summary_report_slots (F : Library) (e e' : SupplyChainAnalyzer)
      (rep : SummaryReport) :
  generate_summary_report F e = (Ok rep, e') ->
  Product_Performance rep = or_none (product_metrics e) /\
  Supplier_Performance rep = or_none (supplier_metrics e) /\
  Logistics_Performance rep = or_none (logistics_metrics e).
Proof.
  unfold generate_summary_report, bind, lift, ret, get_data, get_product_metrics,
    get_supplier_metrics, get_logistics_metrics.
  repeat match goal with
         | |- context [match ?r with Ok _ => _ | Raise _ => _ end] => destruct r
         end; try discriminate.
  intros [= <- _]. simpl. repeat split.
Qed.

(** A session in which every call returns is a run. *)
Lemma run_session (F : Library) (ops : list op) (e e' : SupplyChainAnalyzer) :
  run F ops e = (Ok tt, e') ->
  session F ops e = (map (fun o => (o, Returned)) ops, e').
Proof.
  revert e; induction ops as [| o ops IH]; intros e; simpl.
  - unfold ret. now intros [= <-].
  - unfold bind. destruct (call F o e) as [[[] | x] e1]; [| discriminate].
    intros H. now rewrite (IH _ H).
Qed.

Lemma session_calls (F : Library) (ops : list op) (e : SupplyChainAnalyzer) :
  map fst (fst (session F ops e)) = ops /\ data (snd (session F ops e)) = data e.
Proof.
  revert e; induction ops as [| o ops IH]; intros e; simpl; [now split |].
  pose proof (call_data F o e) as Hd.
  destruct (call F o e) as [r e1]; simpl in Hd.
  specialize (IH e1). destruct (session F ops e1) as [log e2]; simpl in *.
  destruct IH as [-> ->]. now split.
Qed.

Lemma session_slots (F : Library) (ops : list op) (e : SupplyChainAnalyzer) :
  let log := fst (session F ops e) in
  let e' := snd (session F ops e) in
  product_metrics e' =
    slot_after AnalyzeProductPerformance log (product_tables F (data e))
               (product_metrics e) /\
  supplier_metrics e' =
    slot_after AnalyzeSupplierPerformance log (supplier_tables F (data e))
               (supplier_metrics e) /\
  logistics_metrics e' =
    slot_after AnalyzeLogistics log (logistics_tables F (data e)) (logistics_metrics e).
Proof.
  revert e; induction ops as [| o ops IH]; intros e; cbv zeta; simpl;
    [now repeat split |].
  pose proof (call_data F o e) as Hd.
  destruct (call F o e) as [r e1] eqn:Hcall; simpl in Hd.
  specialize (IH e1); cbv zeta in IH. rewrite Hd in IH.
  destruct (session F ops e1) as [log e2]; simpl in *.
  destruct IH as (Ip & Is & Il). rewrite Ip, Is, Il. unfold slot_after; simpl.
  destruct o; simpl in Hcall |- *.
  - rewrite analyze_product_performance_eq in Hcall.
    destruct (product_tables F (data e)) as [m | x] eqn:E;
      injection Hcall as <- <-; simpl; repeat split;
      now destruct (existsb _ log).
  - rewrite analyze_supplier_performance_eq in Hcall.
    destruct (supplier_tables F (data e)) as [m | x] eqn:E;
      injection Hcall as <- <-; simpl; repeat split;
      now destruct (existsb _ log).
  - rewrite analyze_logistics_eq in Hcall.
    destruct (logistics_tables F (data e)) as [m | x] eqn:E;
      injection Hcall as <- <-; simpl; repeat split;
      now destruct (existsb _ log).
  - pose proof (discard_snd (get_risk_assessment F) e) as S.
    rewrite Hcall, get_risk_assessment_reads in S; simpl in S; subst e1.
    now repeat split.
  - pose proof (discard_snd (generate_recommendations F) e) as S.
    rewrite Hcall, generate_recommendations_reads in S; simpl in S; subst e1.
    now repeat split.
  - pose proof (discard_snd (generate_summary_report F) e) as S.
    rewrite Hcall, generate_summary_report_reads in S; simpl in S; subst e1.
    now repeat split.
Qed.

(** An analyze call is logged as returned exactly when the method was
    called and its tables can be computed from the data. *)
Lemma session_returned (F : Library) (ops : list op) (e : SupplyChainAnalyzer) :
  let log := fst (session F ops e) in
  (In (AnalyzeProductPerformance, Returned) log <->
     invoked AnalyzeProductPerformance ops = true /\
     exists m, product_tables F (data e) = Ok m) /\
  (In (AnalyzeSupplierPerformance, Returned) log <->
     invoked AnalyzeSupplierPerformance ops = true /\
     exists m, supplier_tables F (data e) = Ok m) /\
  (In (AnalyzeLogistics, Returned) log <->
     invoked AnalyzeLogistics ops = true /\
     exists m, logistics_tables F (data e) = Ok m).
Proof.
  revert e; induction ops as [| o ops IH]; intros e; cbv zeta; simpl.
  - repeat split; try easy; now intros [? _].
  - pose proof (call_data F o e) as Hd.
    destruct (call F o e) as [r e1] eqn:Hcall; simpl in Hd.
    specialize (IH e1); cbv zeta in IH. rewrite Hd in IH.
    destruct (session F ops e1) as [log e2]; simpl in *.
    destruct IH as (Ip & Is & Il).
    assert (Hr : match o with
                 | AnalyzeProductPerformance =>
                     r = Ok tt <-> exists m, product_tables F (data e) = Ok m
                 | AnalyzeSupplierPerformance =>
                     r = Ok tt <-> exists m, supplier_tables F (data e) = Ok m
                 | AnalyzeLogistics =>
                     r = Ok tt <-> exists m, logistics_tables F (data e) = Ok m
                 | _ => True
                 end).
    { destruct o; simpl in Hcall; try exact I.
      - rewrite analyze_product_performance_eq in Hcall.
        destruct (product_tables F (data e)) as [m | x]; injection Hcall as <- _;
          split; eauto; try discriminate. now intros [m Hm].
      - rewrite analyze_supplier_performance_eq in Hcall.
        destruct (supplier_tables F (data e)) as [m | x]; injection Hcall as <- _;
          split; eauto; try discriminate. now intros [m Hm].
      - rewrite analyze_logistics_eq in Hcall.
        destruct (logistics_tables F (data e)) as [m | x]; injection Hcall as <- _;
          split; eauto; try discriminate. now intros [m Hm]. }
    assert (Ho : outcome_of r = Returned <-> r = Ok tt).
    { destruct r as [[] | x]; simpl; split; congruence. }
    destruct o; simpl;
      (split; [| split]);
      (split;
       [ intros [H | H];
         [ first [ discriminate H
                 | injection H as H; apply Ho in H; split; [reflexivity | now apply Hr] ]
         | first [ apply Ip in H | apply Is in H | apply Il in H ];
           destruct H as [Hi Hm]; split; [first [reflexivity | exact Hi] | exact Hm] ]
       | intros [Hi Hm];
         first [ right; first [ now apply Ip | now apply Is | now apply Il ]
               | left; f_equal; apply Ho; now apply Hr ] ]).
Qed.

Lemma returned_in_log (o : op) (log : list (op * outcome)) :
  existsb (fun c => op_eqb o (fst c) && match snd c with
                                        | Returned => true
                                        | Raised _ => false
                                        end) log = true
  <-> In (o, Returned) log.
Proof.
  rewrite existsb_exists. split.
  - intros ([o' [| x]] & Hin & H); simpl in H;
      [| now rewrite andb_false_r in H].
    rewrite andb_true_r in H. now destruct o, o'.
  - intros H. exists (o, Returned); split; [assumption |]. now destruct o.
Qed.

Lemma slot_report (o : op) (log : list (op * outcome)) (tables : result metrics)
      (names : list string) :
  (forall m, tables = Ok m -> map fst m = names) ->
  names <> [] ->
  (In (o, Returned) log -> exists m, tables = Ok m) ->
  let slot := or_none (slot_after o log tables None) in
  (slot = None <-> ~ In (o, Returned) log) /\
  (In (o, Returned) log ->
     exists m, tables = Ok m /\ slot = Some m /\ map fst m = names).
Proof.
  intros Hn Hne Hex; cbv zeta. unfold slot_after.
  destruct (existsb _ log) eqn:E.
  - apply returned_in_log in E. destruct (Hex E) as [m Hm].
    pose proof (Hn m Hm) as Hnames. rewrite Hm; simpl.
    assert (T : or_none (Some m) = Some m).
    { unfold or_none. destruct m; [now destruct names | reflexivity]. }
    rewrite T. split; [split; [discriminate | tauto] |].
    intros _. now exists m.
  - assert (N : ~ In (o, Returned) log).
    { intros H. apply returned_in_log in H. congruence. }
    split; [now split | tauto].
Qed.

(** C3, amended.  A caller makes any calls on a new instance, going on
    after a call that raises, and then asks for the summary report.  The
    report holds [None] for an aggregation exactly when no call of its
    analyze method has returned: the method was not called, or every call of
    it raised.  When a call of it returned, the report holds the dictionary
    the method computes from the loaded data, which always has its three
    entries, whether their tables have rows or not.  A call of the method
    returns exactly when its tables can be computed from the data; when
    every call of the session returns, the session is the plain sequence of
    the calls. *)
Theorem summary_report_marks_slots (F : Library) (d : DataFrame) (ops : list op)
        (log : list (op * outcome)) (e' e'' : SupplyChainAnalyzer) (rep : SummaryReport) :
  session F ops (fresh d) = (log, e') ->
  generate_summary_report F e' = (Ok rep, e'') ->
  map fst log = ops /\
  ((Product_Performance rep = None <-> ~ In (AnalyzeProductPerformance, Returned) log) /\
   (In (AnalyzeProductPerformance, Returned) log <->
      invoked AnalyzeProductPerformance ops = true /\ exists m, product_tables F d = Ok m) /\
   (In (AnalyzeProductPerformance, Returned) log ->
      exists m, product_tables F d = Ok m /\ Product_Performance rep = Some m /\
                map fst m = ["category_performance"; "top_revenue_products";
                             "stock_alerts"])) /\
  ((Supplier_Performance rep = None <-> ~ In (AnalyzeSupplierPerformance, Returned) log) /\
   (In (AnalyzeSupplierPerformance, Returned) log <->
      invoked AnalyzeSupplierPerformance ops = true /\
      exists m, supplier_tables F d = Ok m) /\
   (In (AnalyzeSupplierPerformance, Returned) log ->
      exists m, supplier_tables F d = Ok m /\ Supplier_Performance rep = Some m /\
                map fst m = ["supplier_performance"; "supplier_locations";
                             "quality_issues"])) /\
  ((Logistics_Performance rep = None <-> ~ In (AnalyzeLogistics, Returned) log) /\
   (In (AnalyzeLogistics, Returned) log <->
      invoked AnalyzeLogistics ops = true /\ exists m, logistics_tables F d = Ok m) /\
   (In (AnalyzeLogistics, Returned) log ->
      exists m, logistics_tables F d = Ok m /\ Logistics_Performance rep = Some m /\
                map fst m = ["carrier_performance"; "transport_cost_analysis";
                             "route_efficiency"])) /\
  (forall e1, run F ops (fresh d) = (Ok tt, e1) ->
              e1 = e' /\ log = map (fun o => (o, Returned)) ops).
Proof.
  intros Hs Hrep.
  pose proof (session_calls F ops (fresh d)) as [Hcalls _].
  pose proof (session_slots F ops (fresh d)) as Hslots.
  pose proof (session_returned F ops (fresh d)) as Hret.
  cbv zeta in Hslots, Hret. rewrite Hs in Hcalls, Hslots, Hret. simpl in *.
  destruct Hslots as (Sp & Ss & Sl). destruct Hret as (Rp & Rs & Rl).
  destruct (generate_summary_report_slots _ _ _ _ Hrep) as (-> & -> & ->).
  rewrite Sp, Ss, Sl.
  split; [assumption |].
  split; [| split; [| split]].
  - destruct (slot_report AnalyzeProductPerformance log (product_tables F d)
                _ (product_tables_names F d)) as [A B];
      [discriminate | tauto |]. tauto.
  - destruct (slot_report AnalyzeSupplierPerformance log (supplier_tables F d)
                _ (supplier_tables_names F d)) as [A B];
      [discriminate | tauto |]. tauto.
  - destruct (slot_report AnalyzeLogistics log (logistics_tables F d)
                _ (logistics_tables_names F d)) as [A B];
      [discriminate | tauto |]. tauto.
  - intros e1 Hrun. apply run_session in Hrun. rewrite Hs in Hrun.
    injection Hrun as -> ->. now split.
Qed.

(** ** Loading *)

Lemma assoc_map_snd {A B} (g : A -> B) (name : string) (l : list (string * A)) :
  assoc name (map (fun nc => (fst nc, g (snd nc))) l) = option_map g (assoc name l).
Proof.
  induction l as [| [n a] l IH]; simpl; [reflexivity |].
  now destruct (String.eqb n name).
Qed.



Lemma all_numbers_length (fs : list field) (xs : list (option Q)) :
  all_numbers fs = Some xs -> length xs = length fs.
Proof.
  revert xs; induction fs as [| f fs IH]; simpl; intros xs E.
  - now injection E as <-.
  - destruct (field_number f); [| discriminate].
    destruct (all_numbers fs) as [xs' |]; [| discriminate].
    injection E as <-. simpl. now rewrite (IH _ eq_refl).
Qed.

Lemma infer_column_length (fs : list field) : col_length (infer_column fs) = length fs.
Proof.
  unfold infer_column. destruct fs as [| f fs]; [reflexivity |].
  destruct (all_numbers (f :: fs)) as [xs |] eqn:E; simpl col_length.
  - exact (all_numbers_length _ _ E).
  - exact (length_map text_cell (f :: fs)).
Qed.

Lemma row_count_ge (table : list (string * list field)) (nf : string * list field) :
  In nf table -> length (snd nf) <= row_count table.
Proof.
  induction table as [| a table IH]; simpl; [easy |].
  intros [-> | H]; [lia |]. specialize (IH H). lia.
Qed.

Lemma pad_length (n : nat) (fs : list field) : length fs <= n -> length (pad n fs) = n.
Proof. intros H. unfold pad. rewrite length_app, repeat_length. lia. Qed.

(** Every loaded table is rectangular: each column has one cell per row. *)
Lemma parse_table_wf (table : list (string * list field)) : wf_frame (parse_table table).
Proof.
  unfold wf_frame, parse_table; simpl. rewrite Forall_forall.
  intros nc Hin. apply in_map_iff in Hin as (nf & <- & Hin); simpl.
  rewrite infer_column_length, length_seq. apply pad_length. now apply row_count_ge.
Qed.

Lemma init_wf (fs : filesystem) (path : string) (e : SupplyChainAnalyzer) :
  init fs path = Ok e -> wf_frame (data e).
Proof.
  unfold init, read_csv. destruct (fs path) as [| | why | [| nf table]]; try discriminate.
  intros [= <-]. apply parse_table_wf.
Qed.




Lemma existsb_app_l {A} (p : A -> bool) (l l' : list A) :
  existsb p l = true -> existsb p (l ++ l') = true.
Proof. intros H. rewrite existsb_app, H. reflexivity. Qed.









(** ** Sorted distinct keys *)

Section SortUniqFacts.
Context {A : Type} (cmp : A -> A -> comparison).
Hypothesis ord : Ordering cmp.

Lemma cmp_gt_lt (x y : A) : cmp x y = Gt -> cmp y x = Lt.
Proof. intros H. now rewrite (cmp_opp cmp ord x y), H. Qed.

Lemma insert_uniq_In (x k : A) (l : list A) :
  In k (insert_uniq cmp x l) -> k = x \/ In k l.
Proof.
  induction l as [| y l IH]; simpl.
  - intros [<- | []]; now left.
  - destruct (cmp x y); simpl.
    + intros H; now right.
    + intros [<- | H]; [now left | now right].
    + intros [<- | H]; [right; now left |].
      destruct (IH H) as [-> | H']; [now left | right; now right].
Qed.

Lemma insert_uniq_keeps (x k : A) (l : list A) :
  In k l -> In k (insert_uniq cmp x l).
Proof.
  induction l as [| y l IH]; simpl; [intros [] |].
  destruct (cmp x y); simpl; intuition.
Qed.

Lemma insert_uniq_covers (x : A) (l : list A) :
  exists k, In k (insert_uniq cmp x l) /\ cmp x k = Eq.
Proof.
  induction l as [| y l (k & Hin & Hk)]; simpl.
  - exists x; split; [now left | apply (cmp_refl cmp ord)].
  - destruct (cmp x y) eqn:E.
    + exists y; split; [now left | assumption].
    + exists x; split; [now left | apply (cmp_refl cmp ord)].
    + exists k; split; [now right | assumption].
Qed.

Lemma sort_uniq_In (k : A) (l : list A) : In k (sort_uniq cmp l) -> In k l.
Proof.
  induction l as [| x l IH]; simpl; [intros [] |].
  intros H. destruct (insert_uniq_In _ _ _ H) as [-> | H']; [now left | right; auto].
Qed.

Lemma sort_uniq_covers (x : A) (l : list A) :
  In x l -> exists k, In k (sort_uniq cmp l) /\ cmp x k = Eq.
Proof.
  induction l as [| y l IH]; simpl; [intros [] |].
  intros [-> | H].
  - apply insert_uniq_covers.
  - destruct (IH H) as (k & Hin & Hk). exists k; split; [| assumption].
    now apply insert_uniq_keeps.
Qed.

Lemma insert_uniq_ascending (x : A) (l : list A) :
  ascending cmp l -> ascending cmp (insert_uniq cmp x l).
Proof.
  unfold ascending. induction 1 as [| y l Hs IH Hy]; simpl.
  - repeat constructor.
  - destruct (cmp x y) eqn:E.
    + now constructor.
    + constructor; [now constructor |].
      constructor; [assumption |].
      rewrite Forall_forall in Hy |- *. intros z Hz.
      eapply (cmp_lt_trans cmp ord); eauto.
    + constructor; [assumption |].
      rewrite Forall_forall in Hy |- *. intros z Hz.
      destruct (insert_uniq_In _ _ _ Hz) as [-> | Hz']; [now apply cmp_gt_lt | auto].
Qed.

Lemma sort_uniq_ascending (l : list A) : ascending cmp (sort_uniq cmp l).
Proof.
  induction l as [| x l IH]; simpl; [constructor | now apply insert_uniq_ascending].
Qed.

Lemma ascending_NoDup (l : list A) : ascending cmp l -> NoDup l.
Proof.
  unfold ascending. induction 1 as [| y l Hs IH Hy]; constructor; [| assumption].
  intros Hin. rewrite Forall_forall in Hy. specialize (Hy _ Hin).
  now rewrite (cmp_refl cmp ord) in Hy.
Qed.
End SortUniqFacts.

Lemma string_ordering : Ordering String.compare.
Proof.
  constructor.
  - intros x. exact (proj2 (String_as_OT.cmp_eq x x) eq_refl).
  - intros x y. apply String.compare_antisym.
  - intros x y z H1 H2.
    apply String_as_OT.cmp_lt in H1, H2. apply String_as_OT.cmp_lt.
    eapply String_as_OT.lt_trans; eassumption.
  - intros x y z H. apply String.compare_eq_iff in H. now subst.
Qed.

Lemma Q_ordering : Ordering Qcompare.
Proof.
  constructor.
  - intros x. apply Qeq_alt. reflexivity.
  - intros x y. symmetry. apply Qcompare_antisym.
  - intros x y z H1 H2. apply Qlt_alt in H1, H2. apply Qlt_alt.
    eapply Qlt_trans; eassumption.
  - intros x y z H. apply Qeq_alt in H. now rewrite H.
Qed.

Lemma scalar_ordering : Ordering scalar_compare.
Proof.
  constructor.
  - intros [q | s |]; simpl;
      [apply (cmp_refl _ Q_ordering) | apply (cmp_refl _ string_ordering) | reflexivity].
  - intros [q | s |] [q' | s' |]; simpl; try reflexivity;
      [apply (cmp_opp _ Q_ordering) | apply (cmp_opp _ string_ordering)].
  - intros [q | s |] [q' | s' |] [q'' | s'' |]; simpl; try congruence;
      [apply (cmp_lt_trans _ Q_ordering) | apply (cmp_lt_trans _ string_ordering)].
  - intros [q | s |] [q' | s' |] [q'' | s'' |]; simpl; try congruence;
      [apply (cmp_eq_l _ Q_ordering) | apply (cmp_eq_l _ string_ordering)].
Qed.

Lemma key_ordering : Ordering key_compare.
Proof.
  pose proof scalar_ordering as S.
  constructor.
  - induction x as [| a x IH]; simpl; [reflexivity |].
    now rewrite (cmp_refl _ S).
  - induction x as [| a x IH]; intros [| b y]; simpl; try reflexivity.
    rewrite (cmp_opp _ S a b). destruct (scalar_compare a b); simpl; auto.
  - induction x as [| a x IH]; intros [| b y] [| c z]; simpl; try congruence.
    destruct (scalar_compare a b) eqn:E1; try discriminate.
    + rewrite (cmp_eq_l _ S _ _ c E1).
      destruct (scalar_compare b c); try discriminate; [apply IH | reflexivity].
    + intros _. destruct (scalar_compare b c) eqn:E2; try discriminate.
      * intros _. assert (E : scalar_compare c b = Eq)
          by (now rewrite (cmp_opp _ S b c), E2).
        pose proof (cmp_eq_l _ S _ _ a E) as E3.
        rewrite (cmp_opp _ S a c), (cmp_opp _ S a b), E1 in E3.
        now destruct (scalar_compare a c).
      * intros _. now rewrite (cmp_lt_trans _ S _ _ _ E1 E2).
  - induction x as [| a x IH]; intros [| b y] [| c z]; simpl; try congruence.
    destruct (scalar_compare a b) eqn:E1; try discriminate.
    intros H. rewrite (cmp_eq_l _ S _ _ c E1).
    destruct (scalar_compare b c); [now apply IH | reflexivity | reflexivity].
Qed.

Lemma key_compare_eq_text (a b : list scalar) :
  Forall is_text a -> key_compare a b = Eq -> a = b.
Proof.
  intros H; revert b; induction H as [| x a Hx _ IH]; intros [| y b]; simpl;
    try discriminate; [reflexivity |].
  destruct x as [q | s |]; simpl in Hx; try contradiction.
  destruct y as [q' | s' |]; simpl; try discriminate.
  destruct (String.compare s s') eqn:E; try discriminate.
  apply String.compare_eq_iff in E. subst s'. intros H. f_equal. now apply IH.
Qed.

(** ** The keys of the grouped tables *)

Lemma map_nth_seq {A} (d : A) (l : list A) :
  map (fun i => nth i l d) (seq 0 (length l)) = l.
Proof.
  induction l as [| x l IH]; simpl; [reflexivity |].
  rewrite <- seq_shift, map_map. simpl. now rewrite IH.
Qed.

(** The key of a row, or [None] when a cell of it is missing. *)
Lemma key_rows_single (cs : list scalar) :
  key_rows (length cs) [cs] =
  map (fun r => if existsb is_nan r then None else Some r) (map (fun v => [v]) cs).
Proof.
  unfold key_rows. rewrite map_map.
  transitivity (map (fun v => if existsb is_nan [v] then None else Some [v])
                    (map (fun i => nth i cs NaN) (seq 0 (length cs)))).
  - now rewrite map_map.
  - now rewrite map_nth_seq.
Qed.

Lemma zip_with_map_r {A B C D} (f : A -> B -> C) (g : C -> D) (xs : list A) (ys : list B) :
  map g (zip_with f xs ys) = zip_with (fun a b => g (f a b)) xs ys.
Proof.
  revert ys; induction xs as [| x xs IH]; intros [| y ys]; simpl; try reflexivity.
  now rewrite IH.
Qed.

Lemma key_rows_paired (n : nat) (cs1 cs2 : list scalar) :
  length cs1 = n -> length cs2 = n ->
  key_rows n [cs1; cs2] =
  map (fun r => if existsb is_nan r then None else Some r)
      (zip_with (fun v1 v2 => [v1; v2]) cs1 cs2).
Proof.
  intros H1 H2. unfold key_rows. rewrite zip_with_map_r.
  transitivity (zip_with (fun v1 v2 => if existsb is_nan [v1; v2] then None
                                       else Some [v1; v2])
                  (map (fun i => nth i cs1 NaN) (seq 0 n))
                  (map (fun i => nth i cs2 NaN) (seq 0 n))).
  - now rewrite zip_with_map.
  - rewrite <- H1 at 1. rewrite <- H2. now rewrite !map_nth_seq.
Qed.

Lemma forallb_not_nan (r : list scalar) :
  forallb (fun s => negb (is_nan s)) r = negb (existsb is_nan r).
Proof.
  induction r as [| s r IH]; simpl; [reflexivity |].
  rewrite IH. now destruct (is_nan s).
Qed.

(** The keys that [groupby] keeps are those of the complete rows. *)
Lemma dropna_complete (rows : list (list scalar)) :
  dropna (map (fun r => if existsb is_nan r then None else Some r) rows) = complete rows.
Proof.
  unfold complete. induction rows as [| r rows IH]; simpl; [reflexivity |].
  rewrite forallb_not_nan. destruct (existsb is_nan r); simpl; now rewrite IH.
Qed.

Lemma complete_no_nan (rows : list (list scalar)) (k : list scalar) :
  In k (complete rows) -> ~ In NaN k.
Proof.
  unfold complete. rewrite filter_In, forallb_forall. intros [_ H] Hin.
  now specialize (H _ Hin).
Qed.

Lemma sort_uniq_distinct_sorted (rows : list (list scalar)) :
  distinct_sorted rows (sort_uniq key_compare rows).
Proof.
  pose proof key_ordering as K.
  split; [intros k; apply sort_uniq_In |].
  split; [intros r; now apply sort_uniq_covers |].
  split.
  - intros r Hin Ht. destruct (sort_uniq_covers _ K r rows Hin) as (k & Hk & E).
    now rewrite (key_compare_eq_text r k Ht E).
  - split; [now apply sort_uniq_ascending |].
    eapply ascending_NoDup; [exact K | now apply sort_uniq_ascending].
Qed.

Lemma sort_uniq_keys_of_groups (rows : list (list scalar)) :
  keys_of_groups rows (sort_uniq key_compare (complete rows)).
Proof.
  split; [apply sort_uniq_distinct_sorted |].
  intros k Hk. apply sort_uniq_In in Hk. now apply complete_no_nan in Hk.
Qed.

Lemma getitem_cells_length (d : DataFrame) (name : string) (c : column) :
  wf_frame d -> getitem d name = Ok c -> length (cells c) = df_len d.
Proof.
  intros Hwf H. rewrite cells_length. now apply (wf_frame_length d name).
Qed.

Lemma groups_of_single_eq (name : string) (d : DataFrame) (c : column) :
  wf_frame d -> getitem d name = Ok c ->
  let rows := map (fun r => if existsb is_nan r then None else Some r) (single c) in
  groups_of [name] d =
    Ok (sort_uniq key_compare (complete (single c)),
        map (group_positions rows) (sort_uniq key_compare (complete (single c)))).
Proof.
  intros Hwf E. cbv zeta. unfold groups_of; cbn [rmap]. rewrite E. cbn [map].
  rewrite <- (getitem_cells_length _ _ _ Hwf E), key_rows_single.
  fold (single c). now rewrite dropna_complete.
Qed.

Lemma groups_of_paired_eq (n1 n2 : string) (d : DataFrame) (c1 c2 : column) :
  wf_frame d -> getitem d n1 = Ok c1 -> getitem d n2 = Ok c2 ->
  let rows := map (fun r => if existsb is_nan r then None else Some r) (paired c1 c2) in
  groups_of [n1; n2] d =
    Ok (sort_uniq key_compare (complete (paired c1 c2)),
        map (group_positions rows) (sort_uniq key_compare (complete (paired c1 c2)))).
Proof.
  intros Hwf E1 E2. cbv zeta. unfold groups_of; cbn [rmap]. rewrite E1, E2.
  cbn [map].
  rewrite (key_rows_paired _ _ _ (getitem_cells_length _ _ _ Hwf E1)
             (getitem_cells_length _ _ _ Hwf E2)).
  fold (paired c1 c2). now rewrite dropna_complete.
Qed.

Lemma groups_of_single (name : string) (d : DataFrame) keys groups :
  wf_frame d -> groups_of [name] d = Ok (keys, groups) ->
  exists c, getitem d name = Ok c /\ keys_of_groups (single c) keys.
Proof.
  intros Hwf H.
  destruct (getitem d name) as [c |] eqn:E;
    [| unfold groups_of in H; simpl in H; rewrite E in H; discriminate].
  rewrite (groups_of_single_eq _ _ _ Hwf E) in H. injection H as <- _.
  exists c; split; [reflexivity | apply sort_uniq_keys_of_groups].
Qed.

Lemma groups_of_paired (n1 n2 : string) (d : DataFrame) keys groups :
  wf_frame d -> groups_of [n1; n2] d = Ok (keys, groups) ->
  exists c1 c2, getitem d n1 = Ok c1 /\ getitem d n2 = Ok c2 /\
                keys_of_groups (paired c1 c2) keys.
Proof.
  intros Hwf H.
  destruct (getitem d n1) as [c1 |] eqn:E1;
    [| unfold groups_of in H; simpl in H; rewrite E1 in H; discriminate].
  destruct (getitem d n2) as [c2 |] eqn:E2;
    [| unfold groups_of in H; simpl in H; rewrite E1, E2 in H; discriminate].
  rewrite (groups_of_paired_eq _ _ _ _ _ Hwf E1 E2) in H. injection H as <- _.
  exists c1, c2; split; [reflexivity | split; [reflexivity |]].
  apply sort_uniq_keys_of_groups.
Qed.

Lemma groupby_agg_keys (F : Library) (by_ : list string) spec (d : DataFrame)
      (g : GroupTable) :
  groupby_agg F by_ spec d = Ok g ->
  exists groups, groups_of by_ d = Ok (group_keys g, groups).
Proof.
  unfold groupby_agg. destruct (groups_of by_ d) as [[keys groups] |]; [| discriminate].
  destruct (rmap _ spec); [| discriminate].
  destruct (rmap _ (combine spec _)); [| discriminate].
  intros [= <-]. simpl. eauto.
Qed.

Lemma groupby_size_keys (by_ : list string) (name : string) (d : DataFrame) (s : SizeTable) :
  groupby_size by_ name d = Ok s ->
  exists groups, groups_of by_ d = Ok (size_keys s, groups).
Proof.
  unfold groupby_size. destruct (groups_of by_ d) as [[keys groups] |]; [| discriminate].
  intros [= <-]. simpl. eauto.
Qed.

Ltac stage H g E :=
  match type of H with
  | match ?r with Ok _ => _ | Raise _ => _ end = Ok _ =>
      destruct r as [g |] eqn:E; [| discriminate]
  end.

(** C5, as stated, fails: the keys come sorted, not in order of first
    appearance.  In the sample the product types appear as skincare, haircare
    and the category table lists haircare, skincare. *)
Lemma category_keys_not_in_first_appearance_order :
  ~ (forall F d m g c,
        wf_frame d -> product_tables F d = Ok m ->
        group_table "category_performance" m = Some g ->
        getitem d "Product type" = Ok c ->
        group_keys g = first_appearance key_compare (single c)).
Proof.
  intros H.
  assert (Hwf : wf_frame sample) by apply parse_table_wf.
  destruct (product_tables sample_library sample) as [m |] eqn:Em;
    [| vm_compute in Em; discriminate].
  destruct (group_table "category_performance" m) as [g |] eqn:Eg;
    [| vm_compute in Em; injection Em as <-; discriminate].
  specialize (H sample_library sample m g
                (StrCol [Some "skincare"; Some "haircare"; Some "skincare"]) Hwf Em Eg eq_refl).
  vm_compute in Em. injection Em as <-. vm_compute in Eg. injection Eg as <-.
  vm_compute in H. discriminate.
Qed.

(** C5, amended.  In every grouped table the keys are exactly the distinct
    values that are present in the group-by column (the distinct pairs, for
    the table grouped by transport mode and route) and they come in
    ascending order of the key, which is the order [groupby] sorts them in.
    A missing value is no key: a row whose key cell is missing, or one of
    whose two key cells is, belongs to no group. *)
Theorem group_keys_distinct_sorted (F : Library) (d : DataFrame) :
  wf_frame d ->
  (forall m, product_tables F d = Ok m ->
     exists g c,
       group_table "category_performance" m = Some g /\
       getitem d "Product type" = Ok c /\
       keys_of_groups (single c) (group_keys g)) /\
  (forall m, supplier_tables F d = Ok m ->
     exists g c,
       group_table "supplier_performance" m = Some g /\
       getitem d "Supplier name" = Ok c /\
       keys_of_groups (single c) (group_keys g)) /\
  (forall m, logistics_tables F d = Ok m ->
     exists g1 g2 g3 carriers modes routes,
       group_table "carrier_performance" m = Some g1 /\
       group_table "transport_cost_analysis" m = Some g2 /\
       group_table "route_efficiency" m = Some g3 /\
       getitem d "Shipping carriers" = Ok carriers /\
       getitem d "Transportation modes" = Ok modes /\
       getitem d "Routes" = Ok routes /\
       keys_of_groups (single carriers) (group_keys g1) /\
       keys_of_groups (paired modes routes) (group_keys g2) /\
       keys_of_groups (single routes) (group_keys g3)).
Proof.
  intros Hwf. split; [| split].
  - intros m. unfold product_tables, rbind. intros H.
    stage H g Eg. stage H top Et. stage H alerts Ea. injection H as <-.
    destruct (groupby_agg_keys _ _ _ _ _ Eg) as [groups Hk].
    destruct (groups_of_single _ _ _ _ Hwf Hk) as (c & Hc & Hd).
    exists g, c. repeat split; assumption || apply Hd.
  - intros m. unfold supplier_tables, rbind. intros H.
    stage H g Eg. stage H locs El. stage H issues Ei. injection H as <-.
    destruct (groupby_agg_keys _ _ _ _ _ Eg) as [groups Hk].
    destruct (groups_of_single _ _ _ _ Hwf Hk) as (c & Hc & Hd).
    exists g, c. repeat split; assumption || apply Hd.
  - intros m. unfold logistics_tables, rbind. intros H.
    stage H g1 E1. stage H g2 E2. stage H g3 E3. injection H as <-.
    destruct (groupby_agg_keys _ _ _ _ _ E1) as [groups1 Hk1].
    destruct (groupby_agg_keys _ _ _ _ _ E2) as [groups2 Hk2].
    destruct (groupby_agg_keys _ _ _ _ _ E3) as [groups3 Hk3].
    destruct (groups_of_single _ _ _ _ Hwf Hk1) as (c1 & Hc1 & Hd1).
    destruct (groups_of_paired _ _ _ _ _ Hwf Hk2) as (c2 & c2' & Hc2 & Hc2' & Hd2).
    destruct (groups_of_single _ _ _ _ Hwf Hk3) as (c3 & Hc3 & Hd3).
    assert (c2' = c3) by congruence. subst c2'.
    exists g1, g2, g3, c1, c2, c3.
    repeat split; assumption || apply Hd1 || apply Hd2 || apply Hd3.
Qed.

(** ** [nlargest] *)

Lemma insert_desc_perm (x : nat * Q) (l : list (nat * Q)) :
  Permutation (insert_desc x l) (x :: l).
Proof.
  induction l as [| y l IH]; simpl; [reflexivity |].
  destruct (Qltb (snd x) (snd y)); [| reflexivity].
  rewrite IH. apply perm_swap.
Qed.

Lemma sort_desc_perm (l : list (nat * Q)) : Permutation (sort_desc l) l.
Proof.
  induction l as [| x l IH]; simpl; [reflexivity |].
  rewrite insert_desc_perm. now constructor.
Qed.

Lemma insert_desc_sorted (x : nat * Q) (l : list (nat * Q)) :
  Forall (fun y => fst x < fst y) l ->
  StronglySorted before_pair l -> StronglySorted before_pair (insert_desc x l).
Proof.
  intros Hlt Hs; induction Hs as [| y l Hs IH Hy]; simpl.
  - repeat constructor.
  - inversion Hlt as [| y' l' Hxy Hlt']; subst.
    destruct (Qltb (snd x) (snd y)) eqn:E.
    + apply Qltb_lt in E. constructor; [now apply IH |].
      rewrite Forall_forall in Hy |- *. intros z Hz.
      apply (Permutation_in _ (insert_desc_perm x l)) in Hz.
      destruct Hz as [<- | Hz]; [now left | auto].
    + assert (Hle : (snd y <= snd x)%Q).
      { apply Qnot_lt_le. intros H. apply Qltb_lt in H. congruence. }
      assert (Hxy' : before_pair x y).
      { destruct (Qle_lt_or_eq _ _ Hle) as [H | H]; [now left | right].
        split; [now symmetry | assumption]. }
      constructor; [now constructor |].
      constructor; [assumption |].
      rewrite Forall_forall in Hy, Hlt' |- *. intros z Hz.
      specialize (Hy z Hz). specialize (Hlt' z Hz).
      destruct Hy as [H | [H _]].
      * left. eapply Qlt_le_trans; eassumption.
      * destruct (Qle_lt_or_eq _ _ Hle) as [H' | H'].
        -- left. now rewrite <- H.
        -- right. split; [| assumption]. now rewrite <- H', H.
Qed.

(** A stable sort: pairs that come in the order of their positions leave
    in the order of [before_pair]. *)
Lemma sort_desc_sorted (l : list (nat * Q)) :
  StronglySorted (fun a b => fst a < fst b) l ->
  StronglySorted before_pair (sort_desc l).
Proof.
  induction 1 as [| x l Hs IH Hx]; simpl; [constructor |].
  apply insert_desc_sorted; [| exact IH].
  rewrite Forall_forall in Hx |- *. intros y Hy.
  apply Hx. exact (Permutation_in _ (sort_desc_perm l) Hy).
Qed.

Lemma StronglySorted_map {A B} (R : A -> A -> Prop) (R' : B -> B -> Prop)
      (f : A -> B) (l : list A) :
  (forall a b, In a l -> In b l -> R a b -> R' (f a) (f b)) ->
  StronglySorted R l -> StronglySorted R' (map f l).
Proof.
  intros H Hs; induction Hs as [| a l Hs IH Ha]; simpl; constructor.
  - apply IH. intros; apply H; simpl; auto.
  - rewrite Forall_forall in Ha |- *. intros b' Hb'.
    apply in_map_iff in Hb' as (b & <- & Hb).
    apply H; simpl; auto.
Qed.

Lemma StronglySorted_firstn {A} (R : A -> A -> Prop) (n : nat) (l : list A) :
  StronglySorted R l -> StronglySorted R (firstn n l).
Proof.
  intros Hs; revert n; induction Hs as [| a l Hs IH Ha]; intros [| n]; simpl;
    try constructor; [apply IH |].
  rewrite Forall_forall in Ha |- *. intros b Hb. apply Ha.
  rewrite <- (firstn_skipn n l). apply in_or_app. now left.
Qed.

Lemma StronglySorted_app {A} (R : A -> A -> Prop) (l1 l2 : list A) :
  StronglySorted R l1 -> StronglySorted R l2 ->
  (forall a b, In a l1 -> In b l2 -> R a b) ->
  StronglySorted R (l1 ++ l2).
Proof.
  intros H1 H2 H. induction H1 as [| a l1 Hs IH Ha]; simpl; [assumption |].
  constructor.
  - apply IH. intros; apply H; simpl; auto.
  - rewrite Forall_forall in Ha |- *. intros b Hb.
    apply in_app_or in Hb as [Hb | Hb]; [now apply Ha | apply H; simpl; auto].
Qed.


(** The enumerated cells, split into those with a value and those
    without. *)
Lemma enumerated_from (start : nat) (xs : list (option Q)) (i : nat) (x : option Q) :
  In (i, x) (combine (seq start (length xs)) xs) ->
  start <= i /\ nth (i - start) xs None = x /\ i < start + length xs.
Proof.
  revert start; induction xs as [| y xs IH]; intros start; simpl; [intros [] |].
  intros [[= <- <-] | H].
  - rewrite Nat.sub_diag. repeat split; lia.
  - destruct (IH _ H) as (Hle & Hn & Hlt).
    replace (i - start) with (S (i - S start)) by lia. repeat split; try lia.
    exact Hn.
Qed.

Lemma valued_In (l : list (nat * option Q)) (i : nat) (q : Q) :
  In (i, q) (valued l) <-> In (i, Some q) l.
Proof.
  induction l as [| [j [v |]] l IH]; simpl; [tauto | |].
  - rewrite IH. split; (intros [[= <- <-] | H]; [now left | now right]).
  - rewrite IH. split; [now right | intros [H | H]; [discriminate | assumption]].
Qed.

Lemma unvalued_In (l : list (nat * option Q)) (i : nat) :
  In i (unvalued l) <-> In (i, None) l.
Proof.
  induction l as [| [j [v |]] l IH]; simpl; [tauto | |].
  - rewrite IH. split; [now right | intros [H | H]; [discriminate | assumption]].
  - rewrite IH. split; (intros [H | H]; [left; congruence | now right]).
Qed.

Lemma valued_unvalued_perm (l : list (nat * option Q)) :
  Permutation (map fst (valued l) ++ unvalued l) (map fst l).
Proof.
  induction l as [| [j [v |]] l IH]; simpl; [reflexivity | |].
  - now constructor.
  - rewrite <- Permutation_middle. now constructor.
Qed.

Lemma valued_increasing (start : nat) (xs : list (option Q)) :
  StronglySorted (fun a b : nat * Q => fst a < fst b)
                 (valued (combine (seq start (length xs)) xs)).
Proof.
  revert start; induction xs as [| [q |] xs IH]; intros start; simpl;
    [constructor | | apply IH].
  constructor; [apply IH |].
  rewrite Forall_forall. intros [i v] Hin. apply valued_In, enumerated_from in Hin.
  simpl. lia.
Qed.

Lemma unvalued_increasing (start : nat) (xs : list (option Q)) :
  StronglySorted lt (unvalued (combine (seq start (length xs)) xs)).
Proof.
  revert start; induction xs as [| [q |] xs IH]; intros start; simpl;
    [constructor | apply IH |].
  constructor; [apply IH |].
  rewrite Forall_forall. intros i Hin. apply unvalued_In, enumerated_from in Hin. lia.
Qed.

Lemma enumerate_nth (xs : list (option Q)) (i : nat) (x : option Q) :
  In (i, x) (enumerate xs) -> nth i xs None = x /\ i < length xs.
Proof.
  intros H. destruct (enumerated_from 0 xs i x H) as (_ & Hn & Hlt).
  rewrite Nat.sub_0_r in Hn. now split.
Qed.

(** The order in which [nlargest] takes the rows: every position once, a
    larger value before a smaller one, equal values in row order, and the
    rows without a value last. *)
Lemma sorted_positions (xs : list (option Q)) :
  Permutation (nlargest_order xs) (seq 0 (length xs)) /\
  StronglySorted (before xs) (nlargest_order xs).
Proof.
  unfold nlargest_order. split.
  - rewrite (Permutation_map fst (sort_desc_perm (valued (enumerate xs)))).
    rewrite valued_unvalued_perm. unfold enumerate.
    destruct (combine_fst_snd (seq 0 (length xs)) xs) as [-> _];
      [apply length_seq | reflexivity].
  - apply StronglySorted_app.
    + apply (StronglySorted_map before_pair);
        [| apply sort_desc_sorted, (valued_increasing 0)].
      intros [i v] [j w] Hi Hj.
      apply (Permutation_in _ (sort_desc_perm _)), valued_In, enumerate_nth in Hi, Hj.
      destruct Hi as [Hi _], Hj as [Hj _]. unfold before_pair, before; simpl.
      rewrite Hi, Hj. tauto.
    + rewrite <- (map_id (unvalued (enumerate xs))).
      apply (StronglySorted_map lt (before xs) (fun i => i));
        [| apply (unvalued_increasing 0)].
      intros i j Hi Hj Hlt.
      apply unvalued_In, enumerate_nth in Hi, Hj.
      destruct Hi as [Hi _], Hj as [Hj _]. unfold before. now rewrite Hi, Hj.
    + intros i j Hi Hj.
      apply in_map_iff in Hi as ([i' v] & <- & Hi).
      apply (Permutation_in _ (sort_desc_perm _)), valued_In, enumerate_nth in Hi.
      apply unvalued_In, enumerate_nth in Hj.
      destruct Hi as [Hi _], Hj as [Hj _]. unfold before; simpl. now rewrite Hi, Hj.
Qed.

Lemma project_columns (names : list string) (df f : DataFrame) :
  project names df = Ok f ->
  index f = index df /\
  map fst (columns f) = names /\
  (forall name c, In (name, c) (columns f) -> getitem df name = Ok c) /\
  (forall name c, assoc name (columns f) = Some c -> getitem df name = Ok c).
Proof.
  unfold project.
  destruct (rmap _ names) as [cs |] eqn:E; [| discriminate].
  intros [= <-]; simpl. split; [reflexivity |].
  revert cs E; induction names as [| n names IH]; simpl; intros cs E.
  - injection E as <-. repeat split; try easy.
  - destruct (getitem df n) as [c0 |] eqn:E0; [| discriminate].
    destruct (rmap _ names) as [cs' |]; [| discriminate].
    injection E as <-. destruct (IH _ eq_refl) as (I1 & I2 & I3). simpl.
    split; [now rewrite I1 |]. split.
    + intros name c [[= <- <-] | H]; [assumption | now apply I2].
    + intros name c.
      destruct (String.eqb_spec n name) as [<- | _]; [now intros [= <-] | now apply I3].
Qed.

Lemma getitem_take (pos : list nat) (d : DataFrame) (name : string) (c : column) :
  getitem (take pos d) name = Ok c ->
  exists c0, getitem d name = Ok c0 /\ c = take_col pos c0.
Proof.
  unfold getitem, take; simpl. rewrite assoc_map_snd.
  destruct (assoc name (columns d)) as [c0 |]; simpl; [| discriminate].
  intros [= <-]. eauto.
Qed.

(** The cells of a column taken at positions are the cells at these
    positions. *)
Lemma cells_take_col (pos : list nat) (c : column) :
  cells (take_col pos c) = map (fun p => nth p (cells c) NaN) pos.
Proof.
  destruct c as [xs | xs]; simpl; unfold take_list; rewrite map_map;
    apply map_ext; intros p.
  - exact (eq_sym (map_nth (opt_scalar Num) xs None p)).
  - exact (eq_sym (map_nth (opt_scalar Str) xs None p)).
Qed.

Lemma take_rows_at (pos : list nat) (names : list string) (d view : DataFrame) :
  project names (take pos d) = Ok view -> rows_at pos names d view.
Proof.
  intros H. destruct (project_columns _ _ _ H) as (Hidx & Hnames & Hcols & _).
  split; [exact Hidx |]. split; [exact Hnames |].
  intros name c Hin. apply Hcols, getitem_take in Hin as (c0 & E & ->).
  exists c0. split; [assumption | apply cells_take_col].
Qed.

Lemma before_descending (xs : list (option Q)) (pos : list nat) :
  StronglySorted (before xs) pos -> descending (map (fun p => nth p xs None) pos).
Proof.
  apply StronglySorted_map. intros p q _ _. unfold before.
  destruct (nth p xs None) as [a |], (nth q xs None) as [b |]; try tauto.
  intros [H | [H _]].
  - now apply Qlt_le_weak.
  - rewrite H. apply Qle_refl.
Qed.

(** C6.  The table of top revenue products is made of rows of the input:
    the rows at the first ten positions of an ordering of all positions in
    which a larger revenue comes first and, for equal revenues, the earlier
    row comes first (rows without a revenue come last).  So it has at most
    ten rows, no row twice, every cell of its four columns and every label
    is that of the input row, its revenue column is in descending order, and
    ties keep the original row order. *)
Theorem top_revenue_products_rows (F : Library) (d : DataFrame) (m : metrics) :
  product_tables F d = Ok m ->
  exists top revs order,
    frame_table "top_revenue_products" m = Some top /\
    getitem d "Revenue generated" = Ok (NumCol revs) /\
    Permutation order (seq 0 (length revs)) /\
    StronglySorted (before revs) order /\
    let pos := firstn 10 order in
    length (index top) <= 10 /\
    NoDup pos /\
    Forall (fun p => p < length revs) pos /\
    rows_at pos ["SKU"; "Product type"; "Revenue generated"; "Number of products sold"]
            d top /\
    column_is top "Revenue generated" (map (fun p => num_cell (nth p revs None)) pos) /\
    descending (map (fun p => nth p revs None) pos) /\
    StronglySorted (before revs) pos.
Proof.
  unfold product_tables, rbind. intros H.
  stage H g Eg. stage H top Et. stage H alerts Ea. injection H as <-.
  unfold nlargest in Et.
  destruct (getitem d "Revenue generated") as [[revs | ?] |] eqn:Er; try discriminate.
  destruct (sorted_positions revs) as [Hperm Hsorted].
  exists top, revs, (nlargest_order revs).
  unfold nlargest_positions in Et.
  set (order := nlargest_order revs) in *.
  split; [reflexivity |]. split; [reflexivity |].
  split; [assumption |]. split; [assumption |].
  cbv zeta. set (pos := firstn 10 order) in *.
  pose proof (take_rows_at _ _ _ _ Et) as Hrows.
  destruct (project_columns _ _ _ Et) as (Hidx & Hnames & _ & Hcols).
  assert (Hsub : forall p, In p pos -> In p order).
  { intros p Hp. unfold pos in Hp. rewrite <- (firstn_skipn 10 order).
    apply in_or_app. now left. }
  assert (Hpos : StronglySorted (before revs) pos)
    by now apply StronglySorted_firstn.
  split.
  { rewrite Hidx.
    change (index (take pos d)) with (map (fun i => nth i (index d) 0) pos).
    rewrite length_map. apply firstn_le_length. }
  split.
  { assert (Hnd : NoDup order).
    { apply (Permutation_NoDup (Permutation_sym Hperm)), seq_NoDup. }
    rewrite <- (firstn_skipn 10 order) in Hnd. now apply NoDup_app_remove_r in Hnd. }
  split.
  { rewrite Forall_forall. intros p Hp.
    apply Hsub, (Permutation_in _ Hperm), in_seq in Hp. lia. }
  split; [exact Hrows |].
  split.
  { unfold project in Et; simpl in Et.
    repeat match type of Et with
           | context [match getitem ?f ?n with Ok _ => _ | Raise _ => _ end] =>
               let E := fresh "E" in
               destruct (getitem f n) eqn:E; [| discriminate]
           end.
    injection Et as <-.
    match goal with
    | E : getitem _ "Revenue generated" = Ok ?c |- _ =>
        apply getitem_take in E; destruct E as (c0 & E1 & ->)
    end.
    rewrite Er in E1. injection E1 as <-.
    eexists; split; [reflexivity |]. rewrite cells_take_col.
    apply map_ext; intros p. simpl cells.
    exact (map_nth (opt_scalar Num) revs None p). }
  split; [now apply before_descending | assumption].
Qed.

(** ** The rows that [nlargest] leaves out *)


(** * Further properties of the engine *)

(** ** The alert tables *)

Lemma select_filter {A} (p : A -> bool) (l : list A) : select (map p l) l = filter p l.
Proof.
  induction l as [| x l IH]; simpl; [reflexivity |].
  destruct (p x); now rewrite IH.
Qed.

(** Selection by a mask is selection of the positions the mask marks. *)
Lemma select_at {A} (d : A) (start : nat) (mask : list bool) (ys : list A) :
  length mask = length ys ->
  select mask ys =
  map (fun i => nth (i - start) ys d)
      (filter (fun i => nth (i - start) mask false) (seq start (length mask))).
Proof.
  revert start ys; induction mask as [| b mask IH]; intros start [| y ys] H;
    try discriminate; [reflexivity |].
  injection H as H.
  assert (Ef : filter (fun i => nth (i - start) (b :: mask) false)
                      (seq (S start) (length mask))
               = filter (fun i => nth (i - S start) mask false)
                        (seq (S start) (length mask))).
  { apply filter_ext_in. intros i Hi. apply in_seq in Hi.
    replace (i - start) with (S (i - S start)) by lia. reflexivity. }
  assert (Em : forall l, Forall (fun i => S start <= i) l ->
                         map (fun i => nth (i - start) (y :: ys) d) l
                         = map (fun i => nth (i - S start) ys d) l).
  { intros l Hl. apply map_ext_in. intros i Hi. rewrite Forall_forall in Hl.
    specialize (Hl _ Hi). replace (i - start) with (S (i - S start)) by lia.
    reflexivity. }
  assert (Hge : Forall (fun i => S start <= i)
                       (filter (fun i => nth (i - S start) mask false)
                               (seq (S start) (length mask)))).
  { rewrite Forall_forall. intros i Hi. apply filter_In in Hi as [Hi _].
    apply in_seq in Hi. lia. }
  change (seq start (length (b :: mask))) with (start :: seq (S start) (length mask)).
  cbn [filter select]. rewrite Nat.sub_diag.
  change (nth 0 (b :: mask) false) with b. rewrite Ef.
  destruct b.
  - cbn [map]. rewrite Nat.sub_diag. change (nth 0 (y :: ys) d) with y.
    now rewrite (Em _ Hge), <- (IH (S start) ys H).
  - now rewrite (Em _ Hge), <- (IH (S start) ys H).
Qed.

Lemma positions_where_mask {A} (p : A -> bool) (xs : list A) :
  positions_where p xs =
  filter (fun i => nth (i - 0) (map p xs) false) (seq 0 (length (map p xs))).
Proof.
  unfold positions_where. rewrite length_map. apply filter_ext. intros i.
  rewrite Nat.sub_0_r. revert i. induction xs as [| x xs IH]; intros [| i]; simpl;
    try reflexivity. apply IH.
Qed.

Lemma select_positions {A B} (d : B) (p : A -> bool) (xs : list A) (ys : list B) :
  length xs = length ys ->
  select (map p xs) ys = map (fun i => nth i ys d) (positions_where p xs).
Proof.
  intros H. rewrite positions_where_mask, (select_at d 0) by (now rewrite length_map).
  apply map_ext. intros i. now rewrite Nat.sub_0_r.
Qed.

Lemma StronglySorted_filter {A} (R : A -> A -> Prop) (p : A -> bool) (l : list A) :
  StronglySorted R l -> StronglySorted R (filter p l).
Proof.
  induction 1 as [| a l Hs IH Ha]; simpl; [constructor |].
  destruct (p a); [| assumption]. constructor; [assumption |].
  rewrite Forall_forall in Ha |- *. intros b Hb. apply filter_In in Hb as [Hb _].
  now apply Ha.
Qed.

Lemma positions_where_In {A} (p : A -> bool) (xs : list A) (i : nat) :
  In i (positions_where p xs) <-> exists x, nth_error xs i = Some x /\ p x = true.
Proof.
  unfold positions_where. rewrite filter_In, in_seq. split.
  - intros [_ H]. destruct (nth_error xs i) as [x |]; [now exists x | discriminate].
  - intros (x & E & Hp). rewrite E. split; [| assumption].
    assert (i < length xs) by (apply nth_error_Some; congruence). lia.
Qed.

Lemma getitem_filter_rows (mask : list bool) (d : DataFrame) (name : string) (c : column) :
  getitem (filter_rows mask d) name = Ok c ->
  exists c0, getitem d name = Ok c0 /\ c = select_col mask c0.
Proof.
  unfold getitem, filter_rows; simpl. rewrite assoc_map_snd.
  destruct (assoc name (columns d)) as [c0 |]; simpl; [| discriminate].
  intros [= <-]. eauto.
Qed.

Lemma getitem_filter_rows_ok (mask : list bool) (d : DataFrame) (name : string) (c0 : column) :
  getitem d name = Ok c0 -> getitem (filter_rows mask d) name = Ok (select_col mask c0).
Proof.
  unfold getitem, filter_rows; simpl. rewrite assoc_map_snd.
  destruct (assoc name (columns d)) as [c1 |]; simpl; [| discriminate].
  now intros [= <-].
Qed.

Lemma project_getitem (names : list string) (df f : DataFrame) (name : string) :
  project names df = Ok f -> In name names ->
  getitem f name = getitem df name.
Proof.
  unfold project. destruct (rmap _ names) as [cs |] eqn:E; [| discriminate].
  intros [= <-]; unfold getitem at 1; simpl.
  revert cs E; induction names as [| n names IH]; simpl; intros cs E Hin; [contradiction |].
  destruct (getitem df n) as [c0 |] eqn:E0; [| discriminate].
  destruct (rmap _ names) as [cs' |]; [| discriminate].
  injection E as <-. simpl.
  destruct (String.eqb_spec n name) as [-> | Hne]; [now rewrite E0 |].
  destruct Hin as [-> | Hin]; [contradiction |]. now apply IH.
Qed.

(** The rows a mask selects from a rectangular frame are the rows at the
    positions the mask marks. *)
Lemma filter_rows_at {A} (p : A -> bool) (xs : list A) (names : list string)
      (d view : DataFrame) :
  wf_frame d -> length xs = length (index d) ->
  project names (filter_rows (map p xs) d) = Ok view ->
  rows_at (positions_where p xs) names d view.
Proof.
  intros Hwf Hlen H. destruct (project_columns _ _ _ H) as (Hidx & Hnames & Hcols & _).
  split.
  { rewrite Hidx. cbn [filter_rows index]. now apply select_positions. }
  split; [exact Hnames |].
  intros name c Hin. apply Hcols, getitem_filter_rows in Hin as (c0 & E & ->).
  exists c0. split; [assumption |].
  rewrite cells_select_col. apply select_positions.
  rewrite cells_length, (wf_frame_length _ _ _ Hwf E). exact Hlen.
Qed.



Lemma stock_alerts_view (F : Library) (d : DataFrame) (m : metrics) :
  product_tables F d = Ok m ->
  exists alerts stocks,
    frame_table "stock_alerts" m = Some alerts /\
    rbind (getitem d "Stock levels") as_numbers = Ok stocks /\
    project ["SKU"; "Product type"; "Stock levels"; "Lead times"]
            (filter_rows (map (below 20) stocks) d) = Ok alerts.
Proof.
  unfold product_tables, rbind. intros H.
  stage H g Eg. stage H top Et. stage H alerts Ea. injection H as <-.
  unfold rows_below, lt_scalar, rbind in Ea.
  destruct (getitem d "Stock levels") as [c |] eqn:Es; try discriminate.
  destruct (as_numbers c) as [stocks |] eqn:En; try discriminate.
  exists alerts, stocks. split; [reflexivity |]. split; [reflexivity |].
  exact Ea.
Qed.

Lemma quality_issues_view (F : Library) (d : DataFrame) (m : metrics) :
  supplier_tables F d = Ok m ->
  exists issues inspections,
    frame_table "quality_issues" m = Some issues /\
    getitem d "Inspection results" = Ok inspections /\
    project ["Supplier name"; "SKU"; "Defect rates"]
            (filter_rows (map is_fail (cells inspections)) d) = Ok issues.
Proof.
  unfold supplier_tables, rbind. intros H.
  stage H g Eg. stage H locs El. stage H issues Ei. injection H as <-.
  unfold rows_equal in Ei.
  destruct (getitem d "Inspection results") as [insp |] eqn:Es; try discriminate.
  exists issues, insp. rewrite <- eq_str_is_fail. now repeat split.
Qed.

Lemma numbers_of_column (d : DataFrame) (name : string) (xs : list (option Q)) :
  rbind (getitem d name) as_numbers = Ok xs ->
  column_is d name (map num_cell xs) /\
  (wf_frame d -> length xs = length (index d)).
Proof.
  unfold rbind. destruct (getitem d name) as [c |] eqn:E; [| discriminate].
  intros H. split.
  - exists c. split; [exact E | now apply as_numbers_ok].
  - intros Hwf. rewrite (as_numbers_length _ _ H). now apply (wf_frame_length d name).
Qed.

(** X1.  The stock alert table holds exactly the rows of the input whose
    stock level is below 20, in their order and with their labels, cut to
    four columns: every label and every cell of it is that of the input row.
    A row without a stock level is not among them. *)
Theorem stock_alerts_rows (F : Library) (d : DataFrame) (m : metrics) :
  wf_frame d ->
  product_tables F d = Ok m ->
  exists alerts stocks,
    frame_table "stock_alerts" m = Some alerts /\
    column_is d "Stock levels" (map num_cell stocks) /\
    let low x := match x with
                 | Some q => Qltb q 20
                 | None => false
                 end in
    let pos := positions_where low stocks in
    (forall i, In i pos <-> exists q, nth_error stocks i = Some (Some q) /\ (q < 20)%Q) /\
    StronglySorted lt pos /\
    rows_at pos ["SKU"; "Product type"; "Stock levels"; "Lead times"] d alerts /\
    column_is alerts "Stock levels" (map num_cell (filter low stocks)).
Proof.
  intros Hwf H. destruct (stock_alerts_view _ _ _ H) as (alerts & stocks & Ha & Es & Ea).
  destruct (numbers_of_column _ _ _ Es) as [Hcol Hlen]. specialize (Hlen Hwf).
  exists alerts, stocks.
  split; [exact Ha |]. split; [exact Hcol |]. cbv zeta.
  change (fun x : option Q => match x with
                              | Some q => Qltb q 20
                              | None => false
                              end) with (below 20).
  split.
  { intros i. rewrite positions_where_In. split.
    - intros ([q |] & E & Hq); [| discriminate]. exists q. split; [assumption |].
      now apply Qltb_lt.
    - intros (q & E & Hq). exists (Some q). split; [assumption |]. now apply Qltb_lt. }
  split.
  { unfold positions_where.
    assert (S : forall n start, StronglySorted lt (seq start n)).
    { induction n as [| n IH]; intros start; simpl; constructor; [apply IH |].
      rewrite Forall_forall. intros i Hi. apply in_seq in Hi. lia. }
    apply StronglySorted_filter, S. }
  split; [now apply filter_rows_at |].
  destruct Hcol as (c & Ec & Hc).
  rewrite <- (map_id stocks) in Hlen at 1.
  exists (select_col (map (below 20) stocks) c). split.
  - rewrite (project_getitem _ _ _ "Stock levels" Ea) by (simpl; tauto).
    now apply getitem_filter_rows_ok.
  - rewrite cells_select_col, Hc. apply select_map.
Qed.

(** X2.  The quality issue table holds exactly the rows of the input whose
    inspection result is the text Fail, in their order and with their
    labels, cut to three columns: every label and every cell of it is that
    of the input row; a table without that text in the column gives a table
    without rows. *)
Theorem quality_issues_rows (F : Library) (d : DataFrame) (m : metrics) :
  wf_frame d ->
  supplier_tables F d = Ok m ->
  exists issues inspections,
    frame_table "quality_issues" m = Some issues /\
    column_is d "Inspection results" inspections /\
    let failed s := match s with
                    | Str t => String.eqb t "Fail"
                    | _ => false
                    end in
    let pos := positions_where failed inspections in
    (forall i, In i pos <-> nth_error inspections i = Some (Str "Fail")) /\
    rows_at pos ["Supplier name"; "SKU"; "Defect rates"] d issues /\
    (~ In (Str "Fail") inspections -> index issues = []).
Proof.
  intros Hwf H. destruct (quality_issues_view _ _ _ H) as (issues & insp & Hi & Es & Ei).
  exists issues, (cells insp).
  split; [exact Hi |]. split; [now exists insp |]. cbv zeta.
  change (fun s : scalar => match s with
                            | Str t => String.eqb t "Fail"
                            | _ => false
                            end) with is_fail.
  assert (Hpos : forall i, In i (positions_where is_fail (cells insp)) <->
                           nth_error (cells insp) i = Some (Str "Fail")).
  { intros i. rewrite positions_where_In. split.
    - intros ([q | t |] & E & Hq); try discriminate.
      simpl in Hq. apply String.eqb_eq in Hq. now subst t.
    - intros E. now exists (Str "Fail"). }
  assert (Hrows : rows_at (positions_where is_fail (cells insp))
                          ["Supplier name"; "SKU"; "Defect rates"] d issues).
  { apply filter_rows_at; [assumption | | assumption].
    rewrite cells_length. now apply (wf_frame_length d "Inspection results"). }
  split; [exact Hpos |]. split; [exact Hrows |].
  intros Hno. destruct Hrows as (-> & _).
  destruct (positions_where is_fail (cells insp)) as [| i l] eqn:E; [reflexivity |].
  exfalso. apply Hno. pose proof (proj1 (Hpos i) (or_introl eq_refl)) as Hin.
  now apply nth_error_In in Hin.
Qed.

(** ** More on the recommendations *)

Lemma generate_recommendations_columns (F : Library) (e e' : SupplyChainAnalyzer)
      (recs : list Recommendation) :
  generate_recommendations F e = (Ok recs, e') ->
  exists stocks inspections costs,
    rbind (getitem (data e) "Stock levels") as_numbers = Ok stocks /\
    getitem (data e) "Inspection results" = Ok inspections /\
    rbind (getitem (data e) "Costs") as_numbers = Ok costs.
Proof.
  unfold generate_recommendations, bind, lift, get_data, ret, rbind,
    lt_scalar, gt_own_mean_plus_std, rbind.
  destruct (getitem (data e) "Stock levels") as [c1 |]; try discriminate.
  destruct (as_numbers c1) as [stocks |]; try discriminate.
  destruct (getitem (data e) "Inspection results") as [insp |]; try discriminate.
  destruct (getitem (data e) "Costs") as [c3 |]; try discriminate.
  destruct (as_numbers c3) as [costs |]; try discriminate.
  intros _. now exists stocks, insp, costs.
Qed.


(** ** Means and the single record *)

Lemma Q_of_nat_S (n : nat) : (Q_of_nat (S n) == Q_of_nat n + 1)%Q.
Proof.
  unfold Q_of_nat. rewrite Nat2Z.inj_succ, <- Z.add_1_r, inject_Z_plus. reflexivity.
Qed.

Lemma Q_of_nat_pos (n : nat) : (0 < Q_of_nat (S n))%Q.
Proof.
  unfold Q_of_nat. change 0%Q with (inject_Z 0). rewrite <- Zlt_Qlt. lia.
Qed.

Lemma Qsum_lower (x : Q) (xs : list Q) :
  (forall y, In y xs -> (x <= y)%Q) -> (Q_of_nat (length xs) * x <= Qsum xs)%Q.
Proof.
  induction xs as [| y xs IH]; intros H.
  - change (Q_of_nat (length (@nil Q))) with 0%Q. change (Qsum []) with 0%Q. lra.
  - change (Qsum (y :: xs)) with (y + Qsum xs)%Q.
    change (length (y :: xs)) with (S (length xs)). rewrite Q_of_nat_S.
    assert (Hy : (x <= y)%Q) by (apply H; now left).
    assert (Hxs : (Q_of_nat (length xs) * x <= Qsum xs)%Q)
      by (apply IH; intros z Hz; apply H; now right).
    lra.
Qed.

Lemma mean_ge_min (x m : Q) (xs : list Q) :
  mean xs = Some m -> (forall y, In y xs -> (x <= y)%Q) -> (x <= m)%Q.
Proof.
  destruct xs as [| y xs]; [discriminate |].
  unfold mean. intros [= <-] H.
  apply Qle_shift_div_l; [apply Q_of_nat_pos |].
  rewrite Qmult_comm. exact (Qsum_lower x (y :: xs) H).
Qed.

Lemma Qltb_false (x y : Q) : (y <= x)%Q -> Qltb x y = false.
Proof.
  intros H. unfold Qltb. apply negb_false_iff. now apply Qle_bool_iff.
Qed.

Lemma select_Forall {A} (P : A -> Prop) (mask : list bool) (xs : list A) :
  Forall P xs -> Forall P (select mask xs).
Proof.
  intros H; revert mask; induction H as [| x xs Hx _ IH]; intros [| b mask]; simpl;
    try constructor.
  destruct b; [constructor; [assumption | apply IH] | apply IH].
Qed.

(** No value of a column with at most one cell exceeds the mean of the
    column. *)
Lemma short_column_mean (F : Library) (xs : list (option Q)) :
  length xs <= 1 -> Forall (fun b => b = false) (map (fun x => nan_gt x (nanmean F xs)) xs).
Proof.
  destruct xs as [| [q |] [| y l]]; simpl; intros H; try lia; repeat constructor.
  unfold nan_gt, nanmean; simpl. apply Qltb_false, Qle_refl.
Qed.

(** X4.  In a table of a single record the mean of the manufacturing costs
    is the cost of that record, which does not exceed it: the record is never
    marked as a cost risk. *)
Theorem single_record_is_no_cost_risk (F : Library) (e e' : SupplyChainAnalyzer)
        (rf : RiskFactors) :
  wf_frame (data e) ->
  df_len (data e) <= 1 ->
  get_risk_assessment F e = (Ok rf, e') ->
  Forall (fun b => b = false) (Cost_Risk rf).
Proof.
  intros Hwf Hlen. unfold get_risk_assessment, bind, lift, get_data, ret, rbind,
    lt_scalar, gt_scalar, gt_own_mean, rbind.
  destruct (getitem (data e) "SKU") as [c0 |]; [| discriminate].
  destruct (getitem (data e) "Stock levels") as [c1 |]; try discriminate.
  destruct (as_numbers c1) as [stocks |]; try discriminate.
  destruct (getitem (data e) "Lead time") as [c2 |]; try discriminate.
  destruct (as_numbers c2) as [leads |]; try discriminate.
  destruct (getitem (data e) "Defect rates") as [c3 |]; try discriminate.
  destruct (as_numbers c3) as [defects |]; try discriminate.
  destruct (getitem (data e) "Manufacturing costs") as [c4 |] eqn:Ec; try discriminate.
  destruct (as_numbers c4) as [costs |] eqn:En; try discriminate.
  cbv beta iota zeta.
  intros [= <- _]. cbn [Cost_Risk]. apply select_Forall.
  apply short_column_mean. rewrite (as_numbers_length _ _ En).
  rewrite (wf_frame_length _ _ _ Hwf Ec). exact Hlen.
Qed.

(** ** The shape of the recommendation list *)

Lemma generate_recommendations_shape (F : Library) (e e' : SupplyChainAnalyzer)
      (recs : list Recommendation) :
  generate_recommendations F e = (Ok recs, e') ->
  exists (b1 b2 b3 : bool) (n1 n2 n3 : nat),
    recs = (if b1 then [inventory_entry n1] else [])
           ++ (if b2 then [quality_entry n2] else [])
           ++ (if b3 then [logistics_entry n3] else []).
Proof.
  unfold generate_recommendations, bind, lift, get_data, ret, rbind.
  destruct (getitem (data e) "Stock levels") as [c1 |]; [| discriminate].
  destruct (lt_scalar c1 20) as [m1 |]; [| discriminate].
  destruct (getitem (data e) "Inspection results") as [c2 |]; [| discriminate].
  destruct (getitem (data e) "Costs") as [c3 |]; [| discriminate].
  destruct (gt_own_mean_plus_std F c3) as [m3 |]; [| discriminate].
  intros [= <- _]. unfold append_if_any.
  exists (negb (df_empty (filter_rows m1 (data e)))),
         (negb (df_empty (filter_rows (eq_str c2 "Fail") (data e)))),
         (negb (df_empty (filter_rows m3 (data e)))),
         (df_len (filter_rows m1 (data e))),
         (df_len (filter_rows (eq_str c2 "Fail") (data e))),
         (df_len (filter_rows m3 (data e))).
  destruct (negb (df_empty (filter_rows m1 (data e)))),
           (negb (df_empty (filter_rows (eq_str c2 "Fail") (data e)))),
           (negb (df_empty (filter_rows m3 (data e)))); reflexivity.
Qed.

(** X5.  Whatever the table, a returned recommendation list has at most
    three entries, at most one per area, in the order Inventory, Quality,
    Logistics, with priority High for the first two and Medium for the
    third. *)
Theorem recommendations_order_and_priority (F : Library) (e e' : SupplyChainAnalyzer)
        (recs : list Recommendation) :
  generate_recommendations F e = (Ok recs, e') ->
  exists b1 b2 b3 : bool,
    map area recs = select [b1; b2; b3] ["Inventory"; "Quality"; "Logistics"] /\
    map priority recs = select [b1; b2; b3] ["High"; "High"; "Medium"] /\
    length recs <= 3 /\
    NoDup (map area recs).
Proof.
  intros H. destruct (generate_recommendations_shape _ _ _ _ H)
    as (b1 & b2 & b3 & n1 & n2 & n3 & ->).
  exists b1, b2, b3.
  destruct b1, b2, b3; simpl; repeat split; try lia;
    repeat (constructor; [simpl; intuition discriminate |]); constructor.
Qed.

(** X6.  The standard deviation of fewer than two values is NaN, and no
    cost compares greater than NaN: on a table with fewer than two records
    the recommendations hold no Logistics entry. *)
Theorem no_logistics_entry_below_two_records
        (F : Library) (e e' : SupplyChainAnalyzer) (recs : list Recommendation) :
  wf_frame (data e) ->
  df_len (data e) <= 1 ->
  generate_recommendations F e = (Ok recs, e') ->
  Forall (fun r => area r <> "Logistics") recs.
Proof.
  intros Hwf Hlen Hrec.
  destruct (generate_recommendations_columns _ _ _ _ Hrec)
    as (stocks & insp & costs & Hs & Hi & Hc).
  rewrite (generate_recommendations_counts F e stocks insp costs Hwf Hs Hi Hc) in Hrec.
  injection Hrec as <- _.
  assert (L : length costs <= 1).
  { destruct (numbers_of_column _ _ _ Hc) as [_ Hl]. rewrite (Hl Hwf). exact Hlen. }
  assert (Hzero : high_cost_count F costs = 0).
  { unfold high_cost_count, is_outlier, cost_threshold.
    destruct costs as [| [a |] [| b l]]; simpl in L; try lia; reflexivity. }
  rewrite Hzero.
  destruct (low_stock_count stocks), (failed_count (cells insp)); simpl;
    repeat (constructor; [discriminate |]); constructor.
Qed.

(** ** When the queries return and what they raise *)

Lemma getitem_raises (d : DataFrame) (name : string) (x : exn) :
  getitem d name = Raise x -> x = KeyError name /\ ~ has d name.
Proof.
  unfold has, getitem. destruct (assoc name (columns d)); [discriminate |].
  intros [= <-]. split; [reflexivity | intros [c H]; discriminate].
Qed.

(** Reading the numbers of a column: they are there, or some cell is a
    string, or the column is not there. *)
Lemma numbers_cases (d : DataFrame) (name : string) :
  (exists xs, rbind (getitem d name) as_numbers = Ok xs /\ has_num d name) \/
  (rbind (getitem d name) as_numbers = Raise TypeError /\ is_text_column d name) \/
  (rbind (getitem d name) as_numbers = Raise (KeyError name) /\ ~ has d name).
Proof.
  unfold rbind. destruct (getitem d name) as [c | x] eqn:E.
  - destruct (as_numbers c) as [xs | y] eqn:En.
    + left. exists xs. split; [reflexivity |]. exists c. split; [exact E |].
      apply as_numbers_no_text. now exists xs.
    + right; left. destruct (as_numbers_raises _ _ En) as [-> [t Ht]].
      split; [reflexivity |]. exists c, t. now split.
  - right; right. destruct (getitem_raises _ _ _ E) as [-> Hno]. now split.
Qed.

Lemma has_num_numbers (d : DataFrame) (name : string) :
  has_num d name <-> exists xs, rbind (getitem d name) as_numbers = Ok xs.
Proof.
  unfold has_num, rbind. split.
  - intros (c & -> & H). now apply as_numbers_no_text.
  - destruct (getitem d name) as [c |]; [| now intros [xs H]].
    intros H. exists c. split; [reflexivity | now apply as_numbers_no_text].
Qed.

Lemma rbind_assoc {A B C} (r : result A) (f : A -> result B) (g : B -> result C) :
  rbind r (fun a => rbind (f a) g) = rbind (rbind r f) g.
Proof. now destruct r. Qed.

Ltac numbers_of d name :=
  let xs := fresh "xs" in
  let E := fresh "E" in
  let N := fresh "N" in
  destruct (numbers_cases d name) as [(xs & E & N) | [[E N] | [E N]]]; rewrite E.

(** X7.  [get_risk_assessment] returns exactly when the table has a SKU
    column and numeric stock level, lead time, defect rate and manufacturing
    cost columns (columns none of whose cells is a string).  Otherwise it
    raises [KeyError] for a column that is not there, or [TypeError] when one
    of the four holds a string; nothing else is raised, and the instance is
    unchanged in every case. *)
Theorem get_risk_assessment_contract (F : Library) (e : SupplyChainAnalyzer) :
  let d := data e in
  let numeric := ["Stock levels"; "Lead time"; "Defect rates"; "Manufacturing costs"] in
  ((exists rf, get_risk_assessment F e = (Ok rf, e)) <->
     has d "SKU" /\ Forall (has_num d) numeric) /\
  (forall x e', get_risk_assessment F e = (Raise x, e') ->
     e' = e /\
     ((exists name, x = KeyError name /\ In name ("SKU" :: numeric) /\ ~ has d name) \/
      (x = TypeError /\ exists name, In name numeric /\ is_text_column d name))).
Proof.
  cbv zeta.
  assert (Hbody : get_risk_assessment F e =
    match getitem (data e) "SKU" with
    | Raise x => (Raise x, e)
    | Ok sku =>
        match rbind (getitem (data e) "Stock levels") as_numbers with
        | Raise x => (Raise x, e)
        | Ok stocks =>
            match rbind (getitem (data e) "Lead time") as_numbers with
            | Raise x => (Raise x, e)
            | Ok leads =>
                match rbind (getitem (data e) "Defect rates") as_numbers with
                | Raise x => (Raise x, e)
                | Ok defects =>
                    match rbind (getitem (data e) "Manufacturing costs") as_numbers with
                    | Raise x => (Raise x, e)
                    | Ok costs => (fst (get_risk_assessment F e), e)
                    end
                end
            end
        end
    end).
  { unfold get_risk_assessment, bind, lift, get_data, ret, lt_scalar, gt_scalar,
      gt_own_mean. rewrite !rbind_assoc.
    destruct (getitem (data e) "SKU"); [| reflexivity].
    destruct (rbind (getitem (data e) "Stock levels") as_numbers); [| reflexivity].
    destruct (rbind (getitem (data e) "Lead time") as_numbers); [| reflexivity].
    destruct (rbind (getitem (data e) "Defect rates") as_numbers); [| reflexivity].
    destruct (rbind (getitem (data e) "Manufacturing costs") as_numbers); reflexivity. }
  assert (Hok : forall sku stocks leads defects costs,
             getitem (data e) "SKU" = Ok sku ->
             rbind (getitem (data e) "Stock levels") as_numbers = Ok stocks ->
             rbind (getitem (data e) "Lead time") as_numbers = Ok leads ->
             rbind (getitem (data e) "Defect rates") as_numbers = Ok defects ->
             rbind (getitem (data e) "Manufacturing costs") as_numbers = Ok costs ->
             exists rf, get_risk_assessment F e = (Ok rf, e)).
  { intros sku stocks leads defects costs E0 E1 E2 E3 E4.
    unfold get_risk_assessment, bind, lift, get_data, ret, lt_scalar, gt_scalar,
      gt_own_mean. rewrite !rbind_assoc. rewrite E0, E1, E2, E3, E4. simpl. eauto. }
  split.
  - split.
    + intros [rf H]. rewrite Hbody in H.
      destruct (getitem (data e) "SKU") as [c0 |] eqn:E0; [| discriminate].
      destruct (rbind (getitem (data e) "Stock levels") as_numbers) eqn:E1;
        [| discriminate].
      destruct (rbind (getitem (data e) "Lead time") as_numbers) eqn:E2;
        [| discriminate].
      destruct (rbind (getitem (data e) "Defect rates") as_numbers) eqn:E3;
        [| discriminate].
      destruct (rbind (getitem (data e) "Manufacturing costs") as_numbers) eqn:E4;
        [| discriminate].
      split; [now exists c0 |].
      repeat constructor; apply has_num_numbers; eauto.
    + intros ([c0 E0] & Hnum).
      inversion Hnum as [| ? ? N1 Hn1]; subst.
      inversion Hn1 as [| ? ? N2 Hn2]; subst.
      inversion Hn2 as [| ? ? N3 Hn3]; subst.
      inversion Hn3 as [| ? ? N4 _]; subst.
      apply has_num_numbers in N1, N2, N3, N4.
      destruct N1 as [x1 E1], N2 as [x2 E2], N3 as [x3 E3], N4 as [x4 E4].
      eapply Hok; eassumption.
  - intros x e'. rewrite Hbody.
    destruct (getitem (data e) "SKU") as [c0 |] eqn:E0.
    2:{ intros [= <- <-]. split; [reflexivity | left].
        destruct (getitem_raises _ _ _ E0) as [-> Hno].
        exists "SKU"; simpl; tauto. }
    numbers_of (data e) "Stock levels".
    2:{ intros [= <- <-]. split; [reflexivity | right]. split; [reflexivity |].
        exists "Stock levels"; split; [simpl; tauto | assumption]. }
    2:{ intros [= <- <-]. split; [reflexivity | left].
        exists "Stock levels"; split; [reflexivity |]. split; [simpl; tauto | assumption]. }
    numbers_of (data e) "Lead time".
    2:{ intros [= <- <-]. split; [reflexivity | right]. split; [reflexivity |].
        exists "Lead time"; split; [simpl; tauto | assumption]. }
    2:{ intros [= <- <-]. split; [reflexivity | left].
        exists "Lead time"; split; [reflexivity |]. split; [simpl; tauto | assumption]. }
    numbers_of (data e) "Defect rates".
    2:{ intros [= <- <-]. split; [reflexivity | right]. split; [reflexivity |].
        exists "Defect rates"; split; [simpl; tauto | assumption]. }
    2:{ intros [= <- <-]. split; [reflexivity | left].
        exists "Defect rates"; split; [reflexivity |]. split; [simpl; tauto | assumption]. }
    numbers_of (data e) "Manufacturing costs".
    + destruct (Hok _ _ _ _ _ eq_refl E E1 E2 E3) as [rf ->]. discriminate.
    + intros [= <- <-]. split; [reflexivity | right]. split; [reflexivity |].
      exists "Manufacturing costs"; split; [simpl; tauto | assumption].
    + intros [= <- <-]. split; [reflexivity | left].
      exists "Manufacturing costs"; split; [reflexivity |].
      split; [simpl; tauto | assumption].
Qed.

(** X8.  [generate_recommendations] returns exactly when the stock levels
    and the costs are numeric columns (columns none of whose cells is a
    string) and the inspection results are there.  Otherwise it raises
    [KeyError] for a column that is not there or [TypeError] for a string
    among the stock levels or costs, and the instance is unchanged in every
    case. *)
Theorem generate_recommendations_contract (F : Library) (e : SupplyChainAnalyzer) :
  let d := data e in
  ((exists recs, generate_recommendations F e = (Ok recs, e)) <->
     has_num d "Stock levels" /\ has d "Inspection results" /\ has_num d "Costs") /\
  (forall x e', generate_recommendations F e = (Raise x, e') ->
     e' = e /\
     ((exists name, x = KeyError name /\
                    In name ["Stock levels"; "Inspection results"; "Costs"] /\
                    ~ has d name) \/
      (x = TypeError /\ exists name, In name ["Stock levels"; "Costs"] /\
                                      is_text_column d name))).
Proof.
  cbv zeta.
  assert (Hbody : generate_recommendations F e =
    match rbind (getitem (data e) "Stock levels") as_numbers with
    | Raise x => (Raise x, e)
    | Ok stocks =>
        match getitem (data e) "Inspection results" with
        | Raise x => (Raise x, e)
        | Ok insp =>
            match rbind (getitem (data e) "Costs") as_numbers with
            | Raise x => (Raise x, e)
            | Ok costs => (fst (generate_recommendations F e), e)
            end
        end
    end).
  { unfold generate_recommendations, bind, lift, get_data, ret, lt_scalar,
      gt_own_mean_plus_std. rewrite !rbind_assoc.
    destruct (rbind (getitem (data e) "Stock levels") as_numbers); [| reflexivity].
    destruct (getitem (data e) "Inspection results"); [| reflexivity].
    destruct (rbind (getitem (data e) "Costs") as_numbers); reflexivity. }
  assert (Hok : forall stocks insp costs,
             rbind (getitem (data e) "Stock levels") as_numbers = Ok stocks ->
             getitem (data e) "Inspection results" = Ok insp ->
             rbind (getitem (data e) "Costs") as_numbers = Ok costs ->
             exists recs, generate_recommendations F e = (Ok recs, e)).
  { intros stocks insp costs E1 E2 E3.
    unfold generate_recommendations, bind, lift, get_data, ret, lt_scalar,
      gt_own_mean_plus_std. rewrite !rbind_assoc. rewrite E1, E2, E3. simpl. eauto. }
  split.
  - split.
    + intros [recs H].
      destruct (generate_recommendations_columns _ _ _ _ H) as (s & i & c & Hs & Hi & Hc).
      split; [apply has_num_numbers; eauto |].
      split; [now exists i | apply has_num_numbers; eauto].
    + intros (N1 & [c2 E2] & N3). apply has_num_numbers in N1, N3.
      destruct N1 as [x1 E1], N3 as [x3 E3]. eapply Hok; eassumption.
  - intros x e'. rewrite Hbody.
    numbers_of (data e) "Stock levels".
    2:{ intros [= <- <-]. split; [reflexivity | right]. split; [reflexivity |].
        exists "Stock levels"; split; [simpl; tauto | assumption]. }
    2:{ intros [= <- <-]. split; [reflexivity | left].
        exists "Stock levels"; split; [reflexivity |]. split; [simpl; tauto | assumption]. }
    destruct (getitem (data e) "Inspection results") as [c2 |] eqn:E2.
    2:{ intros [= <- <-]. split; [reflexivity | left].
        destruct (getitem_raises _ _ _ E2) as [-> Hno].
        exists "Inspection results"; simpl; tauto. }
    numbers_of (data e) "Costs".
    + destruct (Hok _ _ _ E eq_refl E0) as [recs ->]. discriminate.
    + intros [= <- <-]. split; [reflexivity | right]. split; [reflexivity |].
      exists "Costs"; split; [simpl; tauto | assumption].
    + intros [= <- <-]. split; [reflexivity | left].
      exists "Costs"; split; [reflexivity |]. split; [simpl; tauto | assumption].
Qed.

(** ** The order of the analyze calls *)

Lemma instance_eq (e1 e2 : SupplyChainAnalyzer) :
  data e1 = data e2 -> product_metrics e1 = product_metrics e2 ->
  supplier_metrics e1 = supplier_metrics e2 ->
  logistics_metrics e1 = logistics_metrics e2 -> e1 = e2.
Proof. destruct e1, e2; simpl; intros; subst; reflexivity. Qed.

(** X9.  The instance left by a sequence of calls that all return depends
    only on which analyze methods are among them: two such sequences from
    the same instance that invoke the same analyze methods, in any order and
    any number of times, leave the same instance. *)
Theorem analyze_order_is_irrelevant (F : Library) (ops1 ops2 : list op)
        (e e1 e2 : SupplyChainAnalyzer) :
  run F ops1 e = (Ok tt, e1) ->
  run F ops2 e = (Ok tt, e2) ->
  same_analyses ops1 ops2 ->
  e1 = e2.
Proof.
  intros H1 H2 (Sp & Ss & Sl).
  pose proof (run_data F ops1 e) as D1. rewrite H1 in D1; simpl in D1.
  pose proof (run_data F ops2 e) as D2. rewrite H2 in D2; simpl in D2.
  destruct (run_slots _ _ _ _ H1) as (P1 & S1 & L1 & _).
  destruct (run_slots _ _ _ _ H2) as (P2 & S2 & L2 & _).
  apply instance_eq; [congruence | now rewrite P1, P2, Sp | now rewrite S1, S2, Ss
                     | now rewrite L1, L2, Sl].
Qed.

(** ** The sizes of the groups *)

Lemma filter_enumerated_length {A} (p : A -> bool) (start : nat) (l : list A) :
  length (filter (fun ir : nat * A => p (snd ir)) (combine (seq start (length l)) l))
  = length (filter p l).
Proof.
  revert start; induction l as [| x l IH]; intros start; simpl; [reflexivity |].
  destruct (p x); simpl; now rewrite IH.
Qed.

Lemma scalar_compare_eq_nan (x y : scalar) :
  scalar_compare x y = Eq -> is_nan x = is_nan y.
Proof. destruct x, y; simpl; congruence. Qed.

Lemma key_compare_eq_nan (r k : list scalar) :
  key_compare r k = Eq -> existsb is_nan r = existsb is_nan k.
Proof.
  revert k; induction r as [| x r IH]; intros [| y k]; simpl; try discriminate;
    [reflexivity |].
  destruct (scalar_compare x y) eqn:E; try discriminate.
  intros H. now rewrite (scalar_compare_eq_nan _ _ E), (IH _ H).
Qed.

Lemma no_nan_existsb (k : list scalar) : ~ In NaN k -> existsb is_nan k = false.
Proof.
  intros H. apply not_true_iff_false. intros E.
  apply existsb_exists in E as ([q | s |] & Hin & Hx); try discriminate. contradiction.
Qed.

(** A row is in the group of a key without missing cell exactly when it
    has that key. *)
Lemma in_group_same_key (k r : list scalar) :
  ~ In NaN k ->
  in_group k (if existsb is_nan r then None else Some r) = same_key k r.
Proof.
  intros Hk. unfold same_key. destruct (existsb is_nan r) eqn:E; simpl; [| reflexivity].
  destruct (key_compare r k) eqn:C; try reflexivity.
  apply key_compare_eq_nan in C. rewrite E, (no_nan_existsb _ Hk) in C. discriminate.
Qed.

Lemma group_positions_length (rows : list (list scalar)) (k : list scalar) :
  ~ In NaN k ->
  length (group_positions (map (fun r => if existsb is_nan r then None else Some r) rows) k)
  = length (filter (same_key k) rows).
Proof.
  intros Hk. unfold group_positions, enumerate. rewrite length_map.
  rewrite (filter_enumerated_length (in_group k)).
  rewrite filter_map_comm, length_map. f_equal. apply filter_ext.
  intros r. now apply in_group_same_key.
Qed.

Lemma same_key_complete (k : list scalar) (rows : list (list scalar)) :
  ~ In NaN k -> filter (same_key k) (complete rows) = filter (same_key k) rows.
Proof.
  intros Hk. unfold complete. induction rows as [| r rows IH]; simpl; [reflexivity |].
  rewrite forallb_not_nan. destruct (existsb is_nan r) eqn:E; simpl.
  - rewrite IH. rewrite <- (in_group_same_key k r Hk), E. reflexivity.
  - now rewrite IH.
Qed.

Lemma same_key_once (keys : list (list scalar)) (r : list scalar) :
  ascending key_compare keys ->
  (exists k, In k keys /\ key_compare r k = Eq) ->
  list_sum (map (fun k => Nat.b2n (same_key k r)) keys) = 1.
Proof.
  pose proof key_ordering as K.
  unfold ascending. induction 1 as [| k0 ks Hs IH Hk0]; intros (k & Hin & Hk).
  - contradiction.
  - simpl. unfold same_key at 1. destruct (key_compare r k0) eqn:E0.
    + simpl. f_equal.
      assert (Z : forall l, Forall (fun b => key_compare k0 b = Lt) l ->
                            list_sum (map (fun k => Nat.b2n (same_key k r)) l) = 0).
      { induction 1 as [| b l Hb _ IHl]; simpl; [reflexivity |].
        unfold same_key at 1. rewrite (cmp_eq_l _ K _ _ b E0), Hb. exact IHl. }
      now apply Z.
    + simpl. apply IH. destruct Hin as [<- | Hin]; [congruence | eauto].
    + simpl. apply IH. destruct Hin as [<- | Hin]; [congruence | eauto].
Qed.

Lemma group_sizes_sum (keys rows : list (list scalar)) :
  ascending key_compare keys ->
  (forall r, In r rows -> exists k, In k keys /\ key_compare r k = Eq) ->
  list_sum (map (fun k => length (filter (same_key k) rows)) keys) = length rows.
Proof.
  intros Hasc. induction rows as [| r rows IH]; intros Hcov.
  - clear. induction keys as [| k keys IH]; simpl; auto.
  - assert (E : forall l,
               list_sum (map (fun k => length (filter (same_key k) (r :: rows))) l)
               = list_sum (map (fun k => Nat.b2n (same_key k r)) l)
                 + list_sum (map (fun k => length (filter (same_key k) rows)) l)).
    { assert (C : forall a l', list_sum (a :: l') = a + list_sum l') by reflexivity.
      induction l as [| k l IHl]; [reflexivity |].
      cbn [map]. rewrite !C, IHl. cbn [filter].
      destruct (same_key k r); simpl; lia. }
    rewrite E, same_key_once, IH.
    + reflexivity.
    + intros r' Hr'. apply Hcov. now right.
    + exact Hasc.
    + apply Hcov. now left.
Qed.

Lemma group_sizes_positive (rows : list (list scalar)) :
  Forall (fun k => 1 <= length (filter (same_key k) rows)) (sort_uniq key_compare rows).
Proof.
  rewrite Forall_forall. intros k Hk. apply sort_uniq_In in Hk.
  assert (Hin : In k (filter (same_key k) rows)).
  { apply filter_In. split; [assumption |].
    unfold same_key. now rewrite (cmp_refl _ key_ordering). }
  destruct (filter (same_key k) rows); [contradiction | simpl; lia].
Qed.

Lemma zip_with_length {A B C} (f : A -> B -> C) (xs : list A) (ys : list B) :
  length xs = length ys -> length (zip_with f xs ys) = length xs.
Proof.
  revert ys; induction xs as [| x xs IH]; intros [| y ys] H; simpl in *;
    try discriminate; [reflexivity |].
  now rewrite IH by lia.
Qed.

Lemma complete_all (rows : list (list scalar)) :
  (forall r, In r rows -> ~ In NaN r) -> complete rows = rows.
Proof.
  intros H. unfold complete. induction rows as [| r rows IH]; simpl; [reflexivity |].
  rewrite forallb_not_nan, (no_nan_existsb r) by (apply H; now left). simpl.
  rewrite IH; [reflexivity |]. intros r' Hr'. apply H. now right.
Qed.

Lemma zip_with_In {A B C} (f : A -> B -> C) (xs : list A) (ys : list B) (c : C) :
  In c (zip_with f xs ys) -> exists a b, In a xs /\ In b ys /\ c = f a b.
Proof.
  revert ys; induction xs as [| x xs IH]; intros [| y ys]; simpl; try contradiction.
  intros [<- | H].
  - exists x, y. auto.
  - destruct (IH _ H) as (a & b & Ha & Hb & ->). exists a, b. auto.
Qed.

(** X11.  The supplier location table has one row for every distinct pair
    of supplier and location among the records that have both, in ascending
    order; its count is the number of records with that pair, at least one,
    and the counts add up to the number of records that have both a supplier
    and a location: to the number of all records when no such cell is
    missing. *)
Theorem supplier_locations_count_records (F : Library) (d : DataFrame) (m : metrics) :
  wf_frame d ->
  supplier_tables F d = Ok m ->
  exists s suppliers locations,
    size_table "supplier_locations" m = Some s /\
    getitem d "Supplier name" = Ok suppliers /\
    getitem d "Location" = Ok locations /\
    keys_of_groups (paired suppliers locations) (size_keys s) /\
    size_counts s = map (fun k => length (filter (same_key k) (paired suppliers locations)))
                        (size_keys s) /\
    Forall (fun n => 1 <= n) (size_counts s) /\
    list_sum (size_counts s) = length (complete (paired suppliers locations)) /\
    (~ In NaN (cells suppliers) -> ~ In NaN (cells locations) ->
     list_sum (size_counts s) = df_len d).
Proof.
  intros Hwf. unfold supplier_tables, rbind. intros H.
  stage H g Eg. stage H locs El. stage H issues Ei. injection H as <-.
  unfold groupby_size in El.
  destruct (getitem d "Supplier name") as [c1 |] eqn:E1;
    [| unfold groups_of in El; cbn [rmap] in El; rewrite E1 in El; discriminate].
  destruct (getitem d "Location") as [c2 |] eqn:E2;
    [| unfold groups_of in El; cbn [rmap] in El; rewrite E1, E2 in El; discriminate].
  rewrite (groups_of_paired_eq _ _ _ _ _ Hwf E1 E2) in El. injection El as <-.
  set (rows := paired c1 c2) in *.
  set (keys := sort_uniq key_compare (complete rows)) in *.
  assert (Hkeys : keys_of_groups rows keys) by apply sort_uniq_keys_of_groups.
  assert (Hcounts : map (@length nat)
                        (map (group_positions
                                (map (fun r => if existsb is_nan r then None else Some r)
                                     rows)) keys)
                    = map (fun k => length (filter (same_key k) rows)) keys).
  { rewrite map_map. apply map_ext_in. intros k Hk. apply group_positions_length.
    now apply (proj2 Hkeys). }
  assert (Hsum : list_sum (map (fun k => length (filter (same_key k) rows)) keys)
                 = length (complete rows)).
  { rewrite <- (group_sizes_sum keys (complete rows)).
    - f_equal. apply map_ext_in. intros k Hk. symmetry. f_equal.
      apply same_key_complete. now apply (proj2 Hkeys).
    - apply sort_uniq_ascending, key_ordering.
    - intros r Hr. now apply sort_uniq_covers; [apply key_ordering |]. }
  exists {| size_by := ["Supplier name"; "Location"]; size_name := "shipment_count";
            size_keys := keys;
            size_counts :=
              map (@length nat)
                  (map (group_positions
                          (map (fun r => if existsb is_nan r then None else Some r) rows))
                       keys) |}, c1, c2.
  cbn [size_keys size_counts].
  split; [reflexivity |]. split; [reflexivity |]. split; [reflexivity |].
  split; [exact Hkeys |]. rewrite Hcounts.
  split; [reflexivity |].
  split.
  { rewrite Forall_map, Forall_forall. intros k Hk.
    rewrite <- (same_key_complete k rows) by now apply (proj2 Hkeys).
    pose proof (group_sizes_positive (complete rows)) as P.
    rewrite Forall_forall in P. now apply P. }
  split; [exact Hsum |].
  intros N1 N2. rewrite Hsum, complete_all.
  - unfold rows, paired. rewrite zip_with_length.
    + now apply (getitem_cells_length d "Supplier name").
    + rewrite (getitem_cells_length d "Supplier name" c1),
        (getitem_cells_length d "Location" c2); auto.
  - intros r Hr. unfold rows, paired in Hr.
    apply zip_with_In in Hr as (a & b & Ha & Hb & ->).
    intros [-> | [-> | []]]; contradiction.
Qed.

(** ** Counts in the carrier table *)

Lemma is_whole_nat (n : nat) : is_whole (Q_of_nat n) = true.
Proof.
  unfold is_whole, Q_of_nat. rewrite Qfloor_Z. apply Qeq_bool_iff. reflexivity.
Qed.

Lemma round_scalar_count (F : Library) (n : nat) :
  round_scalar F (Num (Q_of_nat n)) = Num (Q_of_nat n).
Proof. unfold round_scalar. now rewrite is_whole_nat. Qed.

(** [count] counts the cells of the group that are there. *)
Lemma dropna_take_length {A} (inj : A -> scalar) (xs : list (option A)) (g : list nat) :
  (forall a, is_nan (inj a) = false) ->
  length (dropna (take_list None g xs))
  = length (filter (fun i => negb (is_nan (nth i (map (opt_scalar inj) xs) NaN))) g).
Proof.
  intros Hinj. unfold take_list.
  assert (En : forall i, nth i (map (opt_scalar inj) xs) NaN = opt_scalar inj (nth i xs None))
    by (intros i; exact (map_nth (opt_scalar inj) xs None i)).
  induction g as [| i g IH]; [reflexivity |].
  cbn [map filter]. rewrite En.
  destruct (nth i xs None) as [a |]; cbn [dropna opt_scalar]; [| exact IH].
  rewrite Hinj. cbn [negb length]. now rewrite IH.
Qed.

Lemma agg_column_count (F : Library) (groups : list (list nat)) (c : column) :
  agg_column F groups Count c =
  Ok (map (fun g => Num (Q_of_nat (length (filter (fun i => negb (is_nan (nth i (cells c) NaN)))
                                                  g)))) groups).
Proof.
  destruct c as [xs | xs]; cbn [agg_column reduce_num cells]; f_equal; apply map_ext;
    intros g.
  - now rewrite (dropna_take_length Num xs g).
  - now rewrite (dropna_take_length Str xs g).
Qed.

(** The cells of a second column at the positions where a first column
    passes a test. *)
Lemma filter_positions_length {A B} (q : A -> bool) (p : B -> bool) (db : B)
      (start : nat) (xs : list A) (ys : list B) :
  length xs = length ys ->
  length (filter (fun i => p (nth (i - start) ys db))
                 (map fst (filter (fun ir => q (snd ir))
                                  (combine (seq start (length xs)) xs))))
  = length (filter (fun xy => q (fst xy) && p (snd xy)) (combine xs ys)).
Proof.
  revert start ys; induction xs as [| x xs IH]; intros start [| y ys] H;
    try discriminate; [reflexivity |].
  injection H as H. specialize (IH (S start) ys H).
  change (seq start (length (x :: xs))) with (start :: seq (S start) (length xs)).
  cbn [combine filter fst snd].
  assert (E : forall l, Forall (fun i => S start <= i) l ->
                        filter (fun i => p (nth (i - start) (y :: ys) db)) l
                        = filter (fun i => p (nth (i - S start) ys db)) l).
  { intros l Hl. apply filter_ext_in. intros i Hi. rewrite Forall_forall in Hl.
    specialize (Hl _ Hi). replace (i - start) with (S (i - S start)) by lia.
    reflexivity. }
  assert (Hge : Forall (fun i => S start <= i)
                       (map fst (filter (fun ir : nat * A => q (snd ir))
                                        (combine (seq (S start) (length xs)) xs)))).
  { rewrite Forall_forall. intros i Hi. apply in_map_iff in Hi as ([j a] & <- & Hj).
    apply filter_In in Hj as [Hj _]. apply in_combine_l, in_seq in Hj. simpl. lia. }
  destruct (q x); cbn [map filter fst andb].
  - rewrite Nat.sub_diag. change (nth 0 (y :: ys) db) with y.
    destruct (p y); cbn [length]; rewrite (E _ Hge), IH; reflexivity.
  - now rewrite (E _ Hge), IH.
Qed.

Lemma group_count_length (k : list scalar) (keycells cs : list scalar) :
  ~ In NaN k -> length keycells = length cs ->
  length (filter (fun i => negb (is_nan (nth i cs NaN)))
                 (group_positions
                    (map (fun r => if existsb is_nan r then None else Some r)
                         (map (fun v => [v]) keycells)) k))
  = length (filter (fun r => same_key k [fst r] && negb (is_nan (snd r)))
                   (combine keycells cs)).
Proof.
  intros Hk Hlen. unfold group_positions, enumerate.
  set (rows := map (fun r => if existsb is_nan r then None else Some r)
                   (map (fun v => [v]) keycells)).
  assert (Lr : length rows = length cs) by (unfold rows; now rewrite !length_map).
  rewrite (filter_ext (fun i => negb (is_nan (nth i cs NaN)))
             (fun i => negb (is_nan (nth (i - 0) cs NaN))))
    by (intros i; now rewrite Nat.sub_0_r).
  rewrite (filter_positions_length (in_group k) (fun s => negb (is_nan s)) NaN 0 rows cs Lr).
  unfold rows. rewrite map_map. clear rows Lr.
  revert cs Hlen. induction keycells as [| v vs IH]; intros [| c cs] Hlen;
    try discriminate; [reflexivity |].
  injection Hlen as Hlen. cbn [map combine filter fst snd].
  rewrite (in_group_same_key k [v] Hk).
  destruct (same_key k [v] && negb (is_nan c)); cbn [length]; now rewrite IH.
Qed.

Lemma combine_no_nan_length (k : list scalar) (keycells cs : list scalar) :
  ~ In NaN cs -> length keycells = length cs ->
  length (filter (fun r => same_key k [fst r] && negb (is_nan (snd r)))
                 (combine keycells cs))
  = length (filter (same_key k) (map (fun v => [v]) keycells)).
Proof.
  revert cs; induction keycells as [| v vs IH]; intros [| c cs] Hno Hlen;
    try discriminate; [reflexivity |].
  injection Hlen as Hlen. cbn [map combine filter fst snd].
  assert (Hc : is_nan c = false).
  { destruct c; try reflexivity. exfalso. apply Hno. now left. }
  rewrite Hc, andb_true_r.
  assert (Hno' : ~ In NaN cs) by (intros Hin; apply Hno; now right).
  destruct (same_key k [v]); cbn [length]; now rewrite (IH cs Hno' Hlen).
Qed.

(** X12.  In the carrier table the column aggregated with [count] holds,
    for every carrier, the number of records of that carrier that have a
    number of products sold: the number of records of that carrier, when no
    such cell is missing.  Rounding to two decimals leaves these whole
    numbers as they are. *)
Theorem carrier_count_is_group_size (F : Library) (d : DataFrame) (m : metrics) :
  wf_frame d ->
  logistics_tables F d = Ok m ->
  exists g carriers sold,
    group_table "carrier_performance" m = Some g /\
    getitem d "Shipping carriers" = Ok carriers /\
    getitem d "Number of products sold" = Ok sold /\
    nth_error (agg_names g) 2 = Some ("Number of products sold", Count) /\
    nth_error (agg_values g) 2 =
      Some (map (fun k => Num (Q_of_nat (length
                   (filter (fun r => same_key k [fst r] && negb (is_nan (snd r)))
                           (combine (cells carriers) (cells sold))))))
                (group_keys g)) /\
    (~ In NaN (cells sold) ->
     nth_error (agg_values g) 2 =
       Some (map (fun k => Num (Q_of_nat (length (filter (same_key k) (single carriers)))))
                 (group_keys g))).
Proof.
  intros Hwf. unfold logistics_tables, rbind. intros H.
  stage H g1 E1. stage H g2 E2. stage H g3 E3. injection H as <-.
  unfold groupby_agg in E1.
  destruct (getitem d "Shipping carriers") as [c |] eqn:Ec;
    [| unfold groups_of in E1; cbn [rmap] in E1; rewrite Ec in E1; discriminate].
  rewrite (groups_of_single_eq _ _ _ Hwf Ec) in E1.
  cbn [rmap fst snd] in E1.
  destruct (getitem d "Shipping times") as [t1 |]; [| discriminate].
  destruct (getitem d "Shipping costs") as [t2 |]; [| discriminate].
  destruct (getitem d "Number of products sold") as [t3 |] eqn:Et; [| discriminate].
  cbn [combine rmap fst snd] in E1.
  destruct (agg_column _ _ Mean t1) as [v1 |]; [| discriminate].
  destruct (agg_column _ _ Mean t2) as [v2 |]; [| discriminate].
  rewrite agg_column_count in E1.
  injection E1 as <-.
  pose proof (sort_uniq_keys_of_groups (single c)) as [_ Hnan].
  pose proof (getitem_cells_length _ _ _ Hwf Ec) as Lc.
  pose proof (getitem_cells_length _ _ _ Hwf Et) as Lt.
  assert (Hlen : length (cells c) = length (cells t3)) by congruence.
  eexists; exists c, t3. cbn [group_table assoc String.eqb Ascii.eqb Bool.eqb].
  split; [reflexivity |]. split; [reflexivity |]. split; [reflexivity |].
  split; [reflexivity |].
  cbn [agg_values group_keys map nth_error].
  assert (Hvals : map (round_scalar F)
    (map (fun g => Num (Q_of_nat (length (filter (fun i => negb (is_nan (nth i (cells t3) NaN)))
                                                 g))))
         (map (group_positions
                 (map (fun r => if existsb is_nan r then None else Some r) (single c)))
              (sort_uniq key_compare (complete (single c)))))
    = map (fun k => Num (Q_of_nat (length
             (filter (fun r => same_key k [fst r] && negb (is_nan (snd r)))
                     (combine (cells c) (cells t3))))))
          (sort_uniq key_compare (complete (single c)))).
  { rewrite !map_map. apply map_ext_in. intros k Hk.
    rewrite round_scalar_count. do 2 f_equal.
    apply group_count_length; [now apply Hnan | exact Hlen]. }
  rewrite Hvals. split; [reflexivity |].
  intros Hno. f_equal. apply map_ext. intros k. do 2 f_equal.
  now apply combine_no_nan_length.
Qed.

(** * Properties of the dashboard *)

(** ** The score columns *)

Module DashboardFacts.
Import Dashboard.

Lemma clip_in_range (x : xfloat) : x <> XNaN -> in_0_100 (clip 0 100 x).
Proof.
  destruct x as [q | | |]; simpl; try (intros _; split; discriminate).
  - intros _. destruct (Qltb q 0) eqn:E0; [split; discriminate |].
    destruct (Qltb 100 q) eqn:E1; [split; discriminate |].
    split; apply Qnot_lt_le; intros H; apply Qltb_lt in H; congruence.
  - intros H; now contradiction H.
Qed.

Lemma efficiency_in_range (defect_rate lead_time : Q) :
  in_0_100 (efficiency_of defect_rate lead_time).
Proof. apply clip_in_range; discriminate. Qed.

Lemma fdiv_nan (x y : Q) : fdiv x y = XNaN <-> (x == 0 /\ y == 0)%Q.
Proof.
  unfold fdiv. destruct (Qeq_bool y 0) eqn:Ey.
  - apply Qeq_bool_iff in Ey. destruct (Qcompare x 0) eqn:Ex.
    + apply Qeq_alt in Ex. tauto.
    + split; [discriminate | intros [H _]]. apply Qeq_alt in H. congruence.
    + split; [discriminate | intros [H _]]. apply Qeq_alt in H. congruence.
  - split; [discriminate | intros [_ H]]. apply Qeq_bool_iff in H. congruence.
Qed.

Lemma cost_effectiveness_in_range (revenue cost : Q) :
  ~ (revenue == 0 /\ cost == 0)%Q -> in_0_100 (cost_effectiveness_of revenue cost).
Proof.
  intros H. apply clip_in_range. intros E. now apply fdiv_nan in E.
Qed.

Lemma zip_with_Forall {A B C} (P : C -> Prop) (f : A -> B -> C) (xs : list A) (ys : list B) :
  (forall x y, In x xs -> In y ys -> P (f x y)) -> Forall P (zip_with f xs ys).
Proof.
  revert ys; induction xs as [| x xs IH]; intros [| y ys] H; simpl; constructor.
  - apply H; now left.
  - apply IH. intros; apply H; now right.
Qed.

(** What [add_scores] returns: the frame itself and the two columns,
    computed from the numbers of four columns of the frame. *)
Lemma add_scores_columns (d : DataFrame) (s : Scored) :
  add_scores d = Ok s ->
  exists defects leads revenues costs,
    rbind (getitem d "Defect rates") as_numbers = Ok defects /\
    rbind (getitem d "Lead time") as_numbers = Ok leads /\
    rbind (getitem d "Revenue generated") as_numbers = Ok revenues /\
    rbind (getitem d "Manufacturing costs") as_numbers = Ok costs /\
    s = {| df := d;
           efficiency_score := zip_with (on_cells efficiency_of) defects leads;
           cost_effectiveness := zip_with (on_cells cost_effectiveness_of) revenues costs |}.
Proof.
  unfold add_scores, rbind. intros H.
  destruct (getitem d "Defect rates") as [dc |]; try discriminate.
  destruct (as_numbers dc) as [defects |]; try discriminate.
  destruct (getitem d "Lead time") as [lc |]; try discriminate.
  destruct (as_numbers lc) as [leads |]; try discriminate.
  destruct (getitem d "Revenue generated") as [rc |]; try discriminate.
  destruct (getitem d "Manufacturing costs") as [mc |]; try discriminate.
  destruct (as_numbers rc) as [revenues |]; try discriminate.
  destruct (as_numbers mc) as [costs |]; try discriminate.
  injection H as <-. now exists defects, leads, revenues, costs.
Qed.

(** What holds of the two columns: the frame itself is kept; every
    efficiency score is within bounds or, for a record without defect rate or
    lead time, NaN; and the cost effectiveness is within bounds for the
    records that have a revenue and a manufacturing cost that is not zero. *)
Lemma add_scores_in_range (d : DataFrame) (s : Scored) :
  add_scores d = Ok s ->
  df s = d /\
  Forall (fun x => in_0_100 x \/ x = XNaN) (efficiency_score s) /\
  (forall defects leads,
      rbind (getitem d "Defect rates") as_numbers = Ok defects ->
      rbind (getitem d "Lead time") as_numbers = Ok leads ->
      ~ In None defects -> ~ In None leads ->
      Forall in_0_100 (efficiency_score s)) /\
  (forall revenues costs,
      rbind (getitem d "Revenue generated") as_numbers = Ok revenues ->
      rbind (getitem d "Manufacturing costs") as_numbers = Ok costs ->
      ~ In None revenues ->
      Forall (fun c => exists q, c = Some q /\ ~ (q == 0)%Q) costs ->
      Forall in_0_100 (cost_effectiveness s)).
Proof.
  intros H. destruct (add_scores_columns _ _ H)
    as (defects & leads & revenues & costs & E1 & E2 & E3 & E4 & ->). simpl.
  split; [reflexivity |]. split; [| split].
  - apply zip_with_Forall. intros [x |] [y |] _ _; simpl; auto.
    left. apply efficiency_in_range.
  - intros defects' leads' E1' E2' N1 N2.
    rewrite E1 in E1'; injection E1' as <-. rewrite E2 in E2'; injection E2' as <-.
    apply zip_with_Forall. intros [x |] [y |] Hx Hy; simpl; try contradiction.
    apply efficiency_in_range.
  - intros revenues' costs' E3' E4' N Hnz.
    rewrite E3 in E3'; injection E3' as <-. rewrite E4 in E4'; injection E4' as <-.
    apply zip_with_Forall. intros [r |] c Hr Hc; [| contradiction].
    rewrite Forall_forall in Hnz. destruct (Hnz c Hc) as (q & -> & Hq). simpl.
    apply cost_effectiveness_in_range. now intros [_ H0].
Qed.

(** C9.  For a record with no revenue and no manufacturing cost the
    quotient is zero over zero, which [clip] leaves as it is: the cost
    effectiveness of that record is NaN, not a number between 0 and 100. *)
Theorem cost_effectiveness_of_idle_record :
  exists s,
    add_scores idle_record = Ok s /\
    cost_effectiveness s = [XNaN] /\
    ~ Forall in_0_100 (cost_effectiveness s).
Proof.
  eexists; split; [reflexivity |]. split; [reflexivity |].
  simpl. intros H. inversion H as [| x l Hx _]; subst. exact Hx.
Qed.

End DashboardFacts.

Module CallbackFacts.
Import Dashboard Callbacks DashboardFacts.

(** ** The two scores *)

Lemma clip_fin_mono (a b : Q) :
  (a <= b)%Q -> xle (clip 0 100 (Fin a)) (clip 0 100 (Fin b)).
Proof.
  intros H. simpl.
  destruct (Qltb a 0) eqn:A0; destruct (Qltb b 0) eqn:B0;
    destruct (Qltb 100 a) eqn:A1; destruct (Qltb 100 b) eqn:B1;
    repeat match goal with
           | H : Qltb _ _ = true |- _ => apply Qltb_lt in H
           | H : Qltb ?x ?y = false |- _ =>
               assert (y <= x)%Q
                 by (apply Qnot_lt_le; intros C; apply Qltb_lt in C; congruence);
               clear H
           end; lra.
Qed.

Lemma clip_fin_low (a : Q) : (a <= 0)%Q -> xeq (clip 0 100 (Fin a)) (Fin 0).
Proof.
  intros H. simpl. destruct (Qltb a 0) eqn:A0; [reflexivity |].
  assert (0 <= a)%Q by (apply Qnot_lt_le; intros C; apply Qltb_lt in C; congruence).
  destruct (Qltb 100 a) eqn:A1; [apply Qltb_lt in A1; lra | lra].
Qed.

Lemma clip_fin_high (a : Q) : (100 <= a)%Q -> xeq (clip 0 100 (Fin a)) (Fin 100).
Proof.
  intros H. simpl. destruct (Qltb a 0) eqn:A0; [apply Qltb_lt in A0; lra |].
  destruct (Qltb 100 a) eqn:A1; [reflexivity |].
  assert (a <= 100)%Q by (apply Qnot_lt_le; intros C; apply Qltb_lt in C; congruence).
  lra.
Qed.

Lemma clip_fin_inside (a : Q) : (0 <= a <= 100)%Q -> clip 0 100 (Fin a) = Fin a.
Proof.
  intros [H0 H1]. simpl. now rewrite !Qltb_false.
Qed.

Ltac by_thirty := unfold Qdiv; change (/ 30)%Q with (1 # 30)%Q; lra.

(** X15.  The efficiency score does not grow when the defect rate or the
    lead time grows; it is 100 for a record without defects and without lead
    time, and 0 for every record with a defect rate of 5 or more or a lead
    time of 30 days or more (the other being non-negative). *)
Theorem efficiency_score_monotone (d1 l1 d2 l2 : Q) :
  (d1 <= d2)%Q -> (l1 <= l2)%Q ->
  xle (efficiency_of d2 l2) (efficiency_of d1 l1) /\
  (d1 == 0 -> l1 == 0 -> xeq (efficiency_of d1 l1) (Fin 100))%Q /\
  ((0 <= d1)%Q -> (0 <= l1)%Q -> (5 <= d1 \/ 30 <= l1)%Q ->
   xeq (efficiency_of d1 l1) (Fin 0)).
Proof.
  intros Hd Hl. split; [| split].
  - unfold efficiency_of. apply clip_fin_mono. by_thirty.
  - intros Hd0 Hl0. unfold efficiency_of. apply clip_fin_high. rewrite Hd0, Hl0. by_thirty.
  - intros H0 H1 H. unfold efficiency_of. apply clip_fin_low.
    destruct H; by_thirty.
Qed.

(** X16.  At a positive manufacturing cost, the cost effectiveness is the
    revenue per unit of cost as long as that lies between 0 and 100; it is
    100 when the revenue is a hundred times the cost or more, and 0 when the
    revenue is negative or zero. *)
Theorem cost_effectiveness_values (revenue cost : Q) :
  (0 < cost)%Q ->
  ((0 <= revenue)%Q -> (revenue <= 100 * cost)%Q ->
   cost_effectiveness_of revenue cost = Fin (revenue / cost)) /\
  ((100 * cost <= revenue)%Q ->
   xeq (cost_effectiveness_of revenue cost) (Fin 100)) /\
  ((revenue <= 0)%Q ->
   xeq (cost_effectiveness_of revenue cost) (Fin 0)).
Proof.
  intros Hc.
  assert (Hfin : fdiv revenue cost = Fin (revenue / cost)).
  { unfold fdiv. destruct (Qeq_bool cost 0) eqn:E; [| reflexivity].
    apply Qeq_bool_iff in E. lra. }
  unfold cost_effectiveness_of. rewrite Hfin.
  split; [| split].
  - intros H0 H1. apply clip_fin_inside. split.
    + apply Qle_shift_div_l; [assumption | lra].
    + apply Qle_shift_div_r; [assumption | lra].
  - intros H. apply clip_fin_high. apply Qle_shift_div_l; [assumption | lra].
  - intros Hr. apply clip_fin_low. apply Qle_shift_div_r; [assumption | lra].
Qed.

End CallbackFacts.

Module SelectionFacts.
Import Dashboard Callbacks DashboardFacts CallbackFacts.

(** ** The gauge *)

Lemma Qsum_upper (x : Q) (xs : list Q) :
  (forall y, In y xs -> (y <= x)%Q) -> (Qsum xs <= Q_of_nat (length xs) * x)%Q.
Proof.
  induction xs as [| y xs IH]; intros H.
  - change (Q_of_nat (length (@nil Q))) with 0%Q. change (Qsum []) with 0%Q. lra.
  - change (Qsum (y :: xs)) with (y + Qsum xs)%Q.
    change (length (y :: xs)) with (S (length xs)). rewrite Q_of_nat_S.
    assert (Hy : (y <= x)%Q) by (apply H; now left).
    assert (Hxs : (Qsum xs <= Q_of_nat (length xs) * x)%Q)
      by (apply IH; intros z Hz; apply H; now right).
    lra.
Qed.

Lemma mean_bounds (lo hi m : Q) (xs : list Q) :
  mean xs = Some m -> (forall y, In y xs -> (lo <= y <= hi)%Q) -> (lo <= m <= hi)%Q.
Proof.
  intros Hm H. split.
  - apply (mean_ge_min lo m xs Hm). intros y Hy. now apply H.
  - destruct xs as [| y xs]; [discriminate |].
    unfold mean in Hm. injection Hm as <-.
    apply Qle_shift_div_r; [apply Q_of_nat_pos |].
    rewrite Qmult_comm. apply (Qsum_upper hi (y :: xs)). intros z Hz. now apply H.
Qed.

(** The mean of scores that are within bounds or NaN: within bounds when
    one of them is a number, NaN when none is. *)
Lemma xmean_in_range (xs : list xfloat) :
  Forall (fun x => in_0_100 x \/ x = XNaN) xs ->
  (finite_values xs <> [] -> in_0_100 (xmean xs)) /\
  (finite_values xs = [] -> xmean xs = XNaN).
Proof.
  intros H.
  assert (Hp : existsb is_pinf xs = false /\ existsb is_ninf xs = false /\
               forall q, In q (finite_values xs) -> (0 <= q <= 100)%Q).
  { induction H as [| x xs Hx _ (I1 & I2 & I3)]; simpl.
    - repeat split; contradiction.
    - destruct x as [q | | |]; simpl in Hx;
        try (destruct Hx as [[] | Hx]; discriminate); simpl.
      + destruct Hx as [Hx | Hx]; [| discriminate].
        split; [assumption |]. split; [assumption |].
        intros q' [<- | Hq']; [assumption | now apply I3].
      + split; [assumption |]. split; assumption. }
  destruct Hp as (P1 & P2 & P3). unfold xmean. rewrite P1, P2.
  destruct (mean (finite_values xs)) as [m |] eqn:E.
  - split; [| intros E'; rewrite E' in E; discriminate].
    intros _. simpl. now apply (mean_bounds 0 100 m (finite_values xs)).
  - split; [| reflexivity].
    intros Hne. destruct (finite_values xs); [contradiction | discriminate].
Qed.

Lemma zip_with_combine {A B C} (f : A -> B -> C) (xs : list A) (ys : list B) :
  zip_with f xs ys = map (fun p => f (fst p) (snd p)) (combine xs ys).
Proof.
  revert ys; induction xs as [| x xs IH]; intros [| y ys]; simpl; try reflexivity.
  now rewrite IH.
Qed.

Lemma map_fst_combine3 {A B C D} (g : A -> D) (xs : list A) (ys : list B) (zs : list C) :
  length xs = length ys -> length xs = length zs ->
  map (fun r => g (fst (fst r))) (combine (combine xs ys) zs) = map g xs.
Proof.
  revert ys zs; induction xs as [| x xs IH]; intros [| y ys] [| z zs] H1 H2;
    simpl in *; try discriminate; [reflexivity |].
  now rewrite IH by lia.
Qed.

Lemma map_snd_combine3 {A B C D} (g : B -> C -> D) (xs : list A) (ys : list B)
      (zs : list C) :
  length xs = length ys -> length xs = length zs ->
  map (fun r => g (snd (fst r)) (snd r)) (combine (combine xs ys) zs)
  = map (fun p => g (fst p) (snd p)) (combine ys zs).
Proof.
  revert ys zs; induction xs as [| x xs IH]; intros [| y ys] [| z zs] H1 H2;
    simpl in *; try discriminate; [reflexivity |].
  now rewrite IH by lia.
Qed.

Lemma eq_str_cells (c : column) (s : string) :
  eq_str c s = map (fun v => match v with
                             | Str t => String.eqb t s
                             | _ => false
                             end) (cells c).
Proof.
  destruct c as [xs | xs]; simpl; rewrite map_map; apply map_ext.
  - now intros [q |].
  - now intros [t |].
Qed.

Lemma In_combine3 {A B C} (x : A) (xs : list A) (ys : list B) (zs : list C) :
  length xs = length ys -> length xs = length zs -> In x xs ->
  exists y z, In (x, y, z) (combine (combine xs ys) zs).
Proof.
  revert ys zs; induction xs as [| a xs IH]; intros [| y ys] [| z zs] H1 H2;
    simpl in *; try discriminate; [contradiction |].
  intros [-> | H].
  - exists y, z. now left.
  - destruct (IH ys zs) as (y' & z' & Hin); try lia; [assumption |].
    exists y', z'. now right.
Qed.

(** X18.  The gauge shows the mean efficiency score of the selected product
    type: a number from 0 to 100, within the range of its axis, when the
    table has a record of that type with a defect rate and a lead time, and
    NaN when it has none.  So when no defect rate and no lead time is
    missing, it is a number from 0 to 100 when the table has a record of that
    type, and NaN when it has none. *)
Theorem gauge_value_in_range (d : DataFrame) (s : Scored) (types : column)
        (selected_product : string) :
  wf_frame d ->
  add_scores d = Ok s ->
  getitem d "Product type" = Ok types ->
  exists x defects leads,
    gauge_value selected_product s = Ok x /\
    column_is d "Defect rates" (map num_cell defects) /\
    column_is d "Lead time" (map num_cell leads) /\
    let scored :=
      filter (fun r => match r with
                       | (Str t, Some _, Some _) => String.eqb t selected_product
                       | _ => false
                       end) (combine (combine (cells types) defects) leads) in
    (scored <> [] -> in_0_100 x) /\
    (scored = [] -> x = XNaN) /\
    (~ In None defects -> ~ In None leads ->
     In (Str selected_product) (cells types) -> in_0_100 x) /\
    (~ In (Str selected_product) (cells types) -> x = XNaN).
Proof.
  intros Hwf Hs Ht.
  destruct (add_scores_columns _ _ Hs)
    as (defects & leads & revenues & costs & E1 & E2 & _ & _ & ->).
  destruct (numbers_of_column _ _ _ E1) as [C1 L1]. specialize (L1 Hwf).
  destruct (numbers_of_column _ _ _ E2) as [C2 L2]. specialize (L2 Hwf).
  pose proof (getitem_cells_length _ _ _ Hwf Ht) as Lt. unfold df_len in Lt.
  set (rows := combine (combine (cells types) defects) leads).
  set (sel := fun v => match v with
                       | Str t => String.eqb t selected_product
                       | _ => false
                       end).
  set (both := fun r : scalar * option Q * option Q =>
                 is_some (snd (fst r)) && is_some (snd r)).
  set (eff := fun r : scalar * option Q * option Q =>
                on_cells efficiency_of (snd (fst r)) (snd r)).
  assert (Emask : eq_str types selected_product = map (fun r => sel (fst (fst r))) rows).
  { rewrite eq_str_cells. unfold rows. symmetry.
    apply (map_fst_combine3 sel); congruence. }
  assert (Eeff : zip_with (on_cells efficiency_of) defects leads = map eff rows).
  { rewrite zip_with_combine. unfold rows, eff. symmetry.
    apply (map_snd_combine3 (on_cells efficiency_of)); congruence. }
  set (chosen := filter (fun r => sel (fst (fst r))) rows).
  assert (Ex : gauge_value selected_product
                 {| df := d;
                    efficiency_score := zip_with (on_cells efficiency_of) defects leads;
                    cost_effectiveness :=
                      zip_with (on_cells cost_effectiveness_of) revenues costs |}
               = Ok (xmean (map eff chosen))).
  { unfold gauge_value, filtered, rbind. cbn [df]. rewrite Ht.
    cbn [filter_scored efficiency_score]. rewrite Emask, Eeff.
    now rewrite select_map. }
  assert (Hrange : Forall (fun x => in_0_100 x \/ x = XNaN) (map eff chosen)).
  { rewrite Forall_map, Forall_forall. intros [[v [a |]] [b |]] _; unfold eff; simpl; auto.
    left. apply efficiency_in_range. }
  assert (Efin : forall l, finite_values (map eff l) = [] <-> filter both l = []).
  { induction l as [| [[v [a |]] [b |]] l IH]; unfold eff, both in *; simpl in *;
      try tauto.
    split; discriminate. }
  assert (Escored : filter (fun r => match r with
                                     | (Str t, Some _, Some _) =>
                                         String.eqb t selected_product
                                     | _ => false
                                     end) rows = filter both chosen).
  { unfold chosen. clear. induction rows as [| [[v x] y] rows IH]; [reflexivity |].
    cbn [filter fst snd]. unfold sel at 1, both at 1.
    destruct v as [q | t |]; cbn [fst snd]; try exact IH;
      try (destruct x, y; exact IH).
    destruct (String.eqb t selected_product); cbn [filter fst snd];
      destruct x, y; cbn [is_some andb]; rewrite IH; reflexivity. }
  destruct (xmean_in_range _ Hrange) as [Hin Hnan].
  exists (xmean (map eff chosen)), defects, leads.
  split; [exact Ex |]. split; [exact C1 |]. split; [exact C2 |].
  cbv zeta. fold rows. rewrite Escored.
  split; [| split; [| split]].
  - intros Hne. apply Hin. intros E. now apply Efin in E.
  - intros E. apply Hnan. now apply Efin.
  - intros N1 N2 Hsel. apply Hin. intros E. apply Efin in E.
    destruct (In_combine3 (Str selected_product) (cells types) defects leads)
      as (x & y & Hrow); try congruence; try assumption.
    fold rows in Hrow.
    assert (Hc : In (Str selected_product, x, y) (filter both chosen)).
    { apply filter_In. split.
      - apply filter_In. split; [assumption |]. simpl. apply String.eqb_refl.
      - unfold both; simpl.
        destruct x as [a |]; [| exfalso; apply N1;
                                 apply in_combine_l, in_combine_r in Hrow; exact Hrow].
        destruct y as [b |]; [reflexivity |].
        exfalso; apply N2. apply in_combine_r in Hrow. exact Hrow. }
    rewrite E in Hc. contradiction.
  - intros Hno. apply Hnan, Efin.
    assert (Hch : chosen = []).
    { unfold chosen. destruct (filter _ rows) as [| [[v x] y] l] eqn:E; [reflexivity |].
      exfalso. assert (Hin' : In (v, x, y) (filter (fun r => sel (fst (fst r))) rows))
        by (rewrite E; now left).
      apply filter_In in Hin' as [Hrow Hv]. simpl in Hv.
      destruct v as [q | t |]; try discriminate.
      apply String.eqb_eq in Hv. subst t. apply Hno.
      apply in_combine_l, in_combine_l in Hrow. exact Hrow. }
    now rewrite Hch.
Qed.

End SelectionFacts.

(** ** The overall metrics of the summary report *)

Lemma nansum_total (F : Library) (xs : list (option Q)) : Num (nansum F xs) = total F xs.
Proof.
  unfold nansum, total. rewrite dropna_present.
  destruct (present xs) as [| x1 [| x2 l]]; reflexivity.
Qed.

Lemma nanmean_average (F : Library) (xs : list (option Q)) :
  opt_scalar Num (nanmean F xs) = average F xs.
Proof.
  unfold nanmean, average. rewrite dropna_present.
  destruct (present xs) as [| x1 [| x2 l]]; reflexivity.
Qed.

(** X19.  On a table whose revenue and units columns are numeric and whose
    defect rates and lead times hold no string, [generate_summary_report]
    returns and leaves the instance.  Its overall metrics are, under their
    four names and in this order, the total of the revenues, the total of the
    units, the average of the defect rates and the average of the lead times,
    each over the cells that are there: a total is 0 and an average NaN when
    no cell is there, and both are the number itself when one cell is. *)
Theorem generate_summary_report_totals (F : Library) (e : SupplyChainAnalyzer)
        (revenue units defects leads : list (option Q)) :
  getitem (data e) "Revenue generated" = Ok (NumCol revenue) ->
  getitem (data e) "Number of products sold" = Ok (NumCol units) ->
  column_is (data e) "Defect rates" (map num_cell defects) ->
  column_is (data e) "Lead time" (map num_cell leads) ->
  exists rep,
    generate_summary_report F e = (Ok rep, e) /\
    overall_metrics rep =
      [("Total Revenue", total F revenue);
       ("Total Units Sold", total F units);
       ("Average Defect Rate", average F defects);
       ("Average Lead Time", average F leads)] /\
    (present revenue = [] -> assoc "Total Revenue" (overall_metrics rep) = Some (Num 0)) /\
    (forall x, present revenue = [x] ->
               assoc "Total Revenue" (overall_metrics rep) = Some (Num x)) /\
    (forall x1 x2 l, present revenue = x1 :: x2 :: l ->
               assoc "Total Revenue" (overall_metrics rep)
               = Some (Num (fsum F (x1 :: x2 :: l)))) /\
    (present defects = [] ->
     assoc "Average Defect Rate" (overall_metrics rep) = Some NaN) /\
    (forall x, present defects = [x] ->
               assoc "Average Defect Rate" (overall_metrics rep) = Some (Num x)) /\
    (forall x1 x2 l, present defects = x1 :: x2 :: l ->
               assoc "Average Defect Rate" (overall_metrics rep)
               = Some (Num (fmean F (x1 :: x2 :: l)))).
Proof.
  intros Hr Hu (cd & Hd & Hcd) (cl & Hl & Hcl).
  apply as_numbers_cells in Hcd. apply as_numbers_cells in Hcl.
  unfold generate_summary_report, bind, lift, ret, get_data, get_product_metrics,
    get_supplier_metrics, get_logistics_metrics, series_mean, rbind.
  rewrite Hr, Hu, Hd, Hl, Hcd, Hcl. cbn [series_sum].
  eexists. split; [reflexivity |]. cbn [overall_metrics].
  rewrite !nansum_total, !nanmean_average.
  split; [reflexivity |].
  cbn [assoc String.eqb Ascii.eqb Bool.eqb]. unfold total, average.
  repeat split; intros; match goal with H : present _ = _ |- _ => now rewrite H end.
Qed.

(** ** The dropdown *)

Section FirstAppearance.
Context {A : Type} (cmp : A -> A -> comparison).
Hypothesis cmp_eq : forall x y, cmp x y = Eq <-> x = y.










End FirstAppearance.




Module DropdownFacts.
Import Dashboard Callbacks.





End DropdownFacts.

(** ** The revenue chart *)

Lemma filter_rows_wf (mask : list bool) (d : DataFrame) :
  wf_frame d -> length mask = df_len d -> wf_frame (filter_rows mask d).
Proof.
  unfold wf_frame, filter_rows, df_len; simpl. intros Hwf Hlen.
  rewrite Forall_map. rewrite Forall_forall in *. intros [n c] Hin.
  specialize (Hwf _ Hin). simpl in *.
  rewrite <- !cells_length in *. rewrite cells_select_col.
  rewrite !select_length by congruence. reflexivity.
Qed.

(** The cells of a second list at the positions where a first list passes
    a test. *)
Lemma take_positions {A B} (q : A -> bool) (db : B) (start : nat) (xs : list A)
      (ys : list B) :
  length xs = length ys ->
  map (fun i => nth (i - start) ys db)
      (map fst (filter (fun ir => q (snd ir)) (combine (seq start (length xs)) xs)))
  = map snd (filter (fun xy => q (fst xy)) (combine xs ys)).
Proof.
  revert start ys; induction xs as [| x xs IH]; intros start [| y ys] H;
    try discriminate; [reflexivity |].
  injection H as H. specialize (IH (S start) ys H).
  change (seq start (length (x :: xs))) with (start :: seq (S start) (length xs)).
  cbn [combine filter fst snd].
  assert (E : forall l, Forall (fun i => S start <= i) l ->
                        map (fun i => nth (i - start) (y :: ys) db) l
                        = map (fun i => nth (i - S start) ys db) l).
  { intros l Hl. apply map_ext_in. intros i Hi. rewrite Forall_forall in Hl.
    specialize (Hl _ Hi). replace (i - start) with (S (i - S start)) by lia.
    reflexivity. }
  assert (Hge : Forall (fun i => S start <= i)
                       (map fst (filter (fun ir : nat * A => q (snd ir))
                                        (combine (seq (S start) (length xs)) xs)))).
  { rewrite Forall_forall. intros i Hi. apply in_map_iff in Hi as ([j a] & <- & Hj).
    apply filter_In in Hj as [Hj _]. apply in_combine_l, in_seq in Hj. simpl. lia. }
  destruct (q x); cbn [map fst snd].
  - rewrite Nat.sub_diag. change (nth 0 (y :: ys) db) with y.
    now rewrite (E _ Hge), IH.
  - now rewrite (E _ Hge), IH.
Qed.

Lemma combine_map {R A B} (f : R -> A) (g : R -> B) (l : list R) :
  combine (map f l) (map g l) = map (fun r => (f r, g r)) l.
Proof. induction l as [| r l IH]; simpl; [reflexivity | now rewrite IH]. Qed.

Lemma combine3_projections {A B C} (xs : list A) (ys : list B) (zs : list C) :
  length xs = length ys -> length xs = length zs ->
  let rows := combine (combine xs ys) zs in
  xs = map (fun r => fst (fst r)) rows /\
  ys = map (fun r => snd (fst r)) rows /\
  zs = map snd rows.
Proof.
  revert ys zs; induction xs as [| x xs IH]; intros [| y ys] [| z zs] H1 H2;
    simpl in *; try discriminate; [repeat split |].
  destruct (IH ys zs) as (E1 & E2 & E3); try lia.
  repeat split; f_equal; assumption.
Qed.

Lemma group_sum_total (F : Library) (xs : list (option Q)) :
  Num (group_sum F xs) = group_total F xs.
Proof.
  unfold group_sum, group_total. rewrite dropna_present.
  destruct (present xs) as [| x1 [| x2 l]]; reflexivity.
Qed.

Module RevenueChart.
Import Dashboard Callbacks.

(** X20.  The table behind the revenue chart has one row for every
    location that occurs among the records of the selected product type
    that have a location, in ascending order of the location and without
    repetition, and no row for any other location; the row of a location
    holds the sum, as [groupby] computes it, of the revenues of the selected
    records at that location that have a revenue (0 when none has). *)
Theorem location_revenue_bars (F : Library) (s : Scored) (selected_product : string)
        (types locations : column) (revenues : list (option Q)) :
  wf_frame (df s) ->
  getitem (df s) "Product type" = Ok types ->
  getitem (df s) "Location" = Ok locations ->
  getitem (df s) "Revenue generated" = Ok (NumCol revenues) ->
  exists keys sums,
    location_revenue F selected_product s = Ok (keys, sums) /\
    let selected :=
      filter (fun r => match fst (fst r) with
                       | Str t => String.eqb t selected_product
                       | _ => false
                       end)
             (combine (combine (cells types) (cells locations)) revenues) in
    keys_of_groups (map (fun r => [snd (fst r)]) selected) keys /\
    sums = map (fun k => group_total F
                           (map snd (filter (fun r => same_key k [snd (fst r)]) selected)))
               keys.
Proof.
  intros Hwf Ht Hl Hr.
  pose proof (getitem_cells_length _ _ _ Hwf Ht) as Lt.
  pose proof (getitem_cells_length _ _ _ Hwf Hl) as Ll.
  pose proof (getitem_cells_length _ _ _ Hwf Hr) as Lr. simpl in Lr.
  rewrite length_map in Lr.
  set (rows := combine (combine (cells types) (cells locations)) revenues).
  set (sel := fun r : scalar * scalar * option Q =>
                match fst (fst r) with
                | Str t => String.eqb t selected_product
                | _ => false
                end).
  destruct (combine3_projections (cells types) (cells locations) revenues)
    as (Et & El & Er); try congruence. fold rows in Et, El, Er.
  assert (Emask : eq_str types selected_product = map sel rows).
  { rewrite SelectionFacts.eq_str_cells, Et at 1. now rewrite map_map. }
  set (d' := filter_rows (eq_str types selected_product) (df s)).
  assert (Hwf' : wf_frame d').
  { apply filter_rows_wf; [assumption |].
    rewrite Emask, length_map. unfold rows.
    rewrite !length_combine. unfold df_len in *. lia. }
  assert (Hl' : getitem d' "Location"
                = Ok (select_col (eq_str types selected_product) locations))
    by (now apply getitem_filter_rows_ok).
  assert (Hr' : getitem d' "Revenue generated"
                = Ok (NumCol (select (eq_str types selected_product) revenues)))
    by (exact (getitem_filter_rows_ok _ _ _ _ Hr)).
  assert (Ecells : single (select_col (eq_str types selected_product) locations)
                   = map (fun r => [snd (fst r)]) (filter sel rows)).
  { unfold single. rewrite cells_select_col, Emask. rewrite El at 1.
    now rewrite select_map, map_map. }
  assert (Erevs : select (eq_str types selected_product) revenues
                  = map snd (filter sel rows)).
  { rewrite Emask. rewrite Er at 1. now rewrite select_map. }
  set (keys := sort_uniq key_compare
                 (complete (map (fun r => [snd (fst r)]) (filter sel rows)))).
  assert (Hkeys : keys_of_groups (map (fun r => [snd (fst r)]) (filter sel rows)) keys)
    by apply sort_uniq_keys_of_groups.
  exists keys.
  eexists. split.
  { unfold location_revenue, filtered, rbind. rewrite Ht.
    unfold filter_scored; cbn [Dashboard.df]. fold d'.
    rewrite (groups_of_single_eq _ _ _ Hwf' Hl'), Hr'. cbn [fst snd agg_column].
    rewrite Ecells. fold keys. reflexivity. }
  cbv zeta. fold rows. fold sel.
  split; [exact Hkeys |].
  rewrite map_map. apply map_ext_in. intros k Hk.
  assert (Hnan : ~ In NaN k) by (exact (proj2 Hkeys k Hk)).
  cbn [reduce_num]. rewrite group_sum_total. f_equal.
  rewrite Erevs. unfold take_list, group_positions, enumerate.
  rewrite (map_ext (fun i => nth i (map snd (filter sel rows)) None)
             (fun i => nth (i - 0) (map snd (filter sel rows)) None))
    by (intros i; now rewrite Nat.sub_0_r).
  rewrite (take_positions (in_group k) None 0) by (now rewrite !length_map).
  rewrite map_map, combine_map, filter_map_comm, map_map. cbn [fst snd].
  f_equal. apply filter_ext. intros r. now apply in_group_same_key.
Qed.

End RevenueChart.

(** * The statements at the sample tables *)

Lemma get_risk_assessment_rows_witness :
  rows_of (data (fresh alerts_sample)) alerts_rows /\
  exists rf,
    get_risk_assessment sample_library (fresh alerts_sample)
      = (Ok rf, fresh alerts_sample) /\
    risk_rows rf = risk_assessment_spec sample_library alerts_rows /\
    map risk_label (risk_rows rf) = [0; 1] /\
    map total_risk_score (risk_rows rf) = [4; 2].
Proof.
  assert (H : rows_of (data (fresh alerts_sample)) alerts_rows).
  { unfold rows_of. split; [reflexivity |].
    repeat split; eexists; split; reflexivity. }
  split; [exact H |].
  destruct (get_risk_assessment_rows sample_library (fresh alerts_sample) alerts_rows H)
    as ((rf & Hrf & Hrows) & _).
  exists rf. split; [exact Hrf |]. split; [exact Hrows |].
  rewrite Hrows. split; reflexivity.
Defined.


(** C3, as stated, fails: a method that was invoked and raised leaves its
    slot empty.  On a table without product types the call of
    [analyze_product_performance] raises [KeyError], and the report made
    afterwards holds [None] for the product performance. *)
Lemma invoked_method_may_leave_slot_empty :
  ~ (forall (F : Library) (d : DataFrame) (ops : list op) (log : list (op * outcome))
            (e' e'' : SupplyChainAnalyzer) (rep : SummaryReport),
        session F ops (fresh d) = (log, e') ->
        generate_summary_report F e' = (Ok rep, e'') ->
        (Product_Performance rep = None <->
         invoked AnalyzeProductPerformance ops = false)).
Proof.
  intros H.
  destruct (generate_summary_report sample_library (fresh summary_only))
    as [[rep | x] e''] eqn:Hrep; [| vm_compute in Hrep; discriminate].
  destruct (H sample_library summary_only [AnalyzeProductPerformance]
              [(AnalyzeProductPerformance, Raised (KeyError "Product type"))]
              (fresh summary_only) e'' rep eq_refl Hrep) as [H1 _].
  vm_compute in Hrep. injection Hrep as <- <-.
  specialize (H1 eq_refl). discriminate.
Qed.

(** The same happens on a file that has every column of the schema and no
    row: its columns have no numeric type, and [nlargest] raises [TypeError]
    unless a reduction over text has raised before. *)
Lemma analyze_raises_on_table_without_rows (F : Library) :
  load_defect header_only_file = false /\
  exists x,
    analyze_product_performance F (fresh header_only) = (Raise x, fresh header_only).
Proof.
  split; [reflexivity |].
  rewrite analyze_product_performance_eq. cbn [data fresh].
  unfold product_tables.
  destruct (groupby_agg F ["Product type"] _ header_only) as [g | x].
  - exists TypeError. reflexivity.
  - exists x. reflexivity.
Qed.

Lemma summary_report_marks_slots_witness :
  let ops := [AnalyzeProductPerformance; AnalyzeLogistics; GetRiskAssessment] in
  let log := [(AnalyzeProductPerformance, Raised (KeyError "Product type"));
              (AnalyzeLogistics, Returned); (GetRiskAssessment, Returned)] in
  exists e' rep m,
    session sample_library ops (fresh untyped) = (log, e') /\
    generate_summary_report sample_library e' = (Ok rep, e') /\
    Product_Performance rep = None /\
    Supplier_Performance rep = None /\
    logistics_tables sample_library untyped = Ok m /\
    Logistics_Performance rep = Some m.
Proof.
  intros ops log.
  destruct (session sample_library ops (fresh untyped)) as [log' e'] eqn:Hs.
  assert (Hlog : log' = log) by (vm_compute in Hs; now injection Hs as <- _).
  subst log'.
  destruct (generate_summary_report sample_library e') as [[rep | x] e''] eqn:Hrep;
    [| vm_compute in Hs; injection Hs as <-; vm_compute in Hrep; discriminate].
  assert (He : e'' = e').
  { pose proof (generate_summary_report_reads sample_library e') as Hq.
    rewrite Hrep in Hq. exact Hq. }
  subst e''.
  destruct (summary_report_marks_slots sample_library untyped ops log e' e' rep Hs Hrep)
    as (_ & (Hp & _) & (Hsu & _) & (_ & _ & Hl) & _).
  destruct Hl as (m & Hm & Hslot & _); [right; left; reflexivity |].
  exists e', rep, m. split; [reflexivity |]. split; [exact Hrep |].
  split; [apply Hp; simpl; intuition discriminate |].
  split; [apply Hsu; simpl; intuition discriminate |].
  split; [exact Hm | exact Hslot].
Defined.


Lemma group_keys_distinct_sorted_witness :
  wf_frame alerts_sample /\
  exists m g c,
    product_tables sample_library alerts_sample = Ok m /\
    group_table "category_performance" m = Some g /\
    getitem alerts_sample "Product type" = Ok c /\
    cells c = [Str "skincare"; Str "haircare"; Str "skincare"; NaN; Str "cosmetics"] /\
    keys_of_groups (single c) (group_keys g) /\
    group_keys g = [[Str "cosmetics"]; [Str "haircare"]; [Str "skincare"]].
Proof.
  assert (Hwf : wf_frame alerts_sample) by apply parse_table_wf.
  split; [exact Hwf |].
  destruct (product_tables sample_library alerts_sample) as [m |] eqn:Hm;
    [| vm_compute in Hm; discriminate].
  destruct (proj1 (group_keys_distinct_sorted sample_library alerts_sample Hwf) m Hm)
    as (g & c & Hg & Hc & Hkeys).
  exists m, g, c. split; [reflexivity |]. split; [exact Hg |]. split; [exact Hc |].
  vm_compute in Hc. injection Hc as <-.
  split; [reflexivity |]. split; [exact Hkeys |].
  vm_compute in Hm. injection Hm as <-. vm_compute in Hg. now injection Hg as <-.
Defined.

Lemma top_revenue_products_rows_witness :
  exists m top,
    product_tables sample_library alerts_sample = Ok m /\
    frame_table "top_revenue_products" m = Some top /\
    index top = [1; 2; 0; 3; 4] /\
    column_is top "Revenue generated" [Num 900; Num 900; Num 300; Num 50; NaN].
Proof.
  destruct (product_tables sample_library alerts_sample) as [m |] eqn:Hm;
    [| vm_compute in Hm; discriminate].
  destruct (top_revenue_products_rows sample_library alerts_sample m Hm)
    as (top & revs & order & Htop & _).
  exists m, top. split; [reflexivity |]. split; [exact Htop |].
  vm_compute in Hm. injection Hm as <-. vm_compute in Htop. injection Htop as <-.
  split; [reflexivity |]. eexists; split; reflexivity.
Defined.


Lemma stock_alerts_rows_witness :
  wf_frame alerts_sample /\
  exists m alerts,
    product_tables sample_library alerts_sample = Ok m /\
    frame_table "stock_alerts" m = Some alerts /\
    index alerts = [0; 3] /\
    column_is alerts "Stock levels" [Num 5; Num 7].
Proof.
  assert (Hwf : wf_frame alerts_sample) by apply parse_table_wf.
  split; [exact Hwf |].
  destruct (product_tables sample_library alerts_sample) as [m |] eqn:Hm;
    [| vm_compute in Hm; discriminate].
  destruct (stock_alerts_rows sample_library alerts_sample m Hwf Hm)
    as (alerts & stocks & Halerts & _).
  exists m, alerts. split; [reflexivity |]. split; [exact Halerts |].
  vm_compute in Hm. injection Hm as <-. vm_compute in Halerts. injection Halerts as <-.
  split; [reflexivity |]. eexists; split; reflexivity.
Defined.

Lemma quality_issues_rows_witness :
  wf_frame alerts_sample /\
  exists m issues,
    supplier_tables sample_library alerts_sample = Ok m /\
    frame_table "quality_issues" m = Some issues /\
    index issues = [0; 2] /\
    column_is issues "SKU" [Str "SKU0"; Str "SKU2"].
Proof.
  assert (Hwf : wf_frame alerts_sample) by apply parse_table_wf.
  split; [exact Hwf |].
  destruct (supplier_tables sample_library alerts_sample) as [m |] eqn:Hm;
    [| vm_compute in Hm; discriminate].
  destruct (quality_issues_rows sample_library alerts_sample m Hwf Hm)
    as (issues & inspections & Hissues & _).
  exists m, issues. split; [reflexivity |]. split; [exact Hissues |].
  vm_compute in Hm. injection Hm as <-. vm_compute in Hissues. injection Hissues as <-.
  split; [reflexivity |]. eexists; split; reflexivity.
Defined.


Lemma single_record_is_no_cost_risk_witness :
  wf_frame one_record /\ df_len one_record <= 1 /\
  exists rf,
    get_risk_assessment sample_library (fresh one_record) = (Ok rf, fresh one_record) /\
    Cost_Risk rf = [false].
Proof.
  assert (Hwf : wf_frame one_record) by apply parse_table_wf.
  assert (Hlen : df_len one_record <= 1) by (vm_compute; lia).
  split; [exact Hwf |]. split; [exact Hlen |].
  destruct (get_risk_assessment sample_library (fresh one_record))
    as [[rf | x] e'] eqn:Hr; [| vm_compute in Hr; discriminate].
  assert (He : e' = fresh one_record).
  { pose proof (get_risk_assessment_reads sample_library (fresh one_record)) as Hq.
    rewrite Hr in Hq. exact Hq. }
  subst e'.
  pose proof (single_record_is_no_cost_risk sample_library (fresh one_record)
                (fresh one_record) rf Hwf Hlen Hr) as Hcost.
  exists rf. split; [reflexivity |].
  vm_compute in Hr. now injection Hr as <-.
Defined.

Lemma recommendations_order_and_priority_witness :
  exists recs,
    generate_recommendations sample_library (fresh alerts_sample)
      = (Ok recs, fresh alerts_sample) /\
    map area recs = ["Inventory"; "Quality"; "Logistics"] /\
    map priority recs = ["High"; "High"; "Medium"] /\
    NoDup (map area recs).
Proof.
  destruct (generate_recommendations sample_library (fresh alerts_sample))
    as [[recs | x] e'] eqn:Hr; [| vm_compute in Hr; discriminate].
  assert (He : e' = fresh alerts_sample).
  { pose proof (generate_recommendations_reads sample_library (fresh alerts_sample)) as Hq.
    rewrite Hr in Hq. exact Hq. }
  subst e'.
  destruct (recommendations_order_and_priority sample_library (fresh alerts_sample)
              (fresh alerts_sample) recs Hr) as (b1 & b2 & b3 & _ & _ & _ & Hnd).
  exists recs. split; [reflexivity |].
  split; [vm_compute in Hr; now injection Hr as <- |].
  split; [vm_compute in Hr; now injection Hr as <- | exact Hnd].
Defined.

Lemma no_logistics_entry_below_two_records_witness :
  wf_frame one_record /\ df_len one_record <= 1 /\
  exists recs,
    generate_recommendations sample_library (fresh one_record)
      = (Ok recs, fresh one_record) /\
    map area recs = ["Inventory"; "Quality"] /\
    Forall (fun r => area r <> "Logistics") recs.
Proof.
  assert (Hwf : wf_frame one_record) by apply parse_table_wf.
  assert (Hlen : df_len one_record <= 1) by (vm_compute; lia).
  split; [exact Hwf |]. split; [exact Hlen |].
  destruct (generate_recommendations sample_library (fresh one_record))
    as [[recs | x] e'] eqn:Hr; [| vm_compute in Hr; discriminate].
  assert (He : e' = fresh one_record).
  { pose proof (generate_recommendations_reads sample_library (fresh one_record)) as Hq.
    rewrite Hr in Hq. exact Hq. }
  subst e'.
  pose proof (no_logistics_entry_below_two_records sample_library (fresh one_record)
                (fresh one_record) recs Hwf Hlen Hr) as Hno.
  exists recs. split; [reflexivity |].
  split; [vm_compute in Hr; now injection Hr as <- | exact Hno].
Defined.

Lemma get_risk_assessment_contract_witness :
  (exists rf, get_risk_assessment sample_library (fresh alerts_sample)
              = (Ok rf, fresh alerts_sample)) /\
  (get_risk_assessment sample_library (fresh (loaded broken_file))
   = (Raise TypeError, fresh (loaded broken_file)) /\
   exists name, In name ["Stock levels"; "Lead time"; "Defect rates"; "Manufacturing costs"] /\
                is_text_column (loaded broken_file) name).
Proof.
  split.
  - apply (proj1 (get_risk_assessment_contract sample_library (fresh alerts_sample))).
    split; [eexists; reflexivity |].
    repeat constructor;
      (eexists; split; [reflexivity | intros t H; simpl in H; intuition discriminate]).
  - split; [reflexivity |].
    destruct (proj2 (get_risk_assessment_contract sample_library
                       (fresh (loaded broken_file))) TypeError _ eq_refl)
      as (_ & [(name & Hx & _) | (_ & Hname)]); [discriminate | exact Hname].
Defined.

Lemma generate_recommendations_contract_witness :
  (exists recs, generate_recommendations sample_library (fresh alerts_sample)
                = (Ok recs, fresh alerts_sample)) /\
  (generate_recommendations sample_library (fresh (loaded marked_file))
   = (Raise (KeyError "Inspection results"), fresh (loaded marked_file)) /\
   ~ has (loaded marked_file) "Inspection results").
Proof.
  split.
  - apply (proj1 (generate_recommendations_contract sample_library (fresh alerts_sample))).
    split; [| split].
    + eexists; split; [reflexivity | intros t H; simpl in H; intuition discriminate].
    + eexists; reflexivity.
    + eexists; split; [reflexivity | intros t H; simpl in H; intuition discriminate].
  - split; [reflexivity |].
    destruct (proj2 (generate_recommendations_contract sample_library
                       (fresh (loaded marked_file)))
                    (KeyError "Inspection results") _ eq_refl)
      as (_ & [(name & Hx & _ & Hno) | (Hx & _)]); [| discriminate].
    injection Hx as <-. exact Hno.
Defined.

Lemma analyze_order_is_irrelevant_witness :
  let ops1 := [AnalyzeProductPerformance; AnalyzeLogistics] in
  let ops2 := [AnalyzeLogistics; GetRiskAssessment; AnalyzeProductPerformance;
               AnalyzeProductPerformance] in
  exists e1 e2,
    run sample_library ops1 (fresh alerts_sample) = (Ok tt, e1) /\
    run sample_library ops2 (fresh alerts_sample) = (Ok tt, e2) /\
    same_analyses ops1 ops2 /\
    e1 = e2.
Proof.
  intros ops1 ops2.
  destruct (run sample_library ops1 (fresh alerts_sample)) as [[[] | x] e1] eqn:H1;
    [| vm_compute in H1; discriminate].
  destruct (run sample_library ops2 (fresh alerts_sample)) as [[[] | x] e2] eqn:H2;
    [| vm_compute in H2; discriminate].
  assert (Hsame : same_analyses ops1 ops2) by (repeat split).
  exists e1, e2. split; [reflexivity |]. split; [reflexivity |].
  split; [exact Hsame |].
  exact (analyze_order_is_irrelevant sample_library ops1 ops2 (fresh alerts_sample)
           e1 e2 H1 H2 Hsame).
Defined.

Lemma supplier_locations_count_records_witness :
  wf_frame alerts_sample /\
  exists m s,
    supplier_tables sample_library alerts_sample = Ok m /\
    size_table "supplier_locations" m = Some s /\
    size_keys s = [[Str "Supplier 1"; Str "Delhi"]; [Str "Supplier 3"; Str "Mumbai"]] /\
    size_counts s = [2; 2] /\
    list_sum (size_counts s) = 4.
Proof.
  assert (Hwf : wf_frame alerts_sample) by apply parse_table_wf.
  split; [exact Hwf |].
  destruct (supplier_tables sample_library alerts_sample) as [m |] eqn:Hm;
    [| vm_compute in Hm; discriminate].
  destruct (supplier_locations_count_records sample_library alerts_sample m Hwf Hm)
    as (s & suppliers & locations & Hs & Hsup & Hloc & _ & _ & _ & Hsum & _).
  exists m, s. split; [reflexivity |]. split; [exact Hs |].
  split; [vm_compute in Hm; injection Hm as <-; vm_compute in Hs; now injection Hs as <- |].
  split; [vm_compute in Hm; injection Hm as <-; vm_compute in Hs; now injection Hs as <- |].
  rewrite Hsum. vm_compute in Hsup. injection Hsup as <-.
  vm_compute in Hloc. now injection Hloc as <-.
Defined.

Lemma carrier_count_is_group_size_witness :
  wf_frame alerts_sample /\
  exists m g,
    logistics_tables sample_library alerts_sample = Ok m /\
    group_table "carrier_performance" m = Some g /\
    group_keys g = [[Str "Carrier A"]; [Str "Carrier B"]; [Str "Carrier C"]] /\
    nth_error (agg_values g) 2 = Some [Num 2; Num 2; Num 1].
Proof.
  assert (Hwf : wf_frame alerts_sample) by apply parse_table_wf.
  split; [exact Hwf |].
  destruct (logistics_tables sample_library alerts_sample) as [m |] eqn:Hm;
    [| vm_compute in Hm; discriminate].
  destruct (carrier_count_is_group_size sample_library alerts_sample m Hwf Hm)
    as (g & carriers & sold & Hg & _).
  exists m, g. split; [reflexivity |]. split; [exact Hg |].
  vm_compute in Hm. injection Hm as <-. vm_compute in Hg. injection Hg as <-.
  split; reflexivity.
Defined.

Lemma generate_summary_report_totals_witness :
  exists rep,
    generate_summary_report sample_library (fresh alerts_sample)
      = (Ok rep, fresh alerts_sample) /\
    overall_metrics rep =
      [("Total Revenue", Num (300 + (900 + (900 + (50 + 0)))));
       ("Total Units Sold", Num (8 + (7 + (9 + (1 + (2 + 0))))));
       ("Average Defect Rate", Num ((4 + ((1 # 2) + (1 + (2 + (0 + 0))))) / 5));
       ("Average Lead Time", Num ((29 + (23 + (12 + (2 + (1 + 0))))) / 5))].
Proof.
  destruct (generate_summary_report_totals sample_library (fresh alerts_sample)
              [Some 300; Some 900; Some 900; Some 50; None]%Q
              [Some 8; Some 7; Some 9; Some 1; Some 2]%Q
              [Some 4; Some (1 # 2); Some 1; Some 2; Some 0]%Q
              [Some 29; Some 23; Some 12; Some 2; Some 1]%Q)
    as (rep & Hrep & Hvals & _).
  - reflexivity.
  - reflexivity.
  - eexists; split; reflexivity.
  - eexists; split; reflexivity.
  - exists rep. split; [exact Hrep |]. rewrite Hvals. reflexivity.
Defined.

Module ScoreWitnesses.
Import Dashboard Callbacks DashboardFacts CallbackFacts SelectionFacts.
Import DropdownFacts RevenueChart.


Lemma location_revenue_bars_witness :
  wf_frame (df alerts_scored) /\
  exists keys sums,
    location_revenue sample_library "skincare" alerts_scored = Ok (keys, sums) /\
    keys = [[Str "Mumbai"]] /\
    sums = [Num (300 + (900 + 0))].
Proof.
  assert (Hwf : wf_frame (df alerts_scored)) by apply parse_table_wf.
  split; [exact Hwf |].
  destruct (location_revenue_bars sample_library alerts_scored "skincare" _ _
              [Some 300; Some 900; Some 900; Some 50; None]%Q Hwf eq_refl eq_refl eq_refl)
    as (keys & sums & Hrev & _ & Hsums).
  exists keys, sums. split; [exact Hrev |].
  vm_compute in Hrev. injection Hrev as <- <-. split; reflexivity.
Defined.

Lemma efficiency_score_monotone_witness :
  xle (efficiency_of 2 12) (efficiency_of 1 6) /\
  xeq (efficiency_of 5 0) (Fin 0).
Proof.
  destruct (efficiency_score_monotone 1 6 2 12) as (H1 & _); [lra | lra |].
  destruct (efficiency_score_monotone 5 0 5 0) as (_ & _ & H3); [lra | lra |].
  split; [exact H1 | apply H3; [lra | lra | left; lra]].
Defined.

Lemma cost_effectiveness_values_witness :
  cost_effectiveness_of 300 46 = Fin (300 / 46) /\
  xeq (cost_effectiveness_of 9000 30) (Fin 100).
Proof.
  destruct (cost_effectiveness_values 300 46) as (H1 & _); [lra |].
  destruct (cost_effectiveness_values 9000 30) as (_ & H2 & _); [lra |].
  split; [apply H1; lra | apply H2; lra].
Defined.

Lemma gauge_value_in_range_witness :
  wf_frame alerts_sample /\
  exists s x,
    add_scores alerts_sample = Ok s /\
    gauge_value "skincare" s = Ok x /\
    in_0_100 x /\
    gauge_value "perfume" s = Ok XNaN.
Proof.
  assert (Hwf : wf_frame alerts_sample) by apply parse_table_wf.
  split; [exact Hwf |].
  destruct (add_scores alerts_sample) as [s |] eqn:Hs; [| vm_compute in Hs; discriminate].
  destruct (gauge_value_in_range alerts_sample s _ "skincare" Hwf Hs eq_refl)
    as (x & defects & leads & Hx & Hd & Hl & _ & _ & Hin & _).
  destruct (gauge_value_in_range alerts_sample s _ "perfume" Hwf Hs eq_refl)
    as (y & _ & _ & Hy & _ & _ & _ & _ & _ & Hnan).
  exists s, x. split; [reflexivity |]. split; [exact Hx |]. split.
  - destruct Hd as (cd & Hcd & Hd). vm_compute in Hcd. injection Hcd as <-.
    destruct Hl as (cl & Hcl & Hl). vm_compute in Hcl. injection Hcl as <-.
    apply Hin.
    + intros H. apply (in_map num_cell) in H. rewrite <- Hd in H.
      simpl in H. intuition discriminate.
    + intros H. apply (in_map num_cell) in H. rewrite <- Hl in H.
      simpl in H. intuition discriminate.
    + simpl. tauto.
  - rewrite Hy. f_equal. apply Hnan. simpl. intuition discriminate.
Defined.

End ScoreWitnesses.
